(** * jkd_qa screenshot runner: capture keys, scroll loop, purge and run report

  A shallow embedding of the parts of [helpers.py], [screenshot_urls.py]
  and [controllers/screenshots_controller.py] that the specification
  speaks about, followed by the properties proved of them.

  Conventions of the embedding.
  - A Python [str] is a [string]: the bytes of its UTF-8 encoding.  The
    sanitiser treats every byte above 127 as an unsafe character and
    squeezes whole runs of them, so its output on the bytes equals its
    output on the code points.
  - A Python [int] is a [Z]; a Python [float] is a binary64 [float].
  - A [pathlib.Path] that names a file is a pair of its parent directory
    and its file name; the file system is a finite map from such paths
    to file contents.
  - Code that may raise returns a sum: [inl msg] is the raised exception
    with its message, [inr v] the returned value.
  - The imaging libraries, the capture subprocess, the string library
    behind the URL list reader, the clock and the JSON encoder are
    parameters of the run ([Imaging] and [Host]); the browser session is
    a parameter of the scroll loop ([WebDriver]) and of the batch
    ([Chrome]), whose string library and base64 decoder are a parameter
    too ([Lib]).  Every statement holds for all of them.
  - [Pipeline] puts the script in the place of the capture subprocess:
    the endpoints then run [main] on the file system they hold. *)

From Stdlib Require Import ZArith Bool Ascii Floats Lia.
From Stdlib Require QArith_base Qround.
From stdpp Require Import base option list gmap sets strings pretty.

Open Scope Z_scope.

(** A decimal literal denotes the nearest binary64 value, as in Python. *)
Set Warnings "-inexact-float".

(** ** Python string primitives used by the sources *)

Module Py.

(** [s.startswith(p)], returning the rest of [s] after [p]. *)
Fixpoint strip_prefix (p s : string) : option string :=
  match p, s with
  | EmptyString, _ => Some s
  | String a p', String b s' =>
      if Ascii.eqb a b then strip_prefix p' s' else None
  | String _ _, EmptyString => None
  end.

(** [s.lstrip(c)] for a one-character set. *)
Fixpoint lstrip (c : ascii) (s : string) : string :=
  match s with
  | EmptyString => EmptyString
  | String a s' => if Ascii.eqb a c then lstrip c s' else s
  end.

(** [s.rstrip(c)] for a one-character set. *)
Fixpoint rstrip (c : ascii) (s : string) : string :=
  match s with
  | EmptyString => EmptyString
  | String a s' =>
      match rstrip c s' with
      | EmptyString => if Ascii.eqb a c then EmptyString else String a EmptyString
      | r => String a r
      end
  end.

(** [s.strip(c)]. *)
Definition strip (c : ascii) (s : string) : string := rstrip c (lstrip c s).

(** The first [n] characters of [s] (all of [s] when it is shorter). *)
Fixpoint take (n : nat) (s : string) : string :=
  match n, s with
  | O, _ => EmptyString
  | S _, EmptyString => EmptyString
  | S n', String a s' => String a (take n' s')
  end.

(** [s[:n]]: a negative bound counts from the end of the string. *)
Definition slice_to (s : string) (n : Z) : string :=
  if 0 <=? n then take (Z.to_nat n) s
  else take (Z.to_nat (Z.of_nat (String.length s) + n)) s.

(** [re.sub(r"[cls]+", repl, s)]: every maximal run of characters of the
    class [cls] is replaced by one copy of [repl].  [in_run] tells whether
    the character before [s] was already part of a run. *)
Fixpoint sub_runs (cls : ascii -> bool) (repl : string) (in_run : bool)
         (s : string) : string :=
  match s with
  | EmptyString => EmptyString
  | String a s' =>
      if cls a then
        if in_run then sub_runs cls repl true s'
        else repl +:+ sub_runs cls repl true s'
      else String a (sub_runs cls repl false s')
  end.

Definition re_sub_class_plus (cls : ascii -> bool) (repl s : string) : string :=
  sub_runs cls repl false s.

(** [not s] on a string. *)
Definition is_empty (s : string) : bool :=
  match s with EmptyString => true | String _ _ => false end.

(** Whether every character of [s] is in the class [p]. *)
Fixpoint all_chars (p : ascii -> bool) (s : string) : bool :=
  match s with
  | EmptyString => true
  | String c s' => p c && all_chars p s'
  end.

(** Whether the first character of [s] is [c]. *)
Definition starts_with_char (c : ascii) (s : string) : bool :=
  match s with
  | EmptyString => false
  | String a _ => Ascii.eqb a c
  end.

(** Whether [s] holds two neighbouring characters that are both [c]. *)
Fixpoint has_repeat (c : ascii) (s : string) : bool :=
  match s with
  | EmptyString => false
  | String a s' => (Ascii.eqb a c && starts_with_char c s') || has_repeat c s'
  end.

End Py.

(** ** helpers.py *)

Module Helpers.

(** The character class [A-Za-z0-9._-]. *)
Definition in_range (lo hi c : ascii) : bool :=
  (nat_of_ascii lo <=? nat_of_ascii c)%nat && (nat_of_ascii c <=? nat_of_ascii hi)%nat.

Definition is_safe (c : ascii) : bool :=
  in_range "A" "Z" c || in_range "a" "z" c || in_range "0" "9" c
  || Ascii.eqb c "." || Ascii.eqb c "_" || Ascii.eqb c "-".

Definition is_unsafe (c : ascii) : bool := negb (is_safe c).

Definition is_underscore (c : ascii) : bool := Ascii.eqb c "_".

(** [re.sub(r"^https?://", "", url)]: the pattern is anchored, so at most
    one scheme is removed, and only a lower-case one. *)
Definition strip_scheme (url : string) : string :=
  match Py.strip_prefix "https://" url with
  | Some rest => rest
  | None =>
      match Py.strip_prefix "http://" url with
      | Some rest => rest
      | None => url
      end
  end.

(** The value of [safe] after the third line of [sanitize_filename]:
    scheme stripped, unsafe runs replaced, separator runs collapsed,
    separators trimmed from both ends. *)
Definition normalized (url : string) : string :=
  let safe := strip_scheme url in
  let safe := Py.re_sub_class_plus is_unsafe "_" safe in
  Py.strip "_" (Py.re_sub_class_plus is_underscore "_" safe).

(** The value of [safe] after the truncation, before the fallback. *)
Definition truncated (url : string) (max_len : Z) : string :=
  let safe := normalized url in
  if Z.of_nat (String.length safe) >? max_len
  then Py.slice_to safe max_len
  else safe.

Definition max_len_default : Z := 150.

Definition sanitize_filename (url : string) (max_len : Z) : string :=
  let safe := truncated url max_len in
  let safe := if Py.is_empty safe then "screenshot" else safe in
  safe +:+ ".png".

End Helpers.


(** ** Exceptions *)

(** A call that may raise: [Raise msg] is the exception with [str(e) = msg]. *)
Abbreviation Exc A := (string + A)%type.
Abbreviation Raise msg := (inl msg).
Abbreviation Return v := (inr v).

(** ** The file system under /data *)

Module Fs.

(** A file is named by its directory and its entry name in it.  Two
    directory strings name the same directory only when they are equal.
    Only files are entries: creating a directory changes nothing. *)
Abbreviation path := (string * string)%type.

(** [files] holds the bytes of every file; [read_only] holds the paths the
    operating system refuses to delete or to write. *)
Record t : Type := mk {
  files : gmap path string;
  read_only : gset path;
}.

(** [str(dir / name)]. *)
Definition to_str (p : path) : string := p.1 +:+ "/" +:+ p.2.

(** [p.exists()]. *)
Definition path_exists (p : path) (fs : t) : bool :=
  bool_decide (is_Some (files fs !! p)).

(** Whether [s] ends with [suffix]. *)
Fixpoint ends_with (suffix s : string) : bool :=
  String.eqb s suffix ||
  match s with
  | EmptyString => false
  | String _ s' => ends_with suffix s'
  end.

(** Whether an entry name matches the pattern [*.png]. *)
Definition is_png (name : string) : bool := ends_with ".png" name.

Definition in_glob_png (dir : string) (p : path) : bool :=
  String.eqb p.1 dir && is_png p.2.

(** [dir.glob("*.png")]: the entries of [dir] itself whose name matches. *)
Definition glob_png (dir : string) (fs : t) : list path :=
  List.filter (in_glob_png dir) (elements (dom (files fs))).

(** [p.unlink()]. *)
Definition unlink (p : path) (fs : t) : Exc t :=
  if bool_decide (p ∈ read_only fs) then Raise "PermissionError"
  else
    match files fs !! p with
    | None => Raise "FileNotFoundError"
    | Some _ => Return (mk (delete p (files fs)) (read_only fs))
    end.

(** [p.write_bytes(data)] and [p.write_text(data)]. *)
Definition write (p : path) (data : string) (fs : t) : Exc t :=
  if bool_decide (p ∈ read_only fs) then Raise "PermissionError"
  else Return (mk (<[p := data]> (files fs)) (read_only fs)).

End Fs.

(** ** screenshot_urls.py *)

Module ScreenshotUrls.

(** The script carries its own copy of [sanitize_filename]. *)
Definition sanitize_filename (url : string) (max_len : Z) : string :=
  let safe := Helpers.strip_scheme url in
  let safe := Py.re_sub_class_plus Helpers.is_unsafe "_" safe in
  let safe := Py.strip "_" (Py.re_sub_class_plus Helpers.is_underscore "_" safe) in
  let safe :=
    if Z.of_nat (String.length safe) >? max_len
    then Py.slice_to safe max_len
    else safe in
  let safe := if Py.is_empty safe then "screenshot" else safe in
  safe +:+ ".png".

(** *** The browser session *)

(** What [gentle_scroll] asks of the session.  A script call may raise;
    offsets and heights are whole pixels. *)
Class WebDriver (D : Type) : Type := {
  (** [execute_script("return document.body.scrollHeight || ...")] *)
  script_scroll_height : D -> Exc Z * D;
  (** [execute_script("window.scrollTo(0, arguments[0]);", y)] *)
  script_scroll_to : Z -> D -> Exc unit * D;
  (** [execute_script("return window.pageYOffset;")] *)
  script_page_y_offset : D -> Exc Z * D;
  (** what the page does during [time.sleep(pause)] *)
  page_sleep : float -> D -> D;
}.

(** The calls made on the session, in order, with what they returned. *)
Inductive call : Type :=
| GetScrollHeight (height : Z)
| ScrollTo (y : Z)
| Sleep (pause : float)
| GetPageYOffset (offset : Z).

(** How a run of the loop ends.  [OutOfFuel] is not a Python outcome: it
    marks a run cut short by the recursion bound of the embedding. *)
Inductive outcome (A : Type) : Type :=
| Returned (a : A)
| Raised (msg : string)
| OutOfFuel.
Arguments Returned {A} a.
Arguments Raised {A} msg.
Arguments OutOfFuel {A}.

Section Scroll.
Context {D : Type} `{WebDriver D}.

(** A command threads the session and the log of calls. *)
Definition cmd (A : Type) : Type := D * list call -> outcome A * (D * list call).

Definition ret {A} (a : A) : cmd A := fun s => (Returned a, s).

Definition bind {A B} (c : cmd A) (k : A -> cmd B) : cmd B :=
  fun s =>
    match c s with
    | (Returned a, s') => k a s'
    | (Raised msg, s') => (Raised msg, s')
    | (OutOfFuel, s') => (OutOfFuel, s')
    end.

Definition out_of_fuel {A} : cmd A := fun s => (OutOfFuel, s).

Definition get_scroll_height : cmd Z :=
  fun '(d, log) =>
    match script_scroll_height d with
    | (Return h, d') => (Returned h, (d', log ++ [GetScrollHeight h]))
    | (Raise msg, d') => (Raised msg, (d', log))
    end.

Definition scroll_to (y : Z) : cmd unit :=
  fun '(d, log) =>
    match script_scroll_to y d with
    | (Return _, d') => (Returned tt, (d', log ++ [ScrollTo y]))
    | (Raise msg, d') => (Raised msg, (d', log))
    end.

Definition get_page_y_offset : cmd Z :=
  fun '(d, log) =>
    match script_page_y_offset d with
    | (Return y, d') => (Returned y, (d', log ++ [GetPageYOffset y]))
    | (Raise msg, d') => (Raised msg, (d', log))
    end.

Definition sleep (pause : float) : cmd unit :=
  fun '(d, log) => (Returned tt, (page_sleep pause d, log ++ [Sleep pause])).

Local Notation "'let!' x := c1 'in' c2" := (bind c1 (fun x => c2))
  (at level 10, x name, c1 at level 100, c2 at level 200).

(** The [while steps < max_steps] loop of [gentle_scroll].  [fuel] bounds
    the recursion of the embedding only; the loop test is the code's. *)
Fixpoint scroll_loop (fuel : nat) (pause : float)
         (max_steps last_height steps : Z) : cmd unit :=
  if steps <? max_steps then
    match fuel with
    | O => out_of_fuel
    | S fuel' =>
        let! height := get_scroll_height in
        let! _ := scroll_to (Z.min (last_height + 800) height) in
        let! _ := sleep pause in
        let! new_height := get_page_y_offset in
        let steps := steps + 1 in
        if new_height =? last_height then
          let! _ := scroll_to height in
          sleep pause
        else scroll_loop fuel' pause max_steps new_height steps
    end
  else ret tt.

Definition gentle_scroll (pause : float) (max_steps : Z) : cmd unit :=
  scroll_loop (Z.to_nat max_steps) pause max_steps 0 0.

End Scroll.

Definition pause_default : float := 0.1%float.
Definition max_steps_default : Z := 100.

(** The number of loop iterations a log of calls records: each iteration
    reads the document height once, first. *)
Definition iterations (log : list call) : nat :=
  List.length (List.filter (fun c => match c with GetScrollHeight _ => true | _ => false end) log).

(** The number of scroll commands a log records. *)
Definition scroll_commands (log : list call) : nat :=
  List.length (List.filter (fun c => match c with ScrollTo _ => true | _ => false end) log).

(** *** The shape of a run, in the words of the specification *)

(** The calls of one iteration that starts with [last_height] as the last
    offset read, finds the document [height] tall and reads back [offset]. *)
Definition step_calls (pause : float) (last_height height offset : Z) : list call :=
  [GetScrollHeight height; ScrollTo (Z.min (last_height + 800) height);
   Sleep pause; GetPageYOffset offset].

(** The final jump to the bottom of a document [height] tall. *)
Definition final_jump (pause : float) (height : Z) : list call :=
  [ScrollTo height; Sleep pause].


(** *** Clearing old screenshots in [main] *)

(** [try: f.unlink() except Exception as e: print(...)]; the second
    component collects the printed lines. *)
Definition unlink_or_warn (acc : Fs.t * list string) (f : Fs.path)
  : Fs.t * list string :=
  match Fs.unlink f acc.1 with
  | Return fs' => (fs', acc.2)
  | Raise e =>
      (acc.1, acc.2 ++ ["[WARN] Could not delete " +:+ Fs.to_str f +:+ ": " +:+ e])
  end.

(** [for f in out_dir.glob("*.png"): try: f.unlink() except: print(...)] *)
Definition clear_old_screenshots (out_dir : string) (fs : Fs.t) : Fs.t * list string :=
  foldl unlink_or_warn (fs, []) (Fs.glob_png out_dir fs).

(** *** The batch: [read_urls], [build_driver], [wait_for_load],
    [capture_fullpage_png_chrome], [screenshot_url] and [main] *)

(** The string library and the base64 decoder the script calls. *)
Record Lib : Type := {
  (** [text.splitlines()] *)
  splitlines : string -> list string;
  (** [ln.strip()] *)
  strip_blanks : string -> string;
  (** [re.match(r"^https?://", url, re.I)] *)
  match_scheme : string -> bool;
  (** [base64.b64decode(data)] *)
  b64decode : string -> Exc string;
}.

(** [read_urls(path)]: reading a file that does not exist raises. *)
Definition read_urls (lib : Lib) (p : Fs.path) (fs0 : Fs.t) : Exc (list string) :=
  match Fs.files fs0 !! p with
  | None => Raise ("FileNotFoundError: " +:+ Fs.to_str p)
  | Some text =>
      let lines := List.map (strip_blanks lib) (splitlines lib text) in
      Return
        (List.filter
           (fun ln =>
              negb (Py.is_empty ln)
              && negb (bool_decide (is_Some (Py.strip_prefix "#" ln))))
           lines)
  end.

(** [if not re.match(r"^https?://", url, re.I): url = "https://" + url] *)
Definition ensure_scheme (lib : Lib) (url : string) : string :=
  if match_scheme lib url then url else "https://" +:+ url.

(** The classes of exception the script tells apart.  In selenium
    [TimeoutException] is a subclass of [WebDriverException]. *)
Inductive exn_class : Type :=
| TimeoutException
| WebDriverException
| OtherException.

(** [isinstance(e, TimeoutException)] *)
Definition is_timeout (c : exn_class) : bool :=
  match c with
  | TimeoutException => true
  | WebDriverException | OtherException => false
  end.

(** [isinstance(e, WebDriverException)] *)
Definition is_webdriver_exception (c : exn_class) : bool :=
  match c with
  | TimeoutException | WebDriverException => true
  | OtherException => false
  end.

(** A call that may raise an exception of some class, with [str(e)]. *)
Abbreviation Res A := ((exn_class * string) + A)%type.

(** The [contentSize] object of [Page.getLayoutMetrics]: the keys it
    holds.  A JSON number is a rational. *)
Record ContentSize : Type := {
  cs_width : option QArith_base.Q;
  cs_height : option QArith_base.Q;
}.

(** What the batch asks of Chrome besides the scroll scripts. *)
Class Chrome (D : Type) : Type := {
  chrome_scripts :: WebDriver D;
  (** [webdriver.Chrome(options=chrome_options)], by the option list *)
  chrome_start : list string -> Res D;
  (** [execute_cdp_cmd("Page.enable", {})] *)
  cdp_page_enable : D -> Res unit * D;
  (** [driver.get(url)] *)
  driver_get : string -> D -> Res unit * D;
  (** [WebDriverWait(driver, timeout).until(readyState == "complete")] *)
  wait_until_complete : Z -> D -> Res unit * D;
  (** [execute_cdp_cmd("Page.getLayoutMetrics", {})], then
      [metrics.get("contentSize")]: [None] when the key is missing *)
  cdp_get_layout_metrics : D -> Res (option ContentSize) * D;
  (** [execute_cdp_cmd("Emulation.setDeviceMetricsOverride", ...)] with
      the width and the height sent *)
  cdp_set_device_metrics_override : Z -> Z -> D -> Res unit * D;
  (** [execute_cdp_cmd("Page.captureScreenshot", ...)], then
      [result.get("data")]: [None] when the key is missing *)
  cdp_capture_screenshot : D -> Res (option string) * D;
  (** [driver.quit()] *)
  driver_quit : D -> Res unit * D;
}.

(** The calls the batch makes on Chrome, in order, logged when made. *)
Inductive event : Type :=
| Start (options : list string)
| PageEnable
| Get (url : string)
| WaitForLoad (timeout : Z)
| TimeSleep (secs : float)
| Script (c : call)
| GetLayoutMetrics
| SetDeviceMetricsOverride (width height : Z)
| CaptureScreenshot
| Quit.

(** What the running script holds: the session, the file system, the
    lines printed so far and the log of calls. *)
Record Process (D : Type) : Type := {
  session : D;
  disk : Fs.t;
  printed : list string;
  events : list event;
}.
Arguments session {D} _.
Arguments disk {D} _.
Arguments printed {D} _.
Arguments events {D} _.

(** How the process ends. *)
Record Exit : Type := {
  (** the exit status *)
  exit_code : Z;
  (** the lines written to the standard output *)
  stdout_lines : list string;
  (** the message of the exception that ended the process, if one did *)
  uncaught : option string;
  disk_after : Fs.t;
  session_calls : list event;
}.

(** The command line of [main]. *)
Record Args : Type := {
  a_urls : Fs.path;
  a_out : string;
  a_timeout : Z;
  a_wait : float;
  a_headful : bool;
}.

(** The option list of [build_driver]. *)
Definition chrome_options (window_width window_height : Z) (headless : bool)
  : list string :=
  (if headless then ["--headless=new"] else [])
  ++ ["--disable-gpu"; "--hide-scrollbars"; "--no-sandbox";
      "--disable-dev-shm-usage";
      "--window-size=" +:+ pretty window_width +:+ "," +:+ pretty window_height].

Definition window_width_default : Z := 1920.
Definition window_height_default : Z := 1080.

(** The URLs a log of calls navigated to, in order. *)
Definition visited (log : list event) : list string :=
  omap (fun e => match e with Get url => Some url | _ => None end) log.

(** The number of [driver.quit()] calls in a log. *)
Definition quits (log : list event) : nat :=
  List.length (List.filter (fun e => match e with Quit => true | _ => false end) log).

(** The number of [time.sleep] calls a log of scroll calls records. *)
Definition pauses (log : list call) : nat :=
  List.length (List.filter (fun c => match c with Sleep _ => true | _ => false end) log).

(** Whether an override stays within the bounds the capture sets. *)
Definition within_bounds (e : event) : bool :=
  match e with
  | SetDeviceMetricsOverride width height => (width <=? 10000) && (height <=? 200000)
  | _ => true
  end.

Section Batch.
Context {D : Type} `{Chrome D}.
Variable lib : Lib.

(** A statement of the script: an exception keeps the state reached. *)
Definition run (A : Type) : Type := Process D -> Res A * Process D.

Definition pure {A} (a : A) : run A := fun p => (inr a, p).

Definition and_then {A B} (c : run A) (k : A -> run B) : run B :=
  fun p =>
    match c p with
    | (inr a, p') => k a p'
    | (inl e, p') => (inl e, p')
    end.

Local Notation "'let!' x := c1 'in' c2" := (and_then c1 (fun x => c2))
  (at level 10, x name, c1 at level 100, c2 at level 200).
Local Notation "c1 ;; c2" := (and_then c1 (fun _ => c2))
  (at level 100, c2 at level 200, right associativity).

(** [try: body except cls as e: handler(str(e))] *)
Definition try_except {A} (catches : exn_class -> bool) (body : run A)
           (handler : string -> run A) : run A :=
  fun p =>
    match body p with
    | (inr a, p') => (inr a, p')
    | (inl (c, msg), p') =>
        if catches c then handler msg p' else (inl (c, msg), p')
    end.

(** A call on the session. *)
Definition on_session {A} (e : event) (f : D -> Res A * D) : run A :=
  fun p =>
    let '(r, d') := f (session p) in
    (r, {| session := d'; disk := disk p; printed := printed p;
           events := events p ++ [e] |}).

(** [print(line)] *)
Definition print (line : string) : run unit :=
  fun p =>
    (inr tt,
     {| session := session p; disk := disk p;
        printed := printed p ++ [line]; events := events p |}).

(** [time.sleep(secs)] *)
Definition time_sleep (secs : float) : run unit :=
  fun p =>
    (inr tt,
     {| session := page_sleep secs (session p); disk := disk p;
        printed := printed p; events := events p ++ [TimeSleep secs] |}).

(** [path.write_bytes(data)]: an [OSError] is no [WebDriverException]. *)
Definition write_bytes (path : Fs.path) (data : string) : run unit :=
  fun p =>
    match Fs.write path data (disk p) with
    | Raise msg => (inl (OtherException, msg), p)
    | Return fs' =>
        (inr tt,
         {| session := session p; disk := fs'; printed := printed p;
            events := events p |})
    end.

(** [base64.b64decode(data)]: a [binascii.Error] is no
    [WebDriverException]. *)
Definition decode_base64 (data : string) : run string :=
  fun p =>
    match b64decode lib data with
    | Raise msg => (inl (OtherException, msg), p)
    | Return bytes => (inr bytes, p)
    end.

(** [gentle_scroll(driver, pause, max_steps)] as a statement of the
    script.  [WebDriver] does not track the class of what a scroll script
    raises and nothing catches it, so it is carried as [OtherException];
    the loop never runs out of fuel. *)
Definition call_gentle_scroll (pause : float) (max_steps : Z) : run unit :=
  fun p =>
    let '(r, (d', calls)) := gentle_scroll pause max_steps (session p, []) in
    let p' := {| session := d'; disk := disk p; printed := printed p;
                 events := events p ++ List.map Script calls |} in
    match r with
    | Returned _ => (inr tt, p')
    | Raised msg => (inl (OtherException, msg), p')
    | OutOfFuel => (inl (OtherException, "out of fuel"), p')
    end.

(** [build_driver(window_width, window_height, headless)]: the session or
    the exception, and the calls made. *)
Definition build_driver (window_width window_height : Z) (headless : bool)
  : Res D * list event :=
  let options := chrome_options window_width window_height headless in
  match chrome_start options with
  | inl e => (inl e, [Start options])
  | inr driver =>
      match cdp_page_enable driver with
      | (inl e, _) => (inl e, [Start options; PageEnable])
      | (inr _, driver) => (inr driver, [Start options; PageEnable])
      end
  end.

(** [wait_for_load(driver, timeout)] *)
Definition wait_for_load (timeout : Z) : run unit :=
  on_session (WaitForLoad timeout) (wait_until_complete timeout).

(** [capture_fullpage_png_chrome(driver)] *)
Definition capture_fullpage_png_chrome : run string :=
  let! metrics := on_session GetLayoutMetrics cdp_get_layout_metrics in
  let content_size :=
    default {| cs_width := None; cs_height := None |} metrics in
  let width :=
    Qround.Qceiling (default (QArith_base.inject_Z 1920) (cs_width content_size)) in
  let height :=
    Qround.Qceiling (default (QArith_base.inject_Z 1080) (cs_height content_size)) in
  let width := Z.min width 10000 in
  let height := Z.min height 200000 in
  let! _ := on_session (SetDeviceMetricsOverride width height)
              (cdp_set_device_metrics_override width height) in
  let! result := on_session CaptureScreenshot cdp_capture_screenshot in
  let data := default "" result in
  decode_base64 data.

(** The first half of [screenshot_url] (lines 117 to 130): load the page,
    wait for it, pause, scroll it. *)
Definition load_page (url : string) (timeout : Z) (extra_wait : float) : run unit :=
  print ("[INFO] Loading: " +:+ url) ;;
  on_session (Get url) (driver_get url) ;;
  try_except is_timeout
    (wait_for_load timeout)
    (fun _ => print ("[WARN] Timed out waiting for readyState on: " +:+ url)) ;;
  (if PrimFloat.ltb 0 extra_wait then time_sleep extra_wait else pure tt) ;;
  call_gentle_scroll 0.15%float max_steps_default.

(** The second half (lines 132 to 140): capture the page and write the
    file, or report the [WebDriverException] that prevented it. *)
Definition capture_page (url out_dir : string) : run unit :=
  try_except is_webdriver_exception
    (let! png := capture_fullpage_png_chrome in
     let name := sanitize_filename url Helpers.max_len_default in
     let path := (out_dir, name) in
     write_bytes path png ;;
     print ("[OK] Saved: " +:+ Fs.to_str path))
    (fun e => print ("[ERROR] Failed to capture " +:+ url +:+ ": " +:+ e)).

(** [screenshot_url(driver, url, out_dir, timeout, extra_wait)] *)
Definition screenshot_url (url out_dir : string) (timeout : Z) (extra_wait : float)
  : run unit :=
  load_page url timeout extra_wait ;;
  capture_page url out_dir.

(** The [for url in urls] loop of [main]. *)
Fixpoint screenshot_all (urls : list string) (out_dir : string) (timeout : Z)
         (wait : float) : run unit :=
  match urls with
  | [] => pure tt
  | url :: urls' =>
      let url := ensure_scheme lib url in
      screenshot_url url out_dir timeout wait ;;
      screenshot_all urls' out_dir timeout wait
  end.

(** The process ended with [status] and no traceback: by [sys.exit(status)],
    or with status 0 at the end of [main]. *)
Definition sys_exit (status : Z) (lines : list string) (fs0 : Fs.t)
           (log : list event) : Exit :=
  {| exit_code := status; stdout_lines := lines; uncaught := None;
     disk_after := fs0; session_calls := log |}.

(** The process ended by an exception nothing caught: status 1. *)
Definition traceback (msg : string) (lines : list string) (fs0 : Fs.t)
           (log : list event) : Exit :=
  {| exit_code := 1; stdout_lines := lines; uncaught := Some msg;
     disk_after := fs0; session_calls := log |}.

(** [main()], from the parsed command line. *)
Definition main (args : Args) (fs0 : Fs.t) : Exit :=
  let url_file := a_urls args in
  if negb (Fs.path_exists url_file fs0) then
    sys_exit 1 ["[FATAL] URL file not found: " +:+ Fs.to_str url_file] fs0 []
  else
    match read_urls lib url_file fs0 with
    | Raise msg => traceback msg [] fs0 []
    | Return urls =>
        if bool_decide (urls = []) then
          sys_exit 1 ["[FATAL] No URLs found in file."] fs0 []
        else
          let out_dir := a_out args in
          let '(fs1, warnings) := clear_old_screenshots out_dir fs0 in
          match build_driver window_width_default window_height_default
                  (negb (a_headful args)) with
          | (inl (_, msg), log) => traceback msg warnings fs1 log
          | (inr driver, log) =>
              let p0 := {| session := driver; disk := fs1;
                           printed := warnings; events := log |} in
              let '(body, p1) :=
                screenshot_all urls out_dir (a_timeout args) (a_wait args) p0 in
              (* finally: driver.quit() *)
              let '(quit, p2) := on_session Quit driver_quit p1 in
              match quit, body with
              | inl (_, msg), _ =>
                  traceback msg (printed p2) (disk p2) (events p2)
              | inr _, inl (_, msg) =>
                  traceback msg (printed p2) (disk p2) (events p2)
              | inr _, inr _ =>
                  sys_exit 0 (printed p2) (disk p2) (events p2)
              end
          end
    end.

End Batch.

(** *** What a statement of the script may do *)

(** The calls of the capture itself. *)
Definition is_capture_call (e : event) : bool :=
  match e with
  | GetLayoutMetrics | SetDeviceMetricsOverride _ _ | CaptureScreenshot => true
  | _ => false
  end.

(** The calls made for a page once it is navigated to: no start, no
    navigation, no quit, and overrides within the bounds. *)
Definition page_call (e : event) : bool :=
  match e with
  | Start _ | PageEnable | Get _ | Quit => false
  | SetDeviceMetricsOverride width height => (width <=? 10000) && (height <=? 200000)
  | _ => true
  end.

(** The calls made for a page before its capture. *)
Definition load_call (e : event) : bool :=
  page_call e && negb (is_capture_call e).

(** [c] leaves the file system as it is and appends to the log only calls
    that satisfy [ok]. *)
Definition quiet {D A : Type} (ok : event -> bool)
           (c : Process D -> Res A * Process D) : Prop :=
  forall p : Process D,
    disk (c p).2 = disk p /\
    exists new : list event,
      events (c p).2 = events p ++ new /\ forallb ok new = true.





End ScreenshotUrls.

(** ** controllers/screenshots_controller.py *)

Module Controller.

(** *** Paths (helpers.py) *)

Definition DATA_DIR : string := "/data".
Definition URLS_DEFAULT : Fs.path := (DATA_DIR, "urls.txt").
Definition OUT_DEFAULT : string := DATA_DIR +:+ "/" +:+ "screenshots".
Definition TRAINER_DIR_DEFAULT : string := DATA_DIR +:+ "/" +:+ "trainer_screenshots".
Definition DIFF_DIR_DEFAULT : string := DATA_DIR +:+ "/" +:+ "diff".
Definition REPORTS_DIR_DEFAULT : string := DATA_DIR +:+ "/" +:+ "reports".

(** [DATA_DIR / x]: an absolute [x] replaces the left operand. *)
Definition under_data (x : string) : string :=
  match Py.strip_prefix "/" x with
  | Some _ => x
  | None => DATA_DIR +:+ "/" +:+ x
  end.

(** [DATA_DIR / x if x else default] for a directory parameter: [None] and
    the empty string are both false. *)
Definition dir_or (param : option string) (default : string) : string :=
  match param with
  | Some x => if Py.is_empty x then default else under_data x
  | None => default
  end.

(** The same for the URL list, a file: it is looked up as the entry [x] of
    [DATA_DIR]. *)
Definition file_or (param : option string) (default : Fs.path) : Fs.path :=
  match param with
  | Some x => if Py.is_empty x then default else (DATA_DIR, x)
  | None => default
  end.

(** *** The data of a run *)

(** The query parameters of [GET /run]. *)
Record Query : Type := {
  urls_file : option string;
  out_dir : option string;
  trainer_dir : option string;
  diff_dir : option string;
  reports_dir : option string;
  timeout : Z;
  wait : float;
  headful : bool;
  ssim_threshold : float;
}.

Definition ssim_threshold_default : float := 0.92%float.

(** The directories a run works in, once resolved. *)
Record Dirs : Type := {
  shots_dir : string;
  base_dir : string;
  diffs_dir : string;
  reps_dir : string;
}.

(** What [run_script] reports of the capture subprocess. *)
Record ExecDetails : Type := {
  exec_ok : bool;
  returncode : Z;
  stdout : string;
  stderr : string;
}.

(** One entry of [per_item].  A key the entry does not carry is [None];
    for [current] and [diff], which may carry Python's [None], the inner
    option is the value. *)
Record Item : Type := {
  url : string;
  status : string;
  metrics : option (float * float);
  reason : option string;
  current : option string;
  trainer : string;
  diff : option (option string);
}.

Record Report : Type := {
  r_urls_file : string;
  r_screenshots_dir : string;
  r_trainer_dir : string;
  r_diff_dir : string;
  r_ssim_threshold : float;
  r_execution : ExecDetails;
  r_totals : gmap string Z;
  r_items : list Item;
  r_report_path : option string;
}.

(** What the endpoint answers. *)
Inductive Response : Type :=
| ErrorResponse (error : string)
| ReportResponse (report : Report).

(** The calls into the imaging helpers, in order. *)
Inductive imaging_call : Type :=
| PngToArray (p : Fs.path)
| ComputeMetrics
| SaveDiffImage (p : Fs.path).

(** The state the comparison loop works on. *)
Record LoopState : Type := {
  per_item : list Item;
  totals : gmap string Z;
  fs : Fs.t;
  imaging : list imaging_call;
}.

(** *** Statements over the loop state; an exception keeps the state *)

Definition M (A : Type) : Type := LoopState -> Exc A * LoopState.

Definition ret {A} (a : A) : M A := fun st => (Return a, st).

Definition bind {A B} (c : M A) (k : A -> M B) : M B :=
  fun st =>
    match c st with
    | (Return a, st') => k a st'
    | (Raise msg, st') => (Raise msg, st')
    end.

(** [try: body except Exception as e: handler(str(e))]. *)
Definition try_except {A} (body : M A) (handler : string -> M A) : M A :=
  fun st =>
    match body st with
    | (Return a, st') => (Return a, st')
    | (Raise msg, st') => handler msg st'
    end.

Notation "'let!' x := c1 'in' c2" := (bind c1 (fun x => c2))
  (at level 10, x name, c1 at level 100, c2 at level 200).
Notation "c1 ;; c2" := (bind c1 (fun _ => c2))
  (at level 100, c2 at level 200, right associativity).

(** [p.exists()] *)
Definition path_exists (p : Fs.path) : M bool :=
  fun st => (Return (Fs.path_exists p (fs st)), st).

(** [per_item.append(item)] *)
Definition append_item (item : Item) : M unit :=
  fun st =>
    (Return tt,
     {| per_item := per_item st ++ [item]; totals := totals st;
        fs := fs st; imaging := imaging st |}).

(** [totals[status] += 1]; a key the dict does not hold raises. *)
Definition totals_incr (status : string) : M unit :=
  fun st =>
    match totals st !! status with
    | Some n =>
        (Return tt,
         {| per_item := per_item st; totals := <[status := n + 1]> (totals st);
            fs := fs st; imaging := imaging st |})
    | None => (Raise ("KeyError: " +:+ status), st)
    end.

Definition log_call (c : imaging_call) : M unit :=
  fun st =>
    (Return tt,
     {| per_item := per_item st; totals := totals st;
        fs := fs st; imaging := imaging st ++ [c] |}).

(** Python's [for u in urls: body(u)]. *)
Fixpoint for_each {A} (body : A -> M unit) (l : list A) : M unit :=
  match l with
  | [] => ret tt
  | u :: l' => body u ;; for_each body l'
  end.

(** The imaging libraries (PIL, numpy, scikit-image) behind the helpers. *)
Record Imaging : Type := {
  Image : Type;
  DiffVis : Type;
  (** decoding the bytes of a file to an RGB array *)
  decode_png : string -> Exc Image;
  (** [helpers.compute_metrics]: ssim, mse and the diff visualisation *)
  compute_metrics : Image -> Image -> Exc (float * float * DiffVis);
  (** [Image.fromarray(diff_vis)] and its encoding as a PNG *)
  encode_png : DiffVis -> Exc string;
}.

(** The capture subprocess, the string library behind [list_urls], the
    clock and the JSON encoder. *)
Record Host : Type := {
  (** [helpers.run_script]: the subprocess running [screenshot_urls.py] *)
  run_script : Fs.path -> string -> Z -> float -> bool -> Fs.t -> ExecDetails * Fs.t;
  (** [text.splitlines()] *)
  str_splitlines : string -> list string;
  (** [ln.strip()] *)
  str_strip : string -> string;
  (** [re.match(r"^https?://", ln, re.I)] *)
  re_match_scheme : string -> bool;
  (** [datetime.now().strftime("%Y%m%d-%H%M%S")] *)
  now_stamp : string;
  (** [json.dumps(report, indent=2)] *)
  json_dumps : Report -> string;
}.

Section Run.
Variable lib : Imaging.
Variable host : Host.

(** [helpers.list_urls(path)] *)
Definition list_urls (p : Fs.path) (fs0 : Fs.t) : list string :=
  match Fs.files fs0 !! p with
  | None => []
  | Some text =>
      let raw := List.map (str_strip host) (str_splitlines host text) in
      List.map
        (fun ln => if re_match_scheme host ln then ln else "https://" +:+ ln)
        (List.filter
           (fun ln =>
              negb (Py.is_empty ln)
              && negb (bool_decide (is_Some (Py.strip_prefix "#" ln))))
           raw)
  end.

(** [helpers.png_to_array(p)] *)
Definition png_to_array (p : Fs.path) : M (Image lib) :=
  log_call (PngToArray p) ;;
  fun st =>
    match Fs.files (fs st) !! p with
    | None => (Raise ("FileNotFoundError: " +:+ Fs.to_str p), st)
    | Some bytes => (decode_png lib bytes, st)
    end.

Definition call_compute_metrics (imgA imgB : Image lib)
  : M (float * float * DiffVis lib) :=
  log_call ComputeMetrics ;;
  fun st => (compute_metrics lib imgA imgB, st).

(** [helpers.save_diff_image(diff_vis, path)] *)
Definition save_diff_image (diff_vis : DiffVis lib) (p : Fs.path) : M unit :=
  log_call (SaveDiffImage p) ;;
  fun st =>
    match encode_png lib diff_vis with
    | Raise msg => (Raise msg, st)
    | Return bytes =>
        match Fs.write p bytes (fs st) with
        | Raise msg => (Raise msg, st)
        | Return fs' =>
            (Return tt,
             {| per_item := per_item st; totals := totals st;
                fs := fs'; imaging := imaging st |})
        end
    end.

(** The [try] block of the loop body: decode both images, compare them,
    classify, save the diff of a pair that is not [ok], record the item. *)
Definition compare_pair (dirs : Dirs) (threshold : float) (u name : string) : M unit :=
  let cur_path := (shots_dir dirs, name) in
  let base_path := (base_dir dirs, name) in
  let! imgA := png_to_array base_path in
  let! imgB := png_to_array cur_path in
  let! computed := call_compute_metrics imgA imgB in
  let '(s, m, diff_vis) := computed in
  let status := if PrimFloat.leb threshold s then "ok" else "fail" in
  let! diff_path :=
    (if negb (String.eqb status "ok") then
       let diff_path := (diffs_dir dirs, "diff_" +:+ name) in
       save_diff_image diff_vis diff_path ;;
       ret (Some (Fs.to_str diff_path))
     else ret None) in
  append_item
    {| url := u; status := status; metrics := Some (s, m);
       reason := None;
       current := Some (Fs.to_str cur_path);
       trainer := Fs.to_str base_path; diff := Some diff_path |} ;;
  totals_incr status.

(** The body of [for u in urls] in [run_and_compare]. *)
Definition compare_one (dirs : Dirs) (threshold : float) (u : string) : M unit :=
  let name := Helpers.sanitize_filename u Helpers.max_len_default in
  let cur_path := (shots_dir dirs, name) in
  let base_path := (base_dir dirs, name) in
  let! base_exists := path_exists base_path in
  if negb base_exists then
    let status := "no_trainer" in
    let! cur_exists := path_exists cur_path in
    append_item
      {| url := u; status := status; metrics := None;
         reason := Some ("Trainer image not found: " +:+ name);
         current := if cur_exists then Some (Fs.to_str cur_path) else None;
         trainer := Fs.to_str base_path; diff := None |} ;;
    totals_incr status
  else
    let! cur_exists := path_exists cur_path in
    if negb cur_exists then
      let status := "fail" in
      append_item
        {| url := u; status := status; metrics := None;
           reason := Some ("Current screenshot not found: " +:+ name);
           current := Some (Fs.to_str cur_path);
           trainer := Fs.to_str base_path; diff := None |} ;;
      totals_incr status
    else
      try_except
        (compare_pair dirs threshold u name)
        (fun e =>
           let status := "fail" in
           append_item
             {| url := u; status := status; metrics := None;
                reason := Some ("Comparison error: " +:+ e);
                current := Some (Fs.to_str cur_path);
                trainer := Fs.to_str base_path; diff := None |} ;;
           totals_incr status).

(** [totals = {"ok": 0, "warn": 0, "fail": 0, "no_trainer": 0}] *)
Definition totals_init : gmap string Z :=
  <["ok" := 0]> (<["warn" := 0]> (<["fail" := 0]> (<["no_trainer" := 0]> ∅))).

Definition loop_init (fs0 : Fs.t) : LoopState :=
  {| per_item := []; totals := totals_init; fs := fs0; imaging := [] |}.

(** Lines 98 to 172: the comparison pass over the parsed URLs. *)
Definition compare_urls (dirs : Dirs) (threshold : float) (urls : list string)
  : M unit :=
  for_each (compare_one dirs threshold) urls.

(** The state of the loop when it reaches the URL at index [i]. *)
Definition state_before (dirs : Dirs) (threshold : float) (urls : list string)
           (fs0 : Fs.t) (i : nat) : LoopState :=
  (compare_urls dirs threshold (take i urls) (loop_init fs0)).2.

(** [try: f.unlink() except Exception: pass] *)
Definition unlink_or_pass (fs1 : Fs.t) (f : Fs.path) : Fs.t :=
  match Fs.unlink f fs1 with
  | Return fs' => fs'
  | Raise _ => fs1
  end.

(** [for f in shots_dir.glob("*.png"): try: f.unlink() except: pass] *)
Definition clean_screenshots (shots : string) (fs0 : Fs.t) : Fs.t :=
  foldl unlink_or_pass fs0 (Fs.glob_png shots fs0).

Definition resolve_dirs (q : Query) : Dirs :=
  {| shots_dir := dir_or (out_dir q) OUT_DEFAULT;
     base_dir := dir_or (trainer_dir q) TRAINER_DIR_DEFAULT;
     diffs_dir := dir_or (diff_dir q) DIFF_DIR_DEFAULT;
     reps_dir := dir_or (reports_dir q) REPORTS_DIR_DEFAULT |}.

(** [helpers.write_report(report, reports_dir)] *)
Definition write_report (report : Report) (reports : string) (fs0 : Fs.t)
  : Exc (Fs.path * Fs.t) :=
  let p := (reports, "report-" +:+ now_stamp host +:+ ".json") in
  match Fs.write p (json_dumps host report) fs0 with
  | Raise msg => Raise msg
  | Return fs' => Return (p, fs')
  end.

(** The purge of the screenshots directory and the capture subprocess. *)
Definition after_capture (q : Query) (fs0 : Fs.t) : ExecDetails * Fs.t :=
  let dirs := resolve_dirs q in
  let fs1 := clean_screenshots (shots_dir dirs) fs0 in
  run_script host (file_or (urls_file q) URLS_DEFAULT) (shots_dir dirs)
    (timeout q) (wait q) (headful q) fs1.

(** [urls = list_urls(urls_path)], read after the capture. *)
Definition run_urls (q : Query) (fs0 : Fs.t) : list string :=
  list_urls (file_or (urls_file q) URLS_DEFAULT) (after_capture q fs0).2.

(** [GET /run].  Creating the four directories changes no file. *)
Definition run_and_compare (q : Query) (fs0 : Fs.t) : Exc Response * Fs.t :=
  let urls_path := file_or (urls_file q) URLS_DEFAULT in
  let dirs := resolve_dirs q in
  if negb (Fs.path_exists urls_path fs0) then
    (Return (ErrorResponse ("URLs file not found: " +:+ Fs.to_str urls_path)), fs0)
  else
    let '(exec_details, fs2) := after_capture q fs0 in
    let urls := run_urls q fs0 in
    match compare_urls dirs (ssim_threshold q) urls (loop_init fs2) with
    | (Raise msg, st) => (Raise msg, fs st)
    | (Return _, st) =>
        let report :=
          {| r_urls_file := Fs.to_str urls_path;
             r_screenshots_dir := shots_dir dirs;
             r_trainer_dir := base_dir dirs;
             r_diff_dir := diffs_dir dirs;
             r_ssim_threshold := ssim_threshold q;
             r_execution := exec_details;
             r_totals := totals st;
             r_items := per_item st;
             r_report_path := None |} in
        match write_report report (reps_dir dirs) (fs st) with
        | Raise msg => (Raise msg, fs st)
        | Return (report_path, fs3) =>
            (Return (ReportResponse
               {| r_urls_file := r_urls_file report;
                  r_screenshots_dir := r_screenshots_dir report;
                  r_trainer_dir := r_trainer_dir report;
                  r_diff_dir := r_diff_dir report;
                  r_ssim_threshold := r_ssim_threshold report;
                  r_execution := r_execution report;
                  r_totals := r_totals report;
                  r_items := r_items report;
                  r_report_path := Some (Fs.to_str report_path) |}), fs3)
        end
    end.

End Run.

(** The state of the loop of [run_and_compare] when it reaches the URL at
    index [i] of the parsed list. *)
Definition run_state_before (lib : Imaging) (host : Host) (q : Query)
           (fs0 : Fs.t) (i : nat) : LoopState :=
  state_before lib (resolve_dirs q) (ssim_threshold q) (run_urls host q fs0)
    (after_capture host q fs0).2 i.

(** The sum of all counters of a totals dict. *)
Definition totals_sum (t : gmap string Z) : Z :=
  map_fold (fun _ n acc => n + acc) 0 t.

(** *** Names used in the statements *)

(** The keys of the totals dict the loop starts from. *)
Definition status_keys : gset string := {[ "ok"; "warn"; "fail"; "no_trainer" ]}.

(** A totals dict after [totals[k] += 1], for a key it holds. *)
Definition bump (k : string) (t : gmap string Z) : gmap string Z :=
  match t !! k with
  | Some n => <[k := n + 1]> t
  | None => t
  end.

(** The capture key of a URL and the three paths the loop derives from it. *)
Definition capture_key (u : string) : string :=
  Helpers.sanitize_filename u Helpers.max_len_default.

Definition cur_path (dirs : Dirs) (u : string) : Fs.path :=
  (shots_dir dirs, capture_key u).

Definition base_path (dirs : Dirs) (u : string) : Fs.path :=
  (base_dir dirs, capture_key u).

Definition diff_path (dirs : Dirs) (u : string) : Fs.path :=
  (diffs_dir dirs, "diff_" +:+ capture_key u).

(** The four kinds of entry the loop records. *)
Definition item_no_trainer (dirs : Dirs) (u : string) (cur_exists : bool) : Item :=
  {| url := u; status := "no_trainer"; metrics := None;
     reason := Some ("Trainer image not found: " +:+ capture_key u);
     current := if cur_exists then Some (Fs.to_str (cur_path dirs u)) else None;
     trainer := Fs.to_str (base_path dirs u); diff := None |}.

Definition item_no_current (dirs : Dirs) (u : string) : Item :=
  {| url := u; status := "fail"; metrics := None;
     reason := Some ("Current screenshot not found: " +:+ capture_key u);
     current := Some (Fs.to_str (cur_path dirs u));
     trainer := Fs.to_str (base_path dirs u); diff := None |}.

Definition item_error (dirs : Dirs) (u e : string) : Item :=
  {| url := u; status := "fail"; metrics := None;
     reason := Some ("Comparison error: " +:+ e);
     current := Some (Fs.to_str (cur_path dirs u));
     trainer := Fs.to_str (base_path dirs u); diff := None |}.

Definition item_compared (dirs : Dirs) (u status : string) (s m : float)
           (diff : option string) : Item :=
  {| url := u; status := status; metrics := Some (s, m);
     reason := None;
     current := Some (Fs.to_str (cur_path dirs u));
     trainer := Fs.to_str (base_path dirs u); diff := Some diff |}.

(** The imaging calls of a comparison that got as far as the metrics. *)
Definition calls_compared (dirs : Dirs) (u : string) : list imaging_call :=
  [PngToArray (base_path dirs u); PngToArray (cur_path dirs u); ComputeMetrics].

(** Both images of [u] decode and [compute_metrics] returns [(s, m, dv)]. *)
Definition compared (lib : Imaging) (dirs : Dirs) (u : string) (fs0 : Fs.t)
           (s m : float) (dv : DiffVis lib) : Prop :=
  exists (a b : string) (ia ib : Image lib),
    Fs.files fs0 !! base_path dirs u = Some a /\
    Fs.files fs0 !! cur_path dirs u = Some b /\
    decode_png lib a = Return ia /\
    decode_png lib b = Return ib /\
    compute_metrics lib ia ib = Return (s, m, dv).

(** The ways the [try] block raises when both files exist: [e] is the
    message, [calls] the imaging calls made up to the exception. *)
Inductive comparison_error (lib : Imaging) (dirs : Dirs) (threshold : float)
          (u : string) (fs0 : Fs.t) : string -> list imaging_call -> Prop :=
| error_decode_trainer (a e : string) :
    Fs.files fs0 !! base_path dirs u = Some a ->
    decode_png lib a = Raise e ->
    comparison_error lib dirs threshold u fs0 e [PngToArray (base_path dirs u)]
| error_decode_current (a b e : string) (ia : Image lib) :
    Fs.files fs0 !! base_path dirs u = Some a ->
    decode_png lib a = Return ia ->
    Fs.files fs0 !! cur_path dirs u = Some b ->
    decode_png lib b = Raise e ->
    comparison_error lib dirs threshold u fs0 e
      [PngToArray (base_path dirs u); PngToArray (cur_path dirs u)]
| error_metrics (a b e : string) (ia ib : Image lib) :
    Fs.files fs0 !! base_path dirs u = Some a ->
    decode_png lib a = Return ia ->
    Fs.files fs0 !! cur_path dirs u = Some b ->
    decode_png lib b = Return ib ->
    compute_metrics lib ia ib = Raise e ->
    comparison_error lib dirs threshold u fs0 e (calls_compared dirs u)
| error_encode (s m : float) (dv : DiffVis lib) (e : string) :
    compared lib dirs u fs0 s m dv ->
    PrimFloat.leb threshold s = false ->
    encode_png lib dv = Raise e ->
    comparison_error lib dirs threshold u fs0 e
      (calls_compared dirs u ++ [SaveDiffImage (diff_path dirs u)])
| error_write (s m : float) (dv : DiffVis lib) (bytes : string) :
    compared lib dirs u fs0 s m dv ->
    PrimFloat.leb threshold s = false ->
    encode_png lib dv = Return bytes ->
    diff_path dirs u ∈ Fs.read_only fs0 ->
    comparison_error lib dirs threshold u fs0 "PermissionError"
      (calls_compared dirs u ++ [SaveDiffImage (diff_path dirs u)]).

(** What one pass of the loop body does for [u] on the file system [fs0]:
    the item it records, the file system it leaves and the imaging calls
    it makes. *)
Inductive verdict (lib : Imaging) (dirs : Dirs) (threshold : float)
          (u : string) (fs0 : Fs.t) : Item -> Fs.t -> list imaging_call -> Prop :=
| verdict_no_trainer :
    Fs.path_exists (base_path dirs u) fs0 = false ->
    verdict lib dirs threshold u fs0
      (item_no_trainer dirs u (Fs.path_exists (cur_path dirs u) fs0)) fs0 []
| verdict_no_current :
    Fs.path_exists (base_path dirs u) fs0 = true ->
    Fs.path_exists (cur_path dirs u) fs0 = false ->
    verdict lib dirs threshold u fs0 (item_no_current dirs u) fs0 []
| verdict_error (e : string) (calls : list imaging_call) :
    Fs.path_exists (base_path dirs u) fs0 = true ->
    Fs.path_exists (cur_path dirs u) fs0 = true ->
    comparison_error lib dirs threshold u fs0 e calls ->
    verdict lib dirs threshold u fs0 (item_error dirs u e) fs0 calls
| verdict_ok (s m : float) (dv : DiffVis lib) :
    compared lib dirs u fs0 s m dv ->
    PrimFloat.leb threshold s = true ->
    verdict lib dirs threshold u fs0
      (item_compared dirs u "ok" s m None) fs0 (calls_compared dirs u)
| verdict_fail (s m : float) (dv : DiffVis lib) (bytes : string) :
    compared lib dirs u fs0 s m dv ->
    PrimFloat.leb threshold s = false ->
    encode_png lib dv = Return bytes ->
    diff_path dirs u ∉ Fs.read_only fs0 ->
    verdict lib dirs threshold u fs0
      (item_compared dirs u "fail" s m (Some (Fs.to_str (diff_path dirs u))))
      (Fs.mk (<[diff_path dirs u := bytes]> (Fs.files fs0)) (Fs.read_only fs0))
      (calls_compared dirs u ++ [SaveDiffImage (diff_path dirs u)]).

(** The loop state after more imaging calls. *)
Definition with_calls (calls : list imaging_call) (st : LoopState) : LoopState :=
  {| per_item := per_item st; totals := totals st; fs := fs st;
     imaging := imaging st ++ calls |}.

(** The loop state after one more item: the item appended, its status
    counted, the file system and the imaging log as given. *)
Definition record_item (item : Item) (fs' : Fs.t) (calls : list imaging_call)
           (st : LoopState) : LoopState :=
  {| per_item := per_item st ++ [item];
     totals := bump (status item) (totals st);
     fs := fs';
     imaging := imaging st ++ calls |}.

(** *** [GET /trainer] *)



(** *** The comparison pass as a relation *)

(** [pass lib dirs threshold urls st st']: the loop over [urls] takes the
    state [st] to [st'], one verdict after the other. *)
Inductive pass (lib : Imaging) (dirs : Dirs) (threshold : float)
  : list string -> LoopState -> LoopState -> Prop :=
| pass_done (st : LoopState) :
    pass lib dirs threshold [] st st
| pass_step (u : string) (urls : list string) (st st' : LoopState)
            (item : Item) (fs' : Fs.t) (calls : list imaging_call) :
    verdict lib dirs threshold u (fs st) item fs' calls ->
    pass lib dirs threshold urls (record_item item fs' calls st) st' ->
    pass lib dirs threshold (u :: urls) st st'.

(** The number of items that carry the status [k]. *)
Definition count_status (k : string) (items : list Item) : nat :=
  List.length (List.filter (fun it => String.eqb (status it) k) items).

(** The report as [write_report] gets it: [report_path] is added to the
    answer after the file is written. *)
Definition without_path (report : Report) : Report :=
  {| r_urls_file := r_urls_file report;
     r_screenshots_dir := r_screenshots_dir report;
     r_trainer_dir := r_trainer_dir report;
     r_diff_dir := r_diff_dir report;
     r_ssim_threshold := r_ssim_threshold report;
     r_execution := r_execution report;
     r_totals := r_totals report;
     r_items := r_items report;
     r_report_path := None |}.

(** The path [write_report] writes. *)
Definition report_file (host : Host) (dirs : Dirs) : Fs.path :=
  (reps_dir dirs, "report-" +:+ now_stamp host +:+ ".json").

End Controller.

(** ** helpers.run_script over screenshot_urls.py *)

Module Pipeline.

(** How the two streams of the subprocess reach [run_script]: the text
    [print] wrote, the text of a traceback, and [text[-4000:]]. *)
Record Streams : Type := {
  stdout_text : list string -> string;
  stderr_text : option string -> string;
  last_4000 : string -> string;
}.

Section Subprocess.
Context {D : Type} `{ScreenshotUrls.Chrome D}.
Variable lib : ScreenshotUrls.Lib.
Variable streams : Streams.

(** [helpers.run_script(urls_file, out_dir, timeout, wait, headful)] when
    the command it runs is the script of this repository: [main] gets the
    values the command line was printed from. *)
Definition run_script (urls_file : Fs.path) (out_dir : string) (timeout : Z)
           (wait : float) (headful : bool) (fs0 : Fs.t)
  : Controller.ExecDetails * Fs.t :=
  let result :=
    ScreenshotUrls.main lib
      {| ScreenshotUrls.a_urls := urls_file; ScreenshotUrls.a_out := out_dir;
         ScreenshotUrls.a_timeout := timeout; ScreenshotUrls.a_wait := wait;
         ScreenshotUrls.a_headful := headful |} fs0 in
  ({| Controller.exec_ok := ScreenshotUrls.exit_code result =? 0;
      Controller.returncode := ScreenshotUrls.exit_code result;
      Controller.stdout :=
        last_4000 streams (stdout_text streams (ScreenshotUrls.stdout_lines result));
      Controller.stderr :=
        last_4000 streams (stderr_text streams (ScreenshotUrls.uncaught result)) |},
   ScreenshotUrls.disk_after result).

(** The host whose capture subprocess is the script and whose string
    library is the script's. *)
Definition host (now_stamp : string) (json_dumps : Controller.Report -> string)
  : Controller.Host :=
  {| Controller.run_script := run_script;
     Controller.str_splitlines := ScreenshotUrls.splitlines lib;
     Controller.str_strip := ScreenshotUrls.strip_blanks lib;
     Controller.re_match_scheme := ScreenshotUrls.match_scheme lib;
     Controller.now_stamp := now_stamp;
     Controller.json_dumps := json_dumps |}.

End Subprocess.

End Pipeline.


(** ** Sample pages, images and file systems *)

Module Demo.

(** A page of fixed height shown in a window 1080 pixels tall: the session
    is the page height and the scroll offset. *)
Record StaticPage : Type := { page_height : Z; offset : Z }.

#[global] Instance static_driver : ScreenshotUrls.WebDriver StaticPage := {
  script_scroll_height p := (Return (page_height p), p);
  script_scroll_to y p :=
    (Return tt,
     {| page_height := page_height p;
        offset := Z.max 0 (Z.min y (page_height p - 1080)) |});
  script_page_y_offset p := (Return (offset p), p);
  page_sleep _ p := p;
}.

(** A page that grows by 1000 pixels during every pause. *)
Record EndlessPage : Type := { e_height : Z; e_offset : Z }.

#[global] Instance endless_driver : ScreenshotUrls.WebDriver EndlessPage := {
  script_scroll_height p := (Return (e_height p), p);
  script_scroll_to y p :=
    (Return tt,
     {| e_height := e_height p;
        e_offset := Z.max 0 (Z.min y (e_height p - 1080)) |});
  script_page_y_offset p := (Return (e_offset p), p);
  page_sleep _ p := {| e_height := e_height p + 1000; e_offset := e_offset p |};
}.

(** Stand-ins for the imaging libraries: an image is its bytes, the file
    "corrupt" does not decode, equal images score 1.0 and others 0.5. *)
Definition lib : Controller.Imaging :=
  {| Controller.Image := string;
     Controller.DiffVis := string;
     Controller.decode_png := fun bytes =>
       if String.eqb bytes "corrupt" then Raise "cannot identify image file"
       else Return bytes;
     Controller.compute_metrics := fun a b =>
       if String.eqb a b then Return (1.0%float, 0.0%float, "black")
       else Return (0.5%float, 42.0%float, "diff of " +:+ a +:+ " and " +:+ b);
     Controller.encode_png := fun dv => Return ("PNG " +:+ dv) |}.

Definition urls : list string :=
  ["https://a.example"; "https://b.example"; "https://c.example";
   "https://d.example"; "https://e.example"].

(** A capture that writes the screenshots of a, b, c and e and fails on d. *)
Definition capture (out : string) (fs0 : Fs.t) : Fs.t :=
  Fs.mk
    (<[(out, "a.example.png") := "A"]>
       (<[(out, "b.example.png") := "B changed"]>
          (<[(out, "c.example.png") := "C"]>
             (<[(out, "e.example.png") := "E"]> (Fs.files fs0)))))
    (Fs.read_only fs0).

(** Splitting at every [sep], for texts whose only line ends are [sep]. *)
Fixpoint split_on (sep : ascii) (line text : string) : list string :=
  match text with
  | EmptyString => if Py.is_empty line then [] else [line]
  | String c text' =>
      if Ascii.eqb c sep then line :: split_on sep EmptyString text'
      else split_on sep (line +:+ String c EmptyString) text'
  end.

Definition newline : ascii := ascii_of_nat 10.

(** Stand-ins for the host: the capture above, lines ended by a newline,
    blanks stripped, lower-case schemes, a fixed clock and an empty JSON
    text. *)
Definition host : Controller.Host :=
  {| Controller.run_script := fun _ out _ _ _ fs0 =>
       ({| Controller.exec_ok := true; Controller.returncode := 0;
           Controller.stdout := "[OK]"; Controller.stderr := "" |},
        capture out fs0);
     Controller.str_splitlines := split_on newline EmptyString;
     Controller.str_strip := fun ln => Py.strip " " ln;
     Controller.re_match_scheme := fun ln =>
       bool_decide (is_Some (Py.strip_prefix "https://" ln))
       || bool_decide (is_Some (Py.strip_prefix "http://" ln));
     Controller.now_stamp := "20240101-120000";
     Controller.json_dumps := fun _ => "{}" |}.

Definition urls_txt : string :=
  "a.example" +:+ String newline
  ("https://b.example " +:+ String newline
  ("# a comment" +:+ String newline
  (String newline
  ("c.example" +:+ String newline
  ("  d.example" +:+ String newline
  ("https://e.example" +:+ String newline EmptyString)))))).

(** Baselines for a, b, d and e (the last one corrupt), none for c, and two
    old files in the screenshots directory. *)
Definition fs0 : Fs.t :=
  Fs.mk
    (list_to_map
       [(("/data", "urls.txt"), urls_txt);
        (("/data/trainer_screenshots", "a.example.png"), "A");
        (("/data/trainer_screenshots", "b.example.png"), "B");
        (("/data/trainer_screenshots", "d.example.png"), "D");
        (("/data/trainer_screenshots", "e.example.png"), "corrupt");
        (("/data/screenshots", "old.example.png"), "OLD");
        (("/data/screenshots", "notes.txt"), "keep")])
    ∅.

Definition query : Controller.Query :=
  {| Controller.urls_file := None; Controller.out_dir := None;
     Controller.trainer_dir := None; Controller.diff_dir := None;
     Controller.reports_dir := None; Controller.timeout := 20;
     Controller.wait := 2.0%float; Controller.headful := false;
     Controller.ssim_threshold := Controller.ssim_threshold_default |}.



(** A Chrome session that shows one page at a time: every page is 1920
    wide and 2000.5 tall, "https://down.example" does not resolve,
    "https://slow.example" never gets ready and the layout metrics of
    "https://d.example" cannot be read. *)
Record Tab : Type := { location : string; view : StaticPage }.

#[global] Instance tab_scripts : ScreenshotUrls.WebDriver Tab := {
  script_scroll_height t :=
    (Return (page_height (view t)), t);
  script_scroll_to y t :=
    (Return tt,
     {| location := location t;
        view := (ScreenshotUrls.script_scroll_to y (view t)).2 |});
  script_page_y_offset t := (Return (offset (view t)), t);
  page_sleep _ t := t;
}.

#[global] Instance tab_chrome : ScreenshotUrls.Chrome Tab := {
  chrome_scripts := tab_scripts;
  chrome_start _ :=
    inr {| location := "about:blank"; view := {| page_height := 0; offset := 0 |} |};
  cdp_page_enable t := (inr tt, t);
  driver_get url t :=
    if String.eqb url "https://down.example"
    then (inl (ScreenshotUrls.WebDriverException, "net::ERR_NAME_NOT_RESOLVED"), t)
    else (inr tt, {| location := url; view := {| page_height := 2000; offset := 0 |} |});
  wait_until_complete _ t :=
    if String.eqb (location t) "https://slow.example"
    then (inl (ScreenshotUrls.TimeoutException, "timeout"), t)
    else (inr tt, t);
  cdp_get_layout_metrics t :=
    if String.eqb (location t) "https://d.example"
    then (inl (ScreenshotUrls.WebDriverException, "target closed"), t)
    else
      (inr (Some {| ScreenshotUrls.cs_width := Some (QArith_base.Qmake 1920 1);
                    ScreenshotUrls.cs_height := Some (QArith_base.Qmake 4001 2) |}), t);
  cdp_set_device_metrics_override _ _ t := (inr tt, t);
  cdp_capture_screenshot t := (inr (Some (location t)), t);
  driver_quit t := (inr tt, t);
}.

(** The script's library: the string functions of [host], and a decoder
    that returns its argument. *)
Definition script_lib : ScreenshotUrls.Lib :=
  {| ScreenshotUrls.splitlines := split_on newline EmptyString;
     ScreenshotUrls.strip_blanks := fun ln => Py.strip " " ln;
     ScreenshotUrls.match_scheme := fun ln =>
       bool_decide (is_Some (Py.strip_prefix "https://" ln))
       || bool_decide (is_Some (Py.strip_prefix "http://" ln));
     ScreenshotUrls.b64decode := fun data => Return data |}.

Definition streams : Pipeline.Streams :=
  {| Pipeline.stdout_text := fun lines => foldr (fun ln acc => ln +:+ String newline acc) "" lines;
     Pipeline.stderr_text := fun e => default "" e;
     Pipeline.last_4000 := fun text => text |}.


Definition script_args : ScreenshotUrls.Args :=
  {| ScreenshotUrls.a_urls := ("/data", "urls.txt");
     ScreenshotUrls.a_out := "/data/screenshots";
     ScreenshotUrls.a_timeout := 20;
     ScreenshotUrls.a_wait := 2.0%float;
     ScreenshotUrls.a_headful := false |}.


(** A URL file whose second address does not resolve and whose third
    never gets ready. *)
Definition flaky_fs : Fs.t :=
  Fs.mk
    (list_to_map
       [(("/data", "urls.txt"),
         "slow.example" +:+ String newline
         ("down.example" +:+ String newline
         ("a.example" +:+ String newline EmptyString)));
        (("/data/screenshots", "a.example.png"), "OLD")])
    ∅.

(** The process in which the script of [script_args] starts its batch. *)
Definition started : ScreenshotUrls.Process Tab :=
  {| ScreenshotUrls.session :=
       {| location := "about:blank"; view := {| page_height := 0; offset := 0 |} |};
     ScreenshotUrls.disk := fs0;
     ScreenshotUrls.printed := [];
     ScreenshotUrls.events := [] |}.

End Demo.

(** * Properties *)

(** ** Strings *)

Lemma str_append_nil_l (b : string) : EmptyString +:+ b = b.
Proof. reflexivity. Qed.

Lemma str_append_cons (c : ascii) (a b : string) : String c a +:+ b = String c (a +:+ b).
Proof. reflexivity. Qed.

Lemma str_append_nil_r (a : string) : a +:+ EmptyString = a.
Proof. induction a as [|c a IH]; [reflexivity|]. now rewrite str_append_cons, IH. Qed.

Lemma str_length_append (a b : string) :
  String.length (a +:+ b) = (String.length a + String.length b)%nat.
Proof. induction a as [|c a IH]; simpl; [reflexivity | now rewrite IH]. Qed.

Lemma str_append_inv_r (a b c : string) : a +:+ c = b +:+ c -> a = b.
Proof.
  revert b. induction a as [|x a IH]; intros [|y b] E.
  - reflexivity.
  - apply (f_equal String.length) in E. rewrite !str_length_append in E. simpl in E. lia.
  - apply (f_equal String.length) in E. rewrite !str_length_append in E. simpl in E. lia.
  - change (String x (a +:+ c) = String y (b +:+ c)) in E. injection E as -> E. f_equal. now apply IH.
Qed.

Lemma str_length_take (n : nat) (s : string) :
  (String.length (Py.take n s) <= n)%nat.
Proof.
  revert s. induction n as [|n IH]; intros [|c s]; simpl; try lia.
  specialize (IH s). lia.
Qed.

Lemma str_take_empty (n : nat) : Py.take n EmptyString = EmptyString.
Proof. now destruct n. Qed.

Lemma is_empty_true (s : string) : Py.is_empty s = true <-> s = EmptyString.
Proof. destruct s; simpl; split; congruence. Qed.

Lemma ends_with_append (suffix s : string) : Fs.ends_with suffix (s +:+ suffix) = true.
Proof.
  induction s as [|c s IH].
  - destruct suffix; simpl; [reflexivity|]. now rewrite Ascii.eqb_refl, String.eqb_refl.
  - change (String c s +:+ suffix) with (String c (s +:+ suffix)).
    cbn [Fs.ends_with]. rewrite IH. apply orb_true_r.
Qed.

(** Replacing runs in a string made of class characters only leaves at most
    the replacement. *)
Lemma sub_runs_all (cls : ascii -> bool) (repl s : string) :
  Py.all_chars cls s = true ->
  Py.sub_runs cls repl true s = EmptyString.
Proof.
  induction s as [|c s IH]; simpl; [reflexivity|].
  intros [Hc Hs]%andb_true_iff. rewrite Hc. now apply IH.
Qed.

Lemma re_sub_all (cls : ascii -> bool) (repl s : string) :
  Py.all_chars cls s = true ->
  Py.re_sub_class_plus cls repl s = EmptyString \/
  Py.re_sub_class_plus cls repl s = repl.
Proof.
  unfold Py.re_sub_class_plus. destruct s as [|c s]; simpl; [now left|].
  intros [Hc Hs]%andb_true_iff. rewrite Hc, sub_runs_all by assumption.
  right. apply str_append_nil_r.
Qed.

(** ** The capture key *)

Lemma sanitize_filename_copies (url : string) (max_len : Z) :
  ScreenshotUrls.sanitize_filename url max_len = Helpers.sanitize_filename url max_len.
Proof. reflexivity. Qed.

Lemma strip_scheme_no_safe_prefix (u : string) :
  Py.all_chars Helpers.is_unsafe u = true -> Helpers.strip_scheme u = u.
Proof.
  destruct u as [|c u]; [reflexivity|]. cbn [Py.all_chars].
  intros [Hc _]%andb_true_iff. unfold Helpers.strip_scheme. cbn [Py.strip_prefix].
  destruct (Ascii.eqb "h" c) eqn:E; [|reflexivity].
  apply Ascii.eqb_eq in E. subst c. discriminate.
Qed.

Lemma normalized_all_unsafe (u : string) :
  Py.all_chars Helpers.is_unsafe u = true -> Helpers.normalized u = EmptyString.
Proof.
  intros Hu. unfold Helpers.normalized. rewrite strip_scheme_no_safe_prefix by assumption.
  destruct (re_sub_all Helpers.is_unsafe "_" u Hu) as [-> | ->]; reflexivity.
Qed.

Lemma truncated_of_empty (u : string) (max_len : Z) :
  Helpers.normalized u = EmptyString -> Helpers.truncated u max_len = EmptyString.
Proof.
  intros E. unfold Helpers.truncated, Py.slice_to. rewrite E.
  destruct (_ >? max_len); [|reflexivity].
  destruct (0 <=? max_len); apply str_take_empty.
Qed.

Lemma truncated_length (u : string) (max_len : Z) :
  0 <= max_len -> Z.of_nat (String.length (Helpers.truncated u max_len)) <= max_len.
Proof.
  intros Hm. unfold Helpers.truncated, Py.slice_to.
  destruct (Z.gtb_spec (Z.of_nat (String.length (Helpers.normalized u))) max_len) as [Hgt|Hle];
    [|assumption].
  destruct (Z.leb_spec 0 max_len); [|lia].
  pose proof (str_length_take (Z.to_nat max_len) (Helpers.normalized u)). lia.
Qed.

Lemma sanitize_filename_length (u : string) (max_len : Z) :
  10 <= max_len ->
  Z.of_nat (String.length (Helpers.sanitize_filename u max_len)) <= max_len + 4.
Proof.
  intros Hm. unfold Helpers.sanitize_filename.
  pose proof (truncated_length u max_len ltac:(lia)) as Hl.
  destruct (Helpers.truncated u max_len) as [|c s] eqn:E; simpl Py.is_empty; cbv iota.
  - simpl. lia.
  - rewrite str_length_append. change (String.length ".png") with 4%nat. lia.
Qed.

Lemma sanitize_filename_body (u : string) (max_len : Z) :
  exists body, body <> EmptyString /\
    Helpers.sanitize_filename u max_len = body +:+ ".png".
Proof.
  unfold Helpers.sanitize_filename.
  destruct (Helpers.truncated u max_len) as [|c s]; simpl Py.is_empty; cbv iota;
    eexists; (split; [|reflexivity]); discriminate.
Qed.

(** C4: the capture key is a function of the URL (equal URLs give equal
    keys, in both copies of the sanitiser), it always ends in ".png", with
    the default [max_len] of 150 it is at most [max_len + 4 = 154] characters
    long (and at most [max_len + 4] for every [max_len] of 10 or more), and
    two URLs get different keys only when their sanitised and truncated
    character content differs. *)
Theorem capture_key_properties :
  (forall u1 u2 : string, u1 = u2 ->
     Helpers.sanitize_filename u1 Helpers.max_len_default
     = Helpers.sanitize_filename u2 Helpers.max_len_default) /\
  (forall (u : string) (max_len : Z),
     ScreenshotUrls.sanitize_filename u max_len = Helpers.sanitize_filename u max_len) /\
  (forall (u : string) (max_len : Z),
     Fs.ends_with ".png" (Helpers.sanitize_filename u max_len) = true) /\
  (forall u : string,
     Z.of_nat (String.length (Helpers.sanitize_filename u Helpers.max_len_default))
     <= Helpers.max_len_default + 4) /\
  Helpers.max_len_default + 4 = 154 /\
  (forall (u : string) (max_len : Z),
     10 <= max_len ->
     Z.of_nat (String.length (Helpers.sanitize_filename u max_len)) <= max_len + 4) /\
  (forall (u1 u2 : string) (max_len : Z),
     Helpers.sanitize_filename u1 max_len <> Helpers.sanitize_filename u2 max_len ->
     Helpers.truncated u1 max_len <> Helpers.truncated u2 max_len).
Proof.
  repeat split.
  - intros u1 u2 ->. reflexivity.
  - intros u max_len.
    destruct (sanitize_filename_body u max_len) as (body & _ & ->).
    apply ends_with_append.
  - intros u. apply sanitize_filename_length. unfold Helpers.max_len_default. lia.
  - intros u max_len. apply sanitize_filename_length.
  - intros u1 u2 max_len Hne Heq. apply Hne.
    unfold Helpers.sanitize_filename. now rewrite Heq.
Qed.

(** C10: a URL whose content is empty after scheme stripping, replacement
    and trimming gets the key "screenshot.png", whatever [max_len] is; so
    does every URL made only of unsafe characters; the key is never the
    bare extension; and any two such URLs collide on that one name. *)
Theorem empty_content_falls_back (u : string) (max_len : Z) :
  Helpers.normalized u = EmptyString ->
  Helpers.sanitize_filename u max_len = "screenshot.png" /\
  (forall (v : string) (m : Z), Helpers.sanitize_filename v m <> ".png") /\
  (forall (v : string) (m : Z),
     Py.all_chars Helpers.is_unsafe v = true ->
     Helpers.sanitize_filename v m = "screenshot.png") /\
  (forall v : string,
     Helpers.normalized v = EmptyString ->
     Helpers.sanitize_filename v max_len = Helpers.sanitize_filename u max_len).
Proof.
  intros Hu.
  assert (fallback : forall v m, Helpers.normalized v = EmptyString ->
            Helpers.sanitize_filename v m = "screenshot.png").
  { intros v m Hv. unfold Helpers.sanitize_filename.
    now rewrite truncated_of_empty by assumption. }
  repeat split.
  - now apply fallback.
  - intros v m E. destruct (sanitize_filename_body v m) as (body & Hb & Hk).
    rewrite Hk in E. apply Hb. apply (str_append_inv_r body EmptyString ".png"). exact E.
  - intros v m Hv. apply fallback. now apply normalized_all_unsafe.
  - intros v Hv. now rewrite !fallback by assumption.
Qed.

Lemma empty_content_falls_back_witness :
  Helpers.normalized "https://" = EmptyString /\
  Helpers.sanitize_filename "https://" 150 = "screenshot.png".
Proof.
  split; [reflexivity|].
  exact (proj1 (empty_content_falls_back "https://" 150 eq_refl)).
Defined.

Example sanitize_plain :
  Helpers.sanitize_filename "https://example.com/a b?c=1" 150 = "example.com_a_b_c_1.png".
Proof. reflexivity. Qed.

Example sanitize_trim :
  Helpers.sanitize_filename "http://__x__//" 150 = "x.png".
Proof. reflexivity. Qed.

Example sanitize_upper_scheme :
  Helpers.sanitize_filename "HTTP://x" 150 = "HTTP_x.png".
Proof. reflexivity. Qed.

Example sanitize_only_unsafe :
  Helpers.sanitize_filename "?? //" 150 = "screenshot.png".
Proof. reflexivity. Qed.

Example sanitize_collision :
  Helpers.sanitize_filename "https://a.b/c?d" 150 = Helpers.sanitize_filename "https://a.b/c/d" 150.
Proof. reflexivity. Qed.

(** ** Comparisons of binary64 values *)

Lemma SFcompare_swap (x y : spec_float) :
  SFcompare y x = option_map CompOpp (SFcompare x y).
Proof.
  destruct x as [sx|sx| |sx mx ex], y as [sy|sy| |sy my ey]; cbn;
    try destruct sx; try destruct sy; try reflexivity.
  - rewrite (Z.compare_antisym ex ey). destruct (ex ?= ey)%Z; cbn; try reflexivity.
    change (Pos.compare_cont Eq my mx) with (my ?= mx)%positive.
    change (Pos.compare_cont Eq mx my) with (mx ?= my)%positive.
    rewrite (Pos.compare_antisym mx my). now destruct (mx ?= my)%positive.
  - rewrite (Z.compare_antisym ex ey). destruct (ex ?= ey)%Z; cbn; try reflexivity.
    change (Pos.compare_cont Eq my mx) with (my ?= mx)%positive.
    change (Pos.compare_cont Eq mx my) with (mx ?= my)%positive.
    rewrite (Pos.compare_antisym mx my). now destruct (mx ?= my)%positive.
Qed.

(** [s == t] gives [s >= t]. *)
Lemma float_eqb_geb (s t : float) :
  PrimFloat.eqb s t = true -> PrimFloat.leb t s = true.
Proof.
  rewrite FloatAxioms.eqb_spec, FloatAxioms.leb_spec. unfold SFeqb, SFleb.
  rewrite (SFcompare_swap (Prim2SF s) (Prim2SF t)).
  now destruct (SFcompare (Prim2SF s) (Prim2SF t)) as [[]|].
Qed.

(** [s < t] refutes [s >= t]. *)
Lemma float_ltb_not_geb (s t : float) :
  PrimFloat.ltb s t = true -> PrimFloat.leb t s = false.
Proof.
  rewrite FloatAxioms.ltb_spec, FloatAxioms.leb_spec. unfold SFltb, SFleb.
  rewrite (SFcompare_swap (Prim2SF s) (Prim2SF t)).
  now destruct (SFcompare (Prim2SF s) (Prim2SF t)) as [[]|].
Qed.

(** ** The scroll loop *)

Section ScrollProofs.
Import ScreenshotUrls.
Context {D : Type} `{WebDriver D}.






End ScrollProofs.


Example scroll_static_page :
  ScreenshotUrls.gentle_scroll 0.15%float 100
    ({| Demo.page_height := 2000; Demo.offset := 0 |}, [])
  = (ScreenshotUrls.Returned tt,
     ({| Demo.page_height := 2000; Demo.offset := 920 |},
      ScreenshotUrls.step_calls 0.15%float 0 2000 800
      ++ ScreenshotUrls.step_calls 0.15%float 800 2000 920
      ++ ScreenshotUrls.step_calls 0.15%float 920 2000 920
      ++ ScreenshotUrls.final_jump 0.15%float 2000)).
Proof. vm_compute. reflexivity. Qed.

Example scroll_endless_page :
  let '(r, (_, log)) :=
    ScreenshotUrls.gentle_scroll 0.15%float 100
      ({| Demo.e_height := 5000; Demo.e_offset := 0 |}, []) in
  r = ScreenshotUrls.Returned tt /\
  ScreenshotUrls.iterations log = 100%nat /\
  ScreenshotUrls.scroll_commands log = 100%nat.
Proof. vm_compute. repeat split. Qed.

(** ** Clearing old screenshots *)







(** The purge of the script is the purge of the endpoint. *)
Lemma clear_old_screenshots_fst (out_dir : string) (fs0 : Fs.t) :
  (ScreenshotUrls.clear_old_screenshots out_dir fs0).1
  = Controller.clean_screenshots out_dir fs0.
Proof.
  unfold ScreenshotUrls.clear_old_screenshots, Controller.clean_screenshots.
  generalize (Fs.glob_png out_dir fs0) as l.
  generalize (@nil string) as printed. generalize fs0 as fs1.
  intros fs1 printed l. revert fs1 printed.
  induction l as [|f l IH]; intros fs1 printed; [reflexivity|].
  cbn [foldl]. unfold ScreenshotUrls.unlink_or_warn at 2.
  unfold Controller.unlink_or_pass at 2. cbn [fst snd].
  destruct (Fs.unlink f fs1) as [e|fs2]; apply IH.
Qed.


(** ** The totals dict *)

Lemma totals_init_keys : dom Controller.totals_init = Controller.status_keys.
Proof.
  unfold Controller.totals_init, Controller.status_keys.
  rewrite !dom_insert_L, dom_empty_L. set_solver.
Qed.

Lemma bump_keys (k : string) (t : gmap string Z) :
  dom (Controller.bump k t) = dom t.
Proof.
  unfold Controller.bump. destruct (t !! k) as [n|] eqn:E; [|reflexivity].
  rewrite dom_insert_L. apply elem_of_dom_2 in E.
  apply subseteq_union_1_L. now apply singleton_subseteq_l.
Qed.

Lemma status_keys_lookup (k : string) (t : gmap string Z) :
  dom t = Controller.status_keys ->
  k ∈ Controller.status_keys ->
  is_Some (t !! k).
Proof. intros Hdom Hk. apply elem_of_dom. now rewrite Hdom. Qed.

Lemma totals_sum_bump (k : string) (t : gmap string Z) :
  is_Some (t !! k) ->
  Controller.totals_sum (Controller.bump k t) = Controller.totals_sum t + 1.
Proof.
  intros [n E]. unfold Controller.bump, Controller.totals_sum. rewrite E.
  rewrite (map_fold_delete_L _ 0 k n t); [|intros; lia | exact E].
  rewrite <- (insert_delete_eq t).
  rewrite map_fold_insert_L; [lia | intros; lia | apply lookup_delete_eq].
Qed.

Lemma totals_sum_init : Controller.totals_sum Controller.totals_init = 0.
Proof.
  unfold Controller.totals_sum, Controller.totals_init.
  rewrite !map_fold_insert_L; try (intros; lia); reflexivity.
Qed.

Lemma bump_lookup_other (k j : string) (t : gmap string Z) :
  k <> j -> Controller.bump k t !! j = t !! j.
Proof.
  intros Hne. unfold Controller.bump. destruct (t !! k); [|reflexivity].
  now apply lookup_insert_ne.
Qed.

(** ** One pass of the comparison loop *)

Section LoopBody.
Import Controller.
Variable lib : Imaging.
Variable dirs : Dirs.
Variable threshold : float.

Lemma path_exists_lookup (p : Fs.path) (fs0 : Fs.t) :
  Fs.path_exists p fs0 = true -> exists bytes, Fs.files fs0 !! p = Some bytes.
Proof.
  unfold Fs.path_exists. intros Hp. apply bool_decide_eq_true in Hp. exact Hp.
Qed.

Lemma lookup_path_exists (p : Fs.path) (fs0 : Fs.t) (bytes : string) :
  Fs.files fs0 !! p = Some bytes -> Fs.path_exists p fs0 = true.
Proof.
  intros E. unfold Fs.path_exists. apply bool_decide_eq_true. now exists bytes.
Qed.

Lemma totals_incr_bump (k : string) (st : LoopState) :
  is_Some (totals st !! k) ->
  totals_incr k st
  = (Return tt,
     {| per_item := per_item st; totals := bump k (totals st);
        fs := fs st; imaging := imaging st |}).
Proof. intros [n E]. unfold totals_incr, bump. now rewrite E. Qed.

(** Appending an item and counting its status, when the key is held. *)
Lemma append_then_incr (item : Item) (k : string) (st : LoopState) :
  k = status item ->
  is_Some (totals st !! k) ->
  (append_item item ;; totals_incr k) st
  = (Return tt, record_item item (fs st) [] st).
Proof.
  intros -> Hk. unfold bind, append_item. rewrite totals_incr_bump by exact Hk.
  unfold record_item. cbn. now rewrite app_nil_r.
Qed.

Lemma compare_one_no_trainer (u : string) (st : LoopState) :
  is_Some (totals st !! "no_trainer") ->
  Fs.path_exists (base_path dirs u) (fs st) = false ->
  compare_one lib dirs threshold u st
  = (Return tt,
     record_item (item_no_trainer dirs u (Fs.path_exists (cur_path dirs u) (fs st)))
       (fs st) [] st).
Proof.
  intros Hk Hbase. unfold compare_one.
  unfold bind at 1. unfold path_exists at 1.
  fold (capture_key u). fold (base_path dirs u). rewrite Hbase. cbn [negb].
  unfold bind at 1. unfold path_exists at 1.
  now apply append_then_incr.
Qed.

Lemma compare_one_no_current (u : string) (st : LoopState) :
  is_Some (totals st !! "fail") ->
  Fs.path_exists (base_path dirs u) (fs st) = true ->
  Fs.path_exists (cur_path dirs u) (fs st) = false ->
  compare_one lib dirs threshold u st
  = (Return tt, record_item (item_no_current dirs u) (fs st) [] st).
Proof.
  intros Hk Hbase Hcur. unfold compare_one.
  unfold bind at 1. unfold path_exists at 1.
  fold (capture_key u). fold (base_path dirs u). rewrite Hbase. cbn [negb].
  unfold bind at 1. unfold path_exists at 1.
  fold (cur_path dirs u). rewrite Hcur. cbn [negb].
  now apply append_then_incr.
Qed.

(** Stepping through a sequence of statements. *)
Lemma bind_returns {A B} (c : M A) (k : A -> M B) (st st' : LoopState) (a : A) :
  c st = (Return a, st') -> bind c k st = k a st'.
Proof. intros E. unfold bind. now rewrite E. Qed.

Lemma bind_raises {A B} (c : M A) (k : A -> M B) (st st' : LoopState) (e : string) :
  c st = (Raise e, st') -> bind c k st = (Raise e, st').
Proof. intros E. unfold bind. now rewrite E. Qed.

Lemma with_calls_app (c1 c2 : list imaging_call) (st : LoopState) :
  with_calls c2 (with_calls c1 st) = with_calls (c1 ++ c2) st.
Proof. unfold with_calls. cbn. now rewrite app_assoc. Qed.

Lemma png_to_array_decodes (p : Fs.path) (st : LoopState) (bytes : string) :
  Fs.files (fs st) !! p = Some bytes ->
  png_to_array lib p st
  = (decode_png lib bytes, with_calls [PngToArray p] st).
Proof.
  intros E. unfold png_to_array, bind, log_call. cbn [fs]. now rewrite E.
Qed.

Lemma call_compute_metrics_eq (ia ib : Image lib) (st : LoopState) :
  call_compute_metrics lib ia ib st
  = (compute_metrics lib ia ib, with_calls [ComputeMetrics] st).
Proof. reflexivity. Qed.

Lemma save_diff_image_saves (dv : DiffVis lib) (p : Fs.path) (st : LoopState)
      (bytes : string) :
  encode_png lib dv = Return bytes ->
  p ∉ Fs.read_only (fs st) ->
  save_diff_image lib dv p st
  = (Return tt,
     {| per_item := per_item st; totals := totals st;
        fs := Fs.mk (<[p := bytes]> (Fs.files (fs st))) (Fs.read_only (fs st));
        imaging := imaging st ++ [SaveDiffImage p] |}).
Proof.
  intros Henc Hrw. unfold save_diff_image, bind, log_call, Fs.write. cbn [fs].
  rewrite Henc. now rewrite (bool_decide_eq_false_2 _ Hrw).
Qed.

Lemma save_diff_image_encode_raises (dv : DiffVis lib) (p : Fs.path) (st : LoopState)
      (e : string) :
  encode_png lib dv = Raise e ->
  save_diff_image lib dv p st = (Raise e, with_calls [SaveDiffImage p] st).
Proof.
  intros Henc. unfold save_diff_image, bind, log_call. now rewrite Henc.
Qed.

Lemma save_diff_image_write_raises (dv : DiffVis lib) (p : Fs.path) (st : LoopState)
      (bytes : string) :
  encode_png lib dv = Return bytes ->
  p ∈ Fs.read_only (fs st) ->
  save_diff_image lib dv p st
  = (Raise "PermissionError", with_calls [SaveDiffImage p] st).
Proof.
  intros Henc Hro. unfold save_diff_image, bind, log_call, Fs.write. cbn [fs].
  rewrite Henc. now rewrite (bool_decide_eq_true_2 _ Hro).
Qed.

(** The [try] block up to the metrics. *)
Lemma compare_pair_compared (u : string) (st : LoopState) (s m : float)
      (dv : DiffVis lib) :
  compared lib dirs u (fs st) s m dv ->
  compare_pair lib dirs threshold u (capture_key u) st
  = (let status := if PrimFloat.leb threshold s then "ok" else "fail" in
     let! diff_name :=
       (if negb (String.eqb status "ok") then
          save_diff_image lib dv (diff_path dirs u) ;;
          ret (Some (Fs.to_str (diff_path dirs u)))
        else ret None) in
     append_item (item_compared dirs u status s m diff_name) ;;
     totals_incr status) (with_calls (calls_compared dirs u) st).
Proof.
  intros (a & b & ia & ib & Ha & Hb & Hia & Hib & Hm).
  unfold compare_pair. fold (base_path dirs u) (cur_path dirs u) (diff_path dirs u).
  rewrite (bind_returns _ _ st (with_calls [PngToArray (base_path dirs u)] st) ia)
    by (rewrite (png_to_array_decodes _ _ a Ha); now rewrite Hia).
  rewrite (bind_returns _ _ _
             (with_calls [PngToArray (cur_path dirs u)]
                (with_calls [PngToArray (base_path dirs u)] st)) ib)
    by (rewrite (png_to_array_decodes (cur_path dirs u)
                   (with_calls [PngToArray (base_path dirs u)] st) b Hb);
        now rewrite Hib).
  rewrite (bind_returns _ _ _
             (with_calls [ComputeMetrics]
                (with_calls [PngToArray (cur_path dirs u)]
                   (with_calls [PngToArray (base_path dirs u)] st))) (s, m, dv))
    by (rewrite call_compute_metrics_eq; now rewrite Hm).
  rewrite !with_calls_app. reflexivity.
Qed.

(** The [try] block when the pair is compared and scores at least the
    threshold. *)
Lemma compare_pair_ok (u : string) (st : LoopState) (s m : float) (dv : DiffVis lib) :
  is_Some (totals st !! "ok") ->
  compared lib dirs u (fs st) s m dv ->
  PrimFloat.leb threshold s = true ->
  compare_pair lib dirs threshold u (capture_key u) st
  = (Return tt,
     record_item (item_compared dirs u "ok" s m None) (fs st) (calls_compared dirs u) st).
Proof.
  intros Hk Hc Hle. rewrite (compare_pair_compared u st s m dv Hc), Hle. cbv zeta.
  change (negb ("ok" =? "ok")%string) with false. cbv iota.
  rewrite (bind_returns _ _ _ (with_calls (calls_compared dirs u) st) None) by reflexivity.
  rewrite append_then_incr by (reflexivity || exact Hk).
  unfold record_item, with_calls. cbn. now rewrite app_nil_r.
Qed.

(** The [try] block when the pair scores below the threshold and the diff
    image is saved. *)
Lemma compare_pair_fail (u : string) (st : LoopState) (s m : float)
      (dv : DiffVis lib) (bytes : string) :
  is_Some (totals st !! "fail") ->
  compared lib dirs u (fs st) s m dv ->
  PrimFloat.leb threshold s = false ->
  encode_png lib dv = Return bytes ->
  diff_path dirs u ∉ Fs.read_only (fs st) ->
  compare_pair lib dirs threshold u (capture_key u) st
  = (Return tt,
     record_item
       (item_compared dirs u "fail" s m (Some (Fs.to_str (diff_path dirs u))))
       (Fs.mk (<[diff_path dirs u := bytes]> (Fs.files (fs st))) (Fs.read_only (fs st)))
       (calls_compared dirs u ++ [SaveDiffImage (diff_path dirs u)]) st).
Proof.
  intros Hk Hc Hlt Henc Hrw. rewrite (compare_pair_compared u st s m dv Hc), Hlt. cbv zeta.
  change (negb ("fail" =? "ok")%string) with true. cbv iota.
  erewrite (bind_returns _ _ _ _ (Some (Fs.to_str (diff_path dirs u)))).
  2:{ erewrite bind_returns; [reflexivity|].
      apply (save_diff_image_saves _ _ _ bytes); assumption. }
  rewrite append_then_incr by (reflexivity || exact Hk).
  unfold record_item, with_calls. cbn. now rewrite app_nil_r, <- !app_assoc.
Qed.

(** The [try] block when it raises: the items, the totals and the files
    are as before. *)
Lemma compare_pair_error (u : string) (st : LoopState) (e : string)
      (calls : list imaging_call) :
  comparison_error lib dirs threshold u (fs st) e calls ->
  compare_pair lib dirs threshold u (capture_key u) st
  = (Raise e, with_calls calls st).
Proof.
  intros Herr.
  destruct Herr as [a e Ha Hda | a b e ia Ha Hia Hb Hdb | a b e ia ib Ha Hia Hb Hib Hm
                   | s m dv e Hc Hlt Henc | s m dv bytes Hc Hlt Henc Hro].
  - unfold compare_pair. fold (base_path dirs u).
    apply bind_raises. rewrite (png_to_array_decodes _ _ a Ha). now rewrite Hda.
  - unfold compare_pair. fold (base_path dirs u) (cur_path dirs u).
    rewrite (bind_returns _ _ st (with_calls [PngToArray (base_path dirs u)] st) ia)
      by (rewrite (png_to_array_decodes _ _ a Ha); now rewrite Hia).
    apply bind_raises.
    rewrite (png_to_array_decodes (cur_path dirs u)
               (with_calls [PngToArray (base_path dirs u)] st) b Hb).
    now rewrite Hdb, with_calls_app.
  - unfold compare_pair. fold (base_path dirs u) (cur_path dirs u).
    rewrite (bind_returns _ _ st (with_calls [PngToArray (base_path dirs u)] st) ia)
      by (rewrite (png_to_array_decodes _ _ a Ha); now rewrite Hia).
    rewrite (bind_returns _ _ _
               (with_calls [PngToArray (cur_path dirs u)]
                  (with_calls [PngToArray (base_path dirs u)] st)) ib)
      by (rewrite (png_to_array_decodes (cur_path dirs u)
                   (with_calls [PngToArray (base_path dirs u)] st) b Hb);
        now rewrite Hib).
    apply bind_raises. rewrite call_compute_metrics_eq, Hm.
    now rewrite !with_calls_app.
  - rewrite (compare_pair_compared u st s m dv Hc), Hlt. cbv zeta.
    change (negb ("fail" =? "ok")%string) with true. cbv iota.
    apply bind_raises. apply bind_raises.
    rewrite <- with_calls_app. now apply save_diff_image_encode_raises.
  - rewrite (compare_pair_compared u st s m dv Hc), Hlt. cbv zeta.
    change (negb ("fail" =? "ok")%string) with true. cbv iota.
    apply bind_raises. apply bind_raises.
    rewrite <- with_calls_app. now apply (save_diff_image_write_raises _ _ _ bytes).
Qed.

End LoopBody.

Section LoopRun.
Import Controller.
Variable lib : Imaging.
Variable dirs : Dirs.
Variable threshold : float.

Lemma record_item_with_calls (item : Item) (calls : list imaging_call) (st : LoopState) :
  record_item item (fs (with_calls calls st)) [] (with_calls calls st)
  = record_item item (fs st) calls st.
Proof. unfold record_item, with_calls. cbn. now rewrite app_nil_r. Qed.

Lemma compare_one_both_exist (u : string) (st : LoopState) :
  Fs.path_exists (base_path dirs u) (fs st) = true ->
  Fs.path_exists (cur_path dirs u) (fs st) = true ->
  compare_one lib dirs threshold u st
  = try_except (compare_pair lib dirs threshold u (capture_key u))
      (fun e => append_item (item_error dirs u e) ;; totals_incr "fail") st.
Proof.
  intros Hbase Hcur. unfold compare_one.
  unfold bind at 1. unfold path_exists at 1.
  fold (capture_key u). fold (base_path dirs u). rewrite Hbase. cbn [negb].
  unfold bind at 1. unfold path_exists at 1.
  fold (cur_path dirs u). rewrite Hcur. cbn [negb]. reflexivity.
Qed.

Lemma compare_one_error (u : string) (st : LoopState) (e : string)
      (calls : list imaging_call) :
  is_Some (totals st !! "fail") ->
  Fs.path_exists (base_path dirs u) (fs st) = true ->
  Fs.path_exists (cur_path dirs u) (fs st) = true ->
  comparison_error lib dirs threshold u (fs st) e calls ->
  compare_one lib dirs threshold u st
  = (Return tt, record_item (item_error dirs u e) (fs st) calls st).
Proof.
  intros Hk Hbase Hcur Herr. rewrite compare_one_both_exist by assumption.
  unfold try_except. rewrite (compare_pair_error lib dirs threshold u st e calls Herr).
  rewrite append_then_incr by (reflexivity || exact Hk).
  apply f_equal. apply record_item_with_calls.
Qed.

Lemma compare_one_ok (u : string) (st : LoopState) (s m : float) (dv : DiffVis lib) :
  is_Some (totals st !! "ok") ->
  compared lib dirs u (fs st) s m dv ->
  PrimFloat.leb threshold s = true ->
  compare_one lib dirs threshold u st
  = (Return tt,
     record_item (item_compared dirs u "ok" s m None) (fs st) (calls_compared dirs u) st).
Proof.
  intros Hk Hc Hle. pose proof Hc as (a & b & ia & ib & Ha & Hb & _).
  rewrite compare_one_both_exist by (eapply lookup_path_exists; eassumption).
  unfold try_except. now rewrite (compare_pair_ok lib dirs threshold u st s m dv).
Qed.

Lemma compare_one_fail (u : string) (st : LoopState) (s m : float)
      (dv : DiffVis lib) (bytes : string) :
  is_Some (totals st !! "fail") ->
  compared lib dirs u (fs st) s m dv ->
  PrimFloat.leb threshold s = false ->
  encode_png lib dv = Return bytes ->
  diff_path dirs u ∉ Fs.read_only (fs st) ->
  compare_one lib dirs threshold u st
  = (Return tt,
     record_item
       (item_compared dirs u "fail" s m (Some (Fs.to_str (diff_path dirs u))))
       (Fs.mk (<[diff_path dirs u := bytes]> (Fs.files (fs st))) (Fs.read_only (fs st)))
       (calls_compared dirs u ++ [SaveDiffImage (diff_path dirs u)]) st).
Proof.
  intros Hk Hc Hlt Henc Hrw. pose proof Hc as (a & b & ia & ib & Ha & Hb & _).
  rewrite compare_one_both_exist by (eapply lookup_path_exists; eassumption).
  unfold try_except.
  now rewrite (compare_pair_fail lib dirs threshold u st s m dv bytes).
Qed.

(** Every pass returns, records one item and is one of the five cases. *)
Lemma compare_one_verdict (u : string) (st : LoopState) :
  dom (totals st) = status_keys ->
  exists (item : Item) (fs' : Fs.t) (calls : list imaging_call),
    compare_one lib dirs threshold u st = (Return tt, record_item item fs' calls st) /\
    verdict lib dirs threshold u (fs st) item fs' calls.
Proof.
  intros Hdom.
  assert (Hok : is_Some (totals st !! "ok"))
    by (apply status_keys_lookup; [exact Hdom | unfold status_keys; set_solver]).
  assert (Hfail : is_Some (totals st !! "fail"))
    by (apply status_keys_lookup; [exact Hdom | unfold status_keys; set_solver]).
  assert (Hnt : is_Some (totals st !! "no_trainer"))
    by (apply status_keys_lookup; [exact Hdom | unfold status_keys; set_solver]).
  destruct (Fs.path_exists (base_path dirs u) (fs st)) eqn:Hbase.
  2:{ eexists _, _, _. split; [now apply compare_one_no_trainer|].
      now apply verdict_no_trainer. }
  destruct (Fs.path_exists (cur_path dirs u) (fs st)) eqn:Hcur.
  2:{ eexists _, _, _. split; [now apply compare_one_no_current|].
      now apply verdict_no_current. }
  destruct (path_exists_lookup _ _ Hbase) as [a Ha].
  destruct (path_exists_lookup _ _ Hcur) as [b Hb].
  assert (raises : forall e calls,
             comparison_error lib dirs threshold u (fs st) e calls ->
             exists item fs' calls,
               compare_one lib dirs threshold u st
               = (Return tt, record_item item fs' calls st) /\
               verdict lib dirs threshold u (fs st) item fs' calls).
  { intros e calls Herr. eexists _, _, _.
    split; [now apply (compare_one_error u st e calls)|].
    now apply verdict_error. }
  destruct (decode_png lib a) as [e|ia] eqn:Hia.
  { eapply (raises e). now apply (error_decode_trainer _ _ _ _ _ a). }
  destruct (decode_png lib b) as [e|ib] eqn:Hib.
  { eapply (raises e). now apply (error_decode_current _ _ _ _ _ a b e ia). }
  destruct (compute_metrics lib ia ib) as [e|[[s m] dv]] eqn:Hm.
  { eapply (raises e). now apply (error_metrics _ _ _ _ _ a b e ia ib). }
  assert (Hc : compared lib dirs u (fs st) s m dv) by (now exists a, b, ia, ib).
  destruct (PrimFloat.leb threshold s) eqn:Hle.
  { eexists _, _, _. split; [now apply (compare_one_ok u st s m dv)|].
    now apply (verdict_ok _ _ _ _ _ s m dv). }
  destruct (encode_png lib dv) as [e|bytes] eqn:Henc.
  { eapply (raises e). now apply (error_encode _ _ _ _ _ s m dv). }
  destruct (decide (diff_path dirs u ∈ Fs.read_only (fs st))) as [Hro|Hrw].
  { eapply (raises "PermissionError"). now apply (error_write _ _ _ _ _ s m dv bytes). }
  eexists _, _, _. split; [now apply (compare_one_fail u st s m dv bytes)|].
  now apply (verdict_fail _ _ _ _ _ s m dv bytes).
Qed.

Lemma verdict_url_status (u : string) (fs0 fs' : Fs.t) (item : Item)
      (calls : list imaging_call) :
  verdict lib dirs threshold u fs0 item fs' calls ->
  url item = u /\
  (status item = "ok" \/ status item = "fail" \/ status item = "no_trainer").
Proof. destruct 1; cbn; auto. Qed.

End LoopRun.

(** ** The whole comparison pass *)

Section Loop.
Import Controller.
Variable lib : Imaging.
Variable dirs : Dirs.
Variable threshold : float.

Lemma for_each_app {A} (body : A -> M unit) (l1 l2 : list A) (st : LoopState) :
  for_each body (l1 ++ l2) st
  = match for_each body l1 st with
    | (Return _, st1) => for_each body l2 st1
    | (Raise e, st1) => (Raise e, st1)
    end.
Proof.
  revert st. induction l1 as [|x l1 IH]; intros st; [reflexivity|].
  cbn [app for_each]. unfold bind.
  destruct (body x st) as [[e|[]] st1]; [reflexivity|]. apply IH.
Qed.

(** The pass returns for every URL list; it appends one item per URL, in
    order, keeps the keys of the totals, counts every item once and never
    touches the [warn] counter. *)
Lemma compare_urls_returns (urls : list string) :
  forall st : LoopState,
    dom (totals st) = status_keys ->
    exists (st' : LoopState) (items : list Item),
      compare_urls lib dirs threshold urls st = (Return tt, st') /\
      dom (totals st') = status_keys /\
      per_item st' = per_item st ++ items /\
      List.map url items = urls /\
      List.Forall
        (fun it => status it = "ok" \/ status it = "fail" \/ status it = "no_trainer")
        items /\
      totals_sum (totals st') = totals_sum (totals st) + Z.of_nat (List.length urls) /\
      totals st' !! "warn" = totals st !! "warn".
Proof.
  unfold compare_urls. induction urls as [|u urls IH]; intros st Hdom.
  - exists st, []. cbn. rewrite app_nil_r, Z.add_0_r. repeat split; auto.
  - destruct (compare_one_verdict lib dirs threshold u st Hdom)
      as (item & fs' & calls & Hone & Hv).
    destruct (verdict_url_status lib dirs threshold u _ _ _ _ Hv) as [Hurl Hstatus].
    assert (Hdom1 : dom (totals (record_item item fs' calls st)) = status_keys)
      by (cbn; now rewrite bump_keys).
    destruct (IH _ Hdom1) as (st' & items & Hrun & Hdom' & Hitems & Hurls & Hst & Hsum & Hwarn).
    exists st', (item :: items). cbn [for_each]. unfold bind. rewrite Hone, Hrun.
    repeat split; try assumption.
    + rewrite Hitems. cbn. now rewrite <- app_assoc.
    + cbn. now rewrite Hurl, Hurls.
    + now constructor.
    + rewrite Hsum. cbn [record_item totals List.length].
      rewrite totals_sum_bump; [lia|].
      apply status_keys_lookup; [exact Hdom|].
      unfold status_keys. destruct Hstatus as [-> | [-> | ->]]; set_solver.
    + rewrite Hwarn. cbn [record_item totals]. apply bump_lookup_other.
      destruct Hstatus as [-> | [-> | ->]]; discriminate.
Qed.

Lemma loop_init_keys (fs0 : Fs.t) : dom (totals (loop_init fs0)) = status_keys.
Proof. apply totals_init_keys. Qed.

(** The pass at index [i]: the state it finds, the case it is in, the
    state it leaves and the place of its item in the final list. *)
Lemma compare_urls_at (urls : list string) (fs0 : Fs.t) (i : nat) (u : string) :
  urls !! i = Some u ->
  exists (item : Item) (fs' : Fs.t) (calls : list imaging_call) (final : LoopState),
    verdict lib dirs threshold u (fs (state_before lib dirs threshold urls fs0 i))
      item fs' calls /\
    state_before lib dirs threshold urls fs0 (S i)
    = record_item item fs' calls (state_before lib dirs threshold urls fs0 i) /\
    compare_urls lib dirs threshold urls (loop_init fs0) = (Return tt, final) /\
    per_item final !! i = Some item.
Proof.
  intros Hu. unfold state_before.
  destruct (compare_urls_returns (take i urls) (loop_init fs0) (loop_init_keys fs0))
    as (st_i & items_i & Hrun_i & Hdom_i & Hitems_i & Hurls_i & _).
  rewrite Hrun_i. cbn [snd].
  destruct (compare_one_verdict lib dirs threshold u st_i Hdom_i)
    as (item & fs' & calls & Hone & Hv).
  assert (Hlen : List.length (per_item st_i) = i).
  { rewrite Hitems_i. cbn [loop_init per_item app].
    rewrite <- (List.length_map url), Hurls_i, length_take.
    apply lookup_lt_Some in Hu. lia. }
  assert (Hnext : compare_urls lib dirs threshold (take (S i) urls) (loop_init fs0)
                  = (Return tt, record_item item fs' calls st_i)).
  { rewrite (take_S_r urls i u Hu). unfold compare_urls in *.
    rewrite for_each_app, Hrun_i. cbn [for_each]. unfold bind. now rewrite Hone. }
  assert (Hdom1 : dom (totals (record_item item fs' calls st_i)) = status_keys)
    by (cbn; now rewrite bump_keys).
  destruct (compare_urls_returns (drop (S i) urls) _ Hdom1)
    as (final & rest & Hrun_f & _ & Hitems_f & _).
  exists item, fs', calls, final. repeat split.
  - exact Hv.
  - now rewrite Hnext.
  - rewrite <- (take_drop (S i) urls) at 1. unfold compare_urls in *.
    now rewrite for_each_app, Hnext.
  - rewrite Hitems_f. cbn [record_item per_item].
    rewrite <- app_assoc. rewrite lookup_app_r by lia.
    now replace (i - List.length (per_item st_i))%nat with 0%nat by lia.
Qed.

End Loop.

(** ** The run endpoint *)

Section Endpoint.
Import Controller.
Variable lib : Imaging.
Variable host : Host.

(** A run that answers with a report ran the comparison pass to its end
    and reports its items and totals. *)
Lemma run_and_compare_report (q : Query) (fs0 fs' : Fs.t) (report : Report) :
  run_and_compare lib host q fs0 = (Return (ReportResponse report), fs') ->
  exists final : LoopState,
    compare_urls lib (resolve_dirs q) (ssim_threshold q) (run_urls host q fs0)
      (loop_init (after_capture host q fs0).2) = (Return tt, final) /\
    r_items report = per_item final /\
    r_totals report = totals final.
Proof.
  unfold run_and_compare.
  destruct (negb (Fs.path_exists _ fs0)); [discriminate|].
  destruct (after_capture host q fs0) as [details fs2]. cbn [snd].
  destruct (compare_urls _ _ _ _ _) as [[e|[]] final]; [discriminate|].
  destruct (write_report _ _ _ _) as [e|[p fs3]]; [discriminate|].
  intros E. injection E as <- _. exists final. repeat split.
Qed.

(** The pass at index [i] of a run that answers with a report. *)
Lemma run_and_compare_at (q : Query) (fs0 fs' : Fs.t) (report : Report)
      (i : nat) (u : string) :
  run_and_compare lib host q fs0 = (Return (ReportResponse report), fs') ->
  run_urls host q fs0 !! i = Some u ->
  exists (item : Item) (fs1 : Fs.t) (calls : list imaging_call),
    verdict lib (resolve_dirs q) (ssim_threshold q) u
      (fs (run_state_before lib host q fs0 i)) item fs1 calls /\
    run_state_before lib host q fs0 (S i)
    = record_item item fs1 calls (run_state_before lib host q fs0 i) /\
    r_items report !! i = Some item.
Proof.
  intros Hrun Hu.
  destruct (run_and_compare_report q fs0 fs' report Hrun) as (final & Hloop & Hitems & _).
  destruct (compare_urls_at lib (resolve_dirs q) (ssim_threshold q)
              (run_urls host q fs0) (after_capture host q fs0).2 i u Hu)
    as (item & fs1 & calls & final' & Hv & Hnext & Hloop' & Hi).
  rewrite Hloop in Hloop'. injection Hloop' as <-.
  exists item, fs1, calls. repeat split; [exact Hv | exact Hnext | now rewrite Hitems].
Qed.

Lemma compared_exists (dirs : Dirs) (u : string) (fs0 : Fs.t) (s m : float)
      (dv : DiffVis lib) :
  compared lib dirs u fs0 s m dv ->
  Fs.path_exists (base_path dirs u) fs0 = true /\
  Fs.path_exists (cur_path dirs u) fs0 = true.
Proof.
  intros (a & b & ia & ib & Ha & Hb & _).
  split; eapply lookup_path_exists; eassumption.
Qed.

Lemma compared_unique (dirs : Dirs) (u : string) (fs0 : Fs.t) (s m s' m' : float)
      (dv dv' : DiffVis lib) :
  compared lib dirs u fs0 s m dv ->
  compared lib dirs u fs0 s' m' dv' ->
  s = s' /\ m = m' /\ dv = dv'.
Proof.
  intros (a & b & ia & ib & Ha & Hb & Hia & Hib & Hm)
         (a' & b' & ia' & ib' & Ha' & Hb' & Hia' & Hib' & Hm').
  rewrite Ha in Ha'. injection Ha' as <-. rewrite Hb in Hb'. injection Hb' as <-.
  rewrite Hia in Hia'. injection Hia' as <-. rewrite Hib in Hib'. injection Hib' as <-.
  rewrite Hm in Hm'. injection Hm' as <- <- <-. repeat split.
Qed.

(** When the pair is below the threshold and its diff image can be
    encoded and written, the [try] block does not raise. *)
Lemma comparison_error_not_saved (dirs : Dirs) (threshold : float) (u : string)
      (fs0 : Fs.t) (e : string) (calls : list imaging_call)
      (s m : float) (dv : DiffVis lib) (bytes : string) :
  comparison_error lib dirs threshold u fs0 e calls ->
  compared lib dirs u fs0 s m dv ->
  PrimFloat.leb threshold s = false ->
  encode_png lib dv = Return bytes ->
  diff_path dirs u ∉ Fs.read_only fs0 ->
  False.
Proof.
  intros Herr Hc Hlt Henc Hrw.
  pose proof Hc as (a & b & ia & ib & Ha & Hb & Hia & Hib & Hm).
  destruct Herr as [a' e Ha' Hda | a' b' e ia' Ha' Hia' Hb' Hdb
                   | a' b' e ia' ib' Ha' Hia' Hb' Hib' Hm'
                   | s' m' dv' e Hc' _ Henc' | s' m' dv' bytes' Hc' _ _ Hro].
  - congruence.
  - congruence.
  - rewrite Ha in Ha'. injection Ha' as <-. rewrite Hb in Hb'. injection Hb' as <-.
    rewrite Hia in Hia'. injection Hia' as <-.
    rewrite Hib in Hib'. injection Hib' as <-. congruence.
  - destruct (compared_unique _ _ _ _ _ _ _ _ _ Hc Hc') as (_ & _ & <-). congruence.
  - contradiction.
Qed.

(** C1, as amended: in a run that answers with a report, a URL whose
    trainer image does not exist when the loop reaches it gets the verdict
    [no_trainer], with no metrics, no imaging call made and no file changed
    for it; and the totals of the report have exactly the keys [ok], [warn],
    [fail] and [no_trainer]. *)
Theorem missing_baseline_is_no_trainer
        (q : Query) (fs0 fs' : Fs.t) (report : Report) :
  run_and_compare lib host q fs0 = (Return (ReportResponse report), fs') ->
  dom (r_totals report) = {[ "ok"; "warn"; "fail"; "no_trainer" ]} /\
  forall (i : nat) (u : string),
    run_urls host q fs0 !! i = Some u ->
    Fs.path_exists (base_path (resolve_dirs q) u)
      (fs (run_state_before lib host q fs0 i)) = false ->
    exists item : Item,
      r_items report !! i = Some item /\
      url item = u /\
      status item = "no_trainer" /\
      metrics item = None /\
      imaging (run_state_before lib host q fs0 (S i))
      = imaging (run_state_before lib host q fs0 i) /\
      fs (run_state_before lib host q fs0 (S i))
      = fs (run_state_before lib host q fs0 i).
Proof.
  intros Hrun. split.
  - destruct (run_and_compare_report q fs0 fs' report Hrun) as (final & Hloop & _ & ->).
    destruct (compare_urls_returns lib (resolve_dirs q) (ssim_threshold q)
                (run_urls host q fs0) _ (loop_init_keys (after_capture host q fs0).2))
      as (st' & items & Hloop' & Hdom & _).
    rewrite Hloop in Hloop'. injection Hloop' as <-. exact Hdom.
  - intros i u Hu Hbase.
    destruct (run_and_compare_at q fs0 fs' report i u Hrun Hu)
      as (item & fs1 & calls & Hv & Hnext & Hi).
    exists item. rewrite Hnext.
    destruct Hv as [_ | Hb _ | e calls Hb _ _ | s m dv Hc _ | s m dv bytes Hc _ _ _];
      try (apply compared_exists in Hc as [Hb _]); try congruence.
    cbn. rewrite app_nil_r. repeat split. exact Hi.
Qed.

(** C2, as amended: in a run that answers with a report, for every URL,
    an [ok] verdict changes no file and carries no diff path; a [fail]
    verdict that carries metrics (a score below the threshold) has its
    diff image persisted as [diff_<CaptureKey>] in the diff directory; a
    [fail] verdict without metrics (the current capture is missing, or the
    comparison raised) changes no file and carries no diff; a missing
    current capture with the trainer image present is such a [fail]; and
    a pair scored below the threshold whose diff image can be encoded and
    written gets [fail], its metrics, and the encoded image at that path. *)
Theorem diff_artifact_by_verdict
        (q : Query) (fs0 fs' : Fs.t) (report : Report) (i : nat) (u : string) :
  run_and_compare lib host q fs0 = (Return (ReportResponse report), fs') ->
  run_urls host q fs0 !! i = Some u ->
  exists item : Item,
    r_items report !! i = Some item /\
    url item = u /\
    (status item = "ok" ->
     fs (run_state_before lib host q fs0 (S i)) = fs (run_state_before lib host q fs0 i) /\
     diff item = Some None) /\
    (status item = "fail" ->
     forall s m : float, metrics item = Some (s, m) ->
       PrimFloat.leb (ssim_threshold q) s = false /\
       diff_path (resolve_dirs q) u
       = (diffs_dir (resolve_dirs q), "diff_" +:+ capture_key u) /\
       Fs.path_exists (diff_path (resolve_dirs q) u)
         (fs (run_state_before lib host q fs0 (S i))) = true /\
       diff item = Some (Some (Fs.to_str (diff_path (resolve_dirs q) u)))) /\
    (status item = "fail" -> metrics item = None ->
     fs (run_state_before lib host q fs0 (S i)) = fs (run_state_before lib host q fs0 i) /\
     diff item = None) /\
    (Fs.path_exists (base_path (resolve_dirs q) u)
       (fs (run_state_before lib host q fs0 i)) = true ->
     Fs.path_exists (cur_path (resolve_dirs q) u)
       (fs (run_state_before lib host q fs0 i)) = false ->
     status item = "fail" /\ metrics item = None) /\
    (forall (s m : float) (dv : DiffVis lib) (bytes : string),
       compared lib (resolve_dirs q) u (fs (run_state_before lib host q fs0 i)) s m dv ->
       PrimFloat.leb (ssim_threshold q) s = false ->
       encode_png lib dv = Return bytes ->
       diff_path (resolve_dirs q) u
       ∉ Fs.read_only (fs (run_state_before lib host q fs0 i)) ->
       status item = "fail" /\
       metrics item = Some (s, m) /\
       Fs.files (fs (run_state_before lib host q fs0 (S i)))
         !! diff_path (resolve_dirs q) u = Some bytes).
Proof.
  intros Hrun Hu.
  destruct (run_and_compare_at q fs0 fs' report i u Hrun Hu)
    as (item & fs1 & calls & Hv & Hnext & Hi).
  exists item. rewrite Hnext. split; [exact Hi|].
  destruct Hv as [Hb | Hb Hcu | e calls Hb Hcu Herr | s m dv Hc Hle | s m dv bytes Hc Hlt Henc Hrw];
    cbn; (split; [reflexivity|]).
  - split_and!; try discriminate; try congruence.
    intros s m dv bytes Hc. apply compared_exists in Hc as [Hb' _]. congruence.
  - split_and!; try discriminate; try congruence; try (intros; split; reflexivity).
    intros s m dv bytes Hc. apply compared_exists in Hc as [_ Hcu']. congruence.
  - split_and!; try discriminate; try congruence; try (intros; split; reflexivity).
    intros s m dv bytes Hc Hlt Henc Hrw. exfalso.
    eapply comparison_error_not_saved; eassumption.
  - pose proof (compared_exists _ _ _ _ _ _ Hc) as [Hb Hcu].
    split_and!; try discriminate; try congruence; try (intros; split; reflexivity).
    intros s' m' dv' bytes Hc'.
    destruct (compared_unique _ _ _ _ _ _ _ _ _ Hc Hc') as (<- & _). congruence.
  - pose proof (compared_exists _ _ _ _ _ _ Hc) as [Hb Hcu].
    split_and!; try discriminate; try congruence.
    + intros _ s' m' E. injection E as <- <-. split_and!; [exact Hlt | reflexivity | | reflexivity].
      apply (lookup_path_exists _ _ bytes). cbn. apply lookup_insert_eq.
    + intros s' m' dv' bytes' Hc' _ Henc' _.
      destruct (compared_unique _ _ _ _ _ _ _ _ _ Hc Hc') as (<- & <- & <-).
      split_and!; [reflexivity | reflexivity |].
      rewrite lookup_insert_eq. congruence.
Qed.

End Endpoint.

Section Classification.
Import Controller.
Variable lib : Imaging.
Variable host : Host.

(** The status of a pass over a pair whose metrics were computed. *)
Lemma verdict_compared_status (dirs : Dirs) (threshold : float) (u : string)
      (fs0 fs1 : Fs.t) (item : Item) (calls : list imaging_call)
      (s m : float) (dv : DiffVis lib) :
  verdict lib dirs threshold u fs0 item fs1 calls ->
  compared lib dirs u fs0 s m dv ->
  url item = u /\
  status item = (if PrimFloat.leb threshold s then "ok" else "fail").
Proof.
  intros Hv Hc. pose proof (compared_exists lib dirs u fs0 s m dv Hc) as [Hb Hcu].
  pose proof Hc as (a & b & ia & ib & Ha & Hb' & Hia & Hib & Hm).
  destruct Hv as [Hnb | _ Hnc | e calls _ _ Herr | s' m' dv' Hc' Hle
                 | s' m' dv' bytes Hc' Hlt _ _]; try congruence.
  - destruct Herr as [a' e Ha' Hda | a' b' e ia' Ha' Hia' Hb'' Hdb
                     | a' b' e ia' ib' Ha' Hia' Hb'' Hib' Hm'
                     | s' m' dv' e Hc' Hlt _ | s' m' dv' bytes Hc' Hlt _ _]; cbn.
    + congruence.
    + congruence.
    + exfalso. rewrite Ha in Ha'. injection Ha' as <-.
      rewrite Hb' in Hb''. injection Hb'' as <-.
      rewrite Hia in Hia'. injection Hia' as <-.
      rewrite Hib in Hib'. injection Hib' as <-. congruence.
    + destruct (compared_unique lib dirs u fs0 _ _ _ _ _ _ Hc Hc') as (<- & _).
      now rewrite Hlt.
    + destruct (compared_unique lib dirs u fs0 _ _ _ _ _ _ Hc Hc') as (<- & _).
      now rewrite Hlt.
  - destruct (compared_unique lib dirs u fs0 _ _ _ _ _ _ Hc Hc') as (<- & _).
    cbn. now rewrite Hle.
  - destruct (compared_unique lib dirs u fs0 _ _ _ _ _ _ Hc Hc') as (<- & _).
    cbn. now rewrite Hlt.
Qed.

(** C3: in a run that answers with a report, a URL whose pair is compared
    with score [s] gets the verdict [ok] exactly when [s >= threshold], and
    [fail] exactly when not; so a score equal to the threshold is [ok] and
    a score below it is [fail].  The threshold is any binary64 value. *)
Theorem threshold_classification
        (q : Query) (fs0 fs' : Fs.t) (report : Report) (i : nat) (u : string)
        (s m : float) (dv : DiffVis lib) :
  run_and_compare lib host q fs0 = (Return (ReportResponse report), fs') ->
  run_urls host q fs0 !! i = Some u ->
  compared lib (resolve_dirs q) u (fs (run_state_before lib host q fs0 i)) s m dv ->
  exists item : Item,
    r_items report !! i = Some item /\
    url item = u /\
    (status item = "ok" <-> PrimFloat.leb (ssim_threshold q) s = true) /\
    (status item = "fail" <-> PrimFloat.leb (ssim_threshold q) s = false) /\
    (PrimFloat.eqb s (ssim_threshold q) = true -> status item = "ok") /\
    (PrimFloat.ltb s (ssim_threshold q) = true -> status item = "fail").
Proof.
  intros Hrun Hu Hc.
  destruct (run_and_compare_at lib host q fs0 fs' report i u Hrun Hu)
    as (item & fs1 & calls & Hv & _ & Hi).
  destruct (verdict_compared_status _ _ _ _ _ _ _ _ _ _ Hv Hc) as [Hurl Hst].
  exists item. split; [exact Hi|]. split; [exact Hurl|]. rewrite Hst.
  assert (cases : forall b : bool,
            ((if b then "ok" else "fail") = "ok" <-> b = true) /\
            ((if b then "ok" else "fail") = "fail" <-> b = false))
    by (intros []; repeat split; congruence).
  destruct (cases (PrimFloat.leb (ssim_threshold q) s)) as [Hok Hfail].
  repeat split; try apply Hok; try apply Hfail.
  - intros Heq. apply Hok. now apply float_eqb_geb.
  - intros Hlt. apply Hfail. now apply float_ltb_not_geb.
Qed.

(** C5: in a run that answers with a report, the items are as many as the
    parsed URLs, the item at index [i] is the one of the URL at index [i]
    (whatever capture keys the URLs have), and the counters of the totals
    add up to the number of URLs. *)
Theorem report_items_match_urls
        (q : Query) (fs0 fs' : Fs.t) (report : Report) :
  run_and_compare lib host q fs0 = (Return (ReportResponse report), fs') ->
  List.length (r_items report) = List.length (run_urls host q fs0) /\
  List.map url (r_items report) = run_urls host q fs0 /\
  (forall (i : nat) (u : string),
     run_urls host q fs0 !! i = Some u ->
     exists item : Item, r_items report !! i = Some item /\ url item = u) /\
  totals_sum (r_totals report) = Z.of_nat (List.length (run_urls host q fs0)).
Proof.
  intros Hrun.
  destruct (run_and_compare_report lib host q fs0 fs' report Hrun)
    as (final & Hloop & -> & ->).
  destruct (compare_urls_returns lib (resolve_dirs q) (ssim_threshold q)
              (run_urls host q fs0) _ (loop_init_keys (after_capture host q fs0).2))
    as (st' & items & Hloop' & _ & Hitems & Hurls & _ & Hsum & _).
  rewrite Hloop in Hloop'. injection Hloop' as <-.
  cbn [loop_init per_item totals app] in Hitems, Hsum. subst items.
  assert (Hmap : List.map url (per_item final) = run_urls host q fs0) by exact Hurls.
  repeat split.
  - now rewrite <- Hmap, List.length_map.
  - exact Hmap.
  - intros i u Hu. rewrite <- Hmap in Hu.
    change (List.map url (per_item final)) with (url <$> per_item final) in Hu.
    apply list_lookup_fmap_Some in Hu as (item & -> & Hitem).
    exists item. split; [exact Hitem | reflexivity].
  - rewrite Hsum, totals_sum_init. lia.
Qed.

(** C7: in a run that answers with a report, every item has one of the
    statuses [ok], [fail] and [no_trainer], none has [warn], and the
    [warn] counter of the totals is 0. *)
Theorem warn_never_assigned
        (q : Query) (fs0 fs' : Fs.t) (report : Report) :
  run_and_compare lib host q fs0 = (Return (ReportResponse report), fs') ->
  (forall item : Item, item ∈ r_items report ->
     status item <> "warn" /\
     (status item = "ok" \/ status item = "fail" \/ status item = "no_trainer")) /\
  r_totals report !! "warn" = Some 0.
Proof.
  intros Hrun.
  destruct (run_and_compare_report lib host q fs0 fs' report Hrun)
    as (final & Hloop & -> & ->).
  destruct (compare_urls_returns lib (resolve_dirs q) (ssim_threshold q)
              (run_urls host q fs0) _ (loop_init_keys (after_capture host q fs0).2))
    as (st' & items & Hloop' & _ & Hitems & _ & Hst & _ & Hwarn).
  rewrite Hloop in Hloop'. injection Hloop' as <-.
  cbn [loop_init per_item totals app] in Hitems, Hwarn. subst items. split.
  - intros item Hin. rewrite List.Forall_forall in Hst.
    apply list_elem_of_In in Hin. specialize (Hst item Hin).
    split; [|exact Hst]. destruct Hst as [-> | [-> | ->]]; discriminate.
  - rewrite Hwarn. reflexivity.
Qed.

End Classification.

Section Answers.
Import Controller.
Variable lib : Imaging.
Variable host : Host.



End Answers.

(** ** Capture keys are entry names *)

Lemma all_chars_append (p : ascii -> bool) (a b : string) :
  Py.all_chars p (a +:+ b) = Py.all_chars p a && Py.all_chars p b.
Proof.
  induction a as [|c a IH]; [reflexivity|].
  rewrite str_append_cons. cbn [Py.all_chars]. now rewrite IH, andb_assoc.
Qed.

(** Replacing the runs of the complement of [p] leaves characters of [p]. *)
Lemma all_chars_sub_runs_class (cls p : ascii -> bool) (repl : string)
      (in_run : bool) (s : string) :
  Py.all_chars p repl = true ->
  (forall c, cls c = false -> p c = true) ->
  Py.all_chars p (Py.sub_runs cls repl in_run s) = true.
Proof.
  intros Hrepl Hp. revert in_run.
  induction s as [|c s IH]; intros in_run; cbn [Py.sub_runs]; [reflexivity|].
  destruct (cls c) eqn:Hc.
  - destruct in_run; [apply IH|]. now rewrite all_chars_append, Hrepl, IH.
  - cbn [Py.all_chars]. now rewrite (Hp c Hc), IH.
Qed.

(** Replacing runs in a string of [p] by a string of [p] stays in [p]. *)
Lemma all_chars_sub_runs_keep (cls p : ascii -> bool) (repl : string)
      (in_run : bool) (s : string) :
  Py.all_chars p repl = true ->
  Py.all_chars p s = true ->
  Py.all_chars p (Py.sub_runs cls repl in_run s) = true.
Proof.
  intros Hrepl. revert in_run.
  induction s as [|c s IH]; intros in_run; cbn [Py.sub_runs Py.all_chars]; [reflexivity|].
  intros [Hc Hs]%andb_true_iff. destruct (cls c).
  - destruct in_run; [now apply IH|]. now rewrite all_chars_append, Hrepl, IH.
  - cbn [Py.all_chars]. now rewrite Hc, IH.
Qed.

Lemma all_chars_lstrip (p : ascii -> bool) (c : ascii) (s : string) :
  Py.all_chars p s = true -> Py.all_chars p (Py.lstrip c s) = true.
Proof.
  induction s as [|a s IH]; [reflexivity|]. cbn [Py.lstrip].
  destruct (Ascii.eqb a c); [|trivial].
  cbn [Py.all_chars]. intros [_ Hs]%andb_true_iff. now apply IH.
Qed.

Lemma all_chars_rstrip (p : ascii -> bool) (c : ascii) (s : string) :
  Py.all_chars p s = true -> Py.all_chars p (Py.rstrip c s) = true.
Proof.
  induction s as [|a s IH]; [reflexivity|]. cbn [Py.rstrip Py.all_chars].
  intros [Ha Hs]%andb_true_iff. specialize (IH Hs).
  destruct (Py.rstrip c s) as [|b r].
  - destruct (Ascii.eqb a c); cbn [Py.all_chars]; [reflexivity | now rewrite Ha].
  - change (Py.all_chars p (String a (String b r)) = true).
    cbn [Py.all_chars] in *. now rewrite Ha.
Qed.

Lemma all_chars_take (p : ascii -> bool) (n : nat) (s : string) :
  Py.all_chars p s = true -> Py.all_chars p (Py.take n s) = true.
Proof.
  revert s. induction n as [|n IH]; intros [|a s]; cbn [Py.take Py.all_chars]; trivial.
  intros [Ha Hs]%andb_true_iff. now rewrite Ha, IH.
Qed.

(** X20: every character of a capture key is in [A-Za-z0-9._-], for every
    URL and every length bound: a key holds no ["/"], so it names an entry
    of the directory it is joined to. *)
Lemma sanitize_filename_safe (u : string) (max_len : Z) :
  Py.all_chars Helpers.is_safe (Helpers.sanitize_filename u max_len) = true.
Proof.
  assert (Hnorm : Py.all_chars Helpers.is_safe (Helpers.normalized u) = true).
  { unfold Helpers.normalized, Py.strip, Py.re_sub_class_plus.
    apply all_chars_rstrip, all_chars_lstrip.
    apply all_chars_sub_runs_keep; [reflexivity|].
    apply all_chars_sub_runs_class; [reflexivity|].
    intros c Hc. unfold Helpers.is_unsafe in Hc. now apply negb_false_iff in Hc. }
  assert (Htrunc : Py.all_chars Helpers.is_safe (Helpers.truncated u max_len) = true).
  { unfold Helpers.truncated, Py.slice_to.
    destruct (_ >? max_len); [|exact Hnorm].
    destruct (0 <=? max_len); now apply all_chars_take. }
  unfold Helpers.sanitize_filename. rewrite all_chars_append.
  destruct (Helpers.truncated u max_len) as [|c s]; cbn [Py.is_empty]; [reflexivity|].
  now rewrite Htrunc.
Qed.

(** ** The sample run *)

(** What the sample run records for c (no trainer image), d (no capture)
    and e (a trainer image that does not decode), and what it leaves in
    the diff directory. *)
Lemma demo_run_facts :
  match Controller.run_and_compare Demo.lib Demo.host Demo.query Demo.fs0 with
  | (Return (Controller.ReportResponse report), fs') =>
      Controller.r_items report !! 2%nat
      = Some (Controller.item_no_trainer (Controller.resolve_dirs Demo.query)
                "https://c.example" true) /\
      Controller.r_items report !! 3%nat
      = Some (Controller.item_no_current (Controller.resolve_dirs Demo.query)
                "https://d.example") /\
      Controller.r_items report !! 4%nat
      = Some (Controller.item_error (Controller.resolve_dirs Demo.query)
                "https://e.example" "cannot identify image file") /\
      Controller.r_totals report !! "no_baseline" = None /\
      Fs.path_exists ("/data/diff", "diff_b.example.png") fs' = true /\
      Fs.path_exists ("/data/diff", "diff_d.example.png") fs' = false /\
      Fs.path_exists ("/data/diff", "diff_e.example.png") fs' = false
  | _ => False
  end.
Proof. vm_compute. split_and!; reflexivity. Qed.

(** The verdicts and the totals of the sample run. *)
Example demo_run_statuses :
  match Controller.run_and_compare Demo.lib Demo.host Demo.query Demo.fs0 with
  | (Return (Controller.ReportResponse report), _) =>
      List.map Controller.status (Controller.r_items report)
      = ["ok"; "fail"; "no_trainer"; "fail"; "fail"] /\
      Controller.r_totals report !! "ok" = Some 1 /\
      Controller.r_totals report !! "warn" = Some 0 /\
      Controller.r_totals report !! "fail" = Some 3 /\
      Controller.r_totals report !! "no_trainer" = Some 1
  | _ => False
  end.
Proof. vm_compute. split_and!; reflexivity. Qed.

(** The sample run answers with a report. *)
Lemma demo_run_reports :
  exists (report : Controller.Report) (fs' : Fs.t),
    Controller.run_and_compare Demo.lib Demo.host Demo.query Demo.fs0
    = (Return (Controller.ReportResponse report), fs').
Proof.
  pose proof demo_run_facts as Hfacts.
  destruct (Controller.run_and_compare Demo.lib Demo.host Demo.query Demo.fs0)
    as [[e|[err|report]] fs']; try contradiction.
  now exists report, fs'.
Qed.

Lemma demo_run_urls :
  Controller.run_urls Demo.host Demo.query Demo.fs0 = Demo.urls.
Proof. vm_compute. reflexivity. Qed.

Lemma missing_baseline_is_no_trainer_witness :
  exists (report : Controller.Report) (fs' : Fs.t) (item : Controller.Item),
    Controller.run_and_compare Demo.lib Demo.host Demo.query Demo.fs0
    = (Return (Controller.ReportResponse report), fs') /\
    dom (Controller.r_totals report) = {[ "ok"; "warn"; "fail"; "no_trainer" ]} /\
    Controller.r_items report !! 2%nat = Some item /\
    Controller.url item = "https://c.example" /\
    Controller.status item = "no_trainer".
Proof.
  destruct demo_run_reports as (report & fs' & E).
  destruct (missing_baseline_is_no_trainer Demo.lib Demo.host Demo.query Demo.fs0 fs'
              report E) as [Hdom Hall].
  destruct (Hall 2%nat "https://c.example") as (item & Hi & Hurl & Hst & _).
  - vm_compute. reflexivity.
  - vm_compute. reflexivity.
  - exists report, fs', item. repeat split; assumption.
Defined.

(** C1 as the specification words it does not hold on the sample run: the
    URL without a trainer image gets the status [no_trainer], not
    [no_baseline], and the totals have no key [no_baseline]. *)
Lemma missing_baseline_not_no_baseline :
  exists (report : Controller.Report) (fs' : Fs.t) (item : Controller.Item),
    Controller.run_and_compare Demo.lib Demo.host Demo.query Demo.fs0
    = (Return (Controller.ReportResponse report), fs') /\
    Controller.run_urls Demo.host Demo.query Demo.fs0 !! 2%nat
    = Some "https://c.example" /\
    Fs.path_exists
      (Controller.base_path (Controller.resolve_dirs Demo.query) "https://c.example")
      (Controller.fs (Controller.run_state_before Demo.lib Demo.host Demo.query Demo.fs0 2))
    = false /\
    Controller.r_items report !! 2%nat = Some item /\
    Controller.status item = "no_trainer" /\
    Controller.status item <> "no_baseline" /\
    Controller.r_totals report !! "no_baseline" = None /\
    dom (Controller.r_totals report) <> {[ "ok"; "warn"; "fail"; "no_baseline" ]}.
Proof.
  pose proof demo_run_facts as Hfacts.
  destruct (Controller.run_and_compare Demo.lib Demo.host Demo.query Demo.fs0)
    as [[e|[err|report]] fs']; try contradiction.
  destruct Hfacts as (Hc & _ & _ & Hkey & _).
  eexists report, fs', _. split; [reflexivity|].
  split; [vm_compute; reflexivity|]. split; [vm_compute; reflexivity|].
  split; [exact Hc|]. split; [reflexivity|]. split; [discriminate|].
  split; [exact Hkey|]. intros Hdom.
  assert (Hin : "no_baseline" ∈ dom (Controller.r_totals report))
    by (rewrite Hdom; set_solver).
  apply elem_of_dom in Hin as [n Hn]. congruence.
Qed.

Lemma diff_artifact_by_verdict_witness :
  exists (report : Controller.Report) (fs' : Fs.t) (item : Controller.Item),
    Controller.run_and_compare Demo.lib Demo.host Demo.query Demo.fs0
    = (Return (Controller.ReportResponse report), fs') /\
    Controller.r_items report !! 3%nat = Some item /\
    Controller.url item = "https://d.example" /\
    Controller.status item = "fail" /\
    Controller.metrics item = None /\
    Controller.diff item = None /\
    Controller.fs (Controller.run_state_before Demo.lib Demo.host Demo.query Demo.fs0 4)
    = Controller.fs (Controller.run_state_before Demo.lib Demo.host Demo.query Demo.fs0 3).
Proof.
  destruct demo_run_reports as (report & fs' & E).
  destruct (diff_artifact_by_verdict Demo.lib Demo.host Demo.query Demo.fs0 fs' report
              3%nat "https://d.example" E)
    as (item & Hi & Hurl & _ & _ & Hnone & Hmissing & _).
  - vm_compute. reflexivity.
  - destruct Hmissing as [Hst Hm]; [vm_compute; reflexivity.. |].
    destruct (Hnone Hst Hm) as [Hfs Hdiff].
    exists report, fs', item. split_and!; assumption.
Defined.

(** C2 as the specification words it does not hold on the sample run: the
    URL whose capture is missing and the URL whose trainer image does not
    decode both get the verdict [fail], and neither has a diff image in
    the diff directory. *)
Lemma fail_without_diff_artifact :
  exists (report : Controller.Report) (fs' : Fs.t) (item_d item_e : Controller.Item),
    Controller.run_and_compare Demo.lib Demo.host Demo.query Demo.fs0
    = (Return (Controller.ReportResponse report), fs') /\
    Controller.r_items report !! 3%nat = Some item_d /\
    Controller.url item_d = "https://d.example" /\
    Controller.status item_d = "fail" /\
    Controller.reason item_d = Some "Current screenshot not found: d.example.png" /\
    Controller.diff_path (Controller.resolve_dirs Demo.query) "https://d.example"
    = ("/data/diff", "diff_d.example.png") /\
    Fs.path_exists ("/data/diff", "diff_d.example.png") fs' = false /\
    Controller.r_items report !! 4%nat = Some item_e /\
    Controller.url item_e = "https://e.example" /\
    Controller.status item_e = "fail" /\
    Controller.reason item_e = Some "Comparison error: cannot identify image file" /\
    Controller.diff_path (Controller.resolve_dirs Demo.query) "https://e.example"
    = ("/data/diff", "diff_e.example.png") /\
    Fs.path_exists ("/data/diff", "diff_e.example.png") fs' = false.
Proof.
  pose proof demo_run_facts as Hfacts.
  destruct (Controller.run_and_compare Demo.lib Demo.host Demo.query Demo.fs0)
    as [[e|[err|report]] fs']; try contradiction.
  destruct Hfacts as (_ & Hd & He & _ & _ & Hnd & Hne).
  eexists report, fs', _, _. split; [reflexivity|].
  split; [exact Hd|]. split; [reflexivity|]. split; [reflexivity|].
  split; [reflexivity|]. split; [reflexivity|]. split; [exact Hnd|].
  split; [exact He|]. split; [reflexivity|]. split; [reflexivity|].
  split; [reflexivity|]. split; [reflexivity|]. exact Hne.
Qed.

Lemma threshold_classification_witness :
  exists (report : Controller.Report) (fs' : Fs.t) (item : Controller.Item),
    Controller.run_and_compare Demo.lib Demo.host Demo.query Demo.fs0
    = (Return (Controller.ReportResponse report), fs') /\
    Controller.r_items report !! 1%nat = Some item /\
    Controller.url item = "https://b.example" /\
    (Controller.status item = "fail"
     <-> PrimFloat.leb (Controller.ssim_threshold Demo.query) 0.5%float = false).
Proof.
  destruct demo_run_reports as (report & fs' & E).
  destruct (threshold_classification Demo.lib Demo.host Demo.query Demo.fs0 fs' report
              1%nat "https://b.example" 0.5%float 42.0%float
              "diff of B and B changed" E)
    as (item & Hi & Hurl & _ & Hfail & _).
  - vm_compute. reflexivity.
  - exists "B", "B changed", "B", "B changed".
    split; [vm_compute; reflexivity|]. split; [vm_compute; reflexivity|].
    split; [reflexivity|]. split; reflexivity.
  - exists report, fs', item. repeat split; try assumption; apply Hfail.
Defined.

Lemma report_items_match_urls_witness :
  exists (report : Controller.Report) (fs' : Fs.t),
    Controller.run_and_compare Demo.lib Demo.host Demo.query Demo.fs0
    = (Return (Controller.ReportResponse report), fs') /\
    List.map Controller.url (Controller.r_items report) = Demo.urls /\
    Controller.totals_sum (Controller.r_totals report) = 5.
Proof.
  destruct demo_run_reports as (report & fs' & E).
  destruct (report_items_match_urls Demo.lib Demo.host Demo.query Demo.fs0 fs' report E)
    as (_ & Hmap & _ & Hsum).
  exists report, fs'. rewrite demo_run_urls in Hmap, Hsum.
  repeat split; assumption.
Defined.

Lemma warn_never_assigned_witness :
  exists (report : Controller.Report) (fs' : Fs.t),
    Controller.run_and_compare Demo.lib Demo.host Demo.query Demo.fs0
    = (Return (Controller.ReportResponse report), fs') /\
    Controller.r_totals report !! "warn" = Some 0.
Proof.
  destruct demo_run_reports as (report & fs' & E).
  destruct (warn_never_assigned Demo.lib Demo.host Demo.query Demo.fs0 fs' report E)
    as [_ Hwarn].
  exists report, fs'. split; assumption.
Defined.



Example threshold_default_boundary :
  Controller.ssim_threshold_default = 0.92%float /\
  PrimFloat.leb Controller.ssim_threshold_default 0.92%float = true /\
  PrimFloat.leb Controller.ssim_threshold_default 0.9199999%float = false /\
  PrimFloat.leb Controller.ssim_threshold_default 1.0%float = true.
Proof. repeat split. Qed.

Example colliding_urls_two_items :
  Controller.capture_key "https://a.b/c?d" = Controller.capture_key "https://a.b/c/d" /\
  List.map Controller.url
    (Controller.per_item
       (Controller.compare_urls Demo.lib (Controller.resolve_dirs Demo.query)
          Controller.ssim_threshold_default ["https://a.b/c?d"; "https://a.b/c/d"]
          (Controller.loop_init Demo.fs0)).2)
  = ["https://a.b/c?d"; "https://a.b/c/d"].
Proof. split; vm_compute; reflexivity. Qed.

(** * Further properties of the code *)

(** ** The comparison pass, verdict by verdict *)

Section PassProofs.
Import Controller.
Variable lib : Imaging.
Variable dirs : Dirs.
Variable threshold : float.

(** The loop over any URL list returns, and it is a [pass]. *)
Lemma compare_urls_pass (urls : list string) :
  forall st : LoopState,
    dom (totals st) = status_keys ->
    exists st' : LoopState,
      compare_urls lib dirs threshold urls st = (Return tt, st') /\
      pass lib dirs threshold urls st st'.
Proof.
  unfold compare_urls. induction urls as [|u urls IH]; intros st Hdom.
  - exists st. split; [reflexivity | constructor].
  - destruct (compare_one_verdict lib dirs threshold u st Hdom)
      as (item & fs' & calls & Hone & Hv).
    assert (Hdom1 : dom (totals (record_item item fs' calls st)) = status_keys)
      by (cbn; now rewrite bump_keys).
    destruct (IH _ Hdom1) as (st' & Hrun & Hpass).
    exists st'. split.
    + cbn [for_each]. unfold bind. now rewrite Hone.
    + econstructor; eassumption.
Qed.

Lemma bump_lookup_same (k : string) (t : gmap string Z) (n : Z) :
  t !! k = Some n -> bump k t !! k = Some (n + 1).
Proof. intros E. unfold bump. rewrite E. apply lookup_insert_eq. Qed.

Lemma count_status_cons (k : string) (item : Item) (items : list Item) :
  count_status k (item :: items)
  = ((if String.eqb (status item) k then 1 else 0) + count_status k items)%nat.
Proof.
  unfold count_status. cbn [List.filter].
  destruct (String.eqb (status item) k); reflexivity.
Qed.

(** A pass appends its items and counts each one under its status. *)
Lemma pass_counts (urls : list string) (st st' : LoopState) :
  pass lib dirs threshold urls st st' ->
  exists items : list Item,
    per_item st' = per_item st ++ items /\
    forall (k : string) (n : Z),
      totals st !! k = Some n ->
      totals st' !! k = Some (n + Z.of_nat (count_status k items)).
Proof.
  induction 1 as [st | u urls st st' item fs' calls Hv _ (items & Hitems & Hcount)].
  - exists []. split; [now rewrite app_nil_r|].
    intros k n E. rewrite E. f_equal. cbn. lia.
  - exists (item :: items). split.
    + rewrite Hitems. cbn [record_item per_item]. now rewrite <- app_assoc.
    + intros k n E. rewrite count_status_cons.
      destruct (String.eqb (status item) k) eqn:Hk.
      * apply String.eqb_eq in Hk. subst k.
        rewrite (Hcount _ (n + 1)); [f_equal; lia|].
        cbn [record_item totals]. now apply bump_lookup_same.
      * apply String.eqb_neq in Hk.
        rewrite (Hcount _ n); [f_equal|].
        cbn [record_item totals]. now rewrite bump_lookup_other.
Qed.





End PassProofs.

(** ** The report of a run *)

Section ReportProofs.
Import Controller.
Variable lib : Imaging.
Variable host : Host.

Lemma pass_keys (dirs : Dirs) (threshold : float) (urls : list string)
      (st st' : LoopState) :
  pass lib dirs threshold urls st st' -> dom (totals st') = dom (totals st).
Proof.
  induction 1 as [st | u urls st st' item fs' calls _ _ IH]; [reflexivity|].
  rewrite IH. cbn [record_item totals]. apply bump_keys.
Qed.

(** A run that answers with a report: the pass it made, the file it wrote
    and the fields of the answer. *)
Lemma run_and_compare_inv (q : Query) (fs0 fs' : Fs.t) (report : Report) :
  run_and_compare lib host q fs0 = (Return (ReportResponse report), fs') ->
  exists final : LoopState,
    pass lib (resolve_dirs q) (ssim_threshold q) (run_urls host q fs0)
      (loop_init (after_capture host q fs0).2) final /\
    r_items report = per_item final /\
    r_totals report = totals final /\
    r_execution report = (after_capture host q fs0).1 /\
    r_report_path report = Some (Fs.to_str (report_file host (resolve_dirs q))) /\
    (report_file host (resolve_dirs q) ∉ Fs.read_only (fs final)) /\
    fs' = Fs.mk (<[report_file host (resolve_dirs q)
                   := json_dumps host (without_path report)]> (Fs.files (fs final)))
            (Fs.read_only (fs final)).
Proof.
  unfold run_and_compare.
  destruct (Fs.path_exists _ fs0); cbn [negb]; [|discriminate].
  unfold run_urls.
  destruct (after_capture host q fs0) as [details fs2]. cbn [fst snd].
  destruct (compare_urls_pass lib (resolve_dirs q) (ssim_threshold q)
              (list_urls host (file_or (urls_file q) URLS_DEFAULT) fs2)
              (loop_init fs2) (loop_init_keys fs2)) as (final & Hrun & Hpass).
  rewrite Hrun. unfold write_report, Fs.write. fold (report_file host (resolve_dirs q)).
  destruct (bool_decide _) eqn:Hro; [discriminate|].
  apply bool_decide_eq_false in Hro.
  intros [= <- <-]. exists final. now split_and!.
Qed.

(** X1: in the report of a run the totals are the histogram of the item
    statuses: every one of the four counters equals the number of items
    that carry its status, and the totals hold no other key. *)
Theorem totals_count_statuses (q : Query) (fs0 fs' : Fs.t) (report : Report) :
  run_and_compare lib host q fs0 = (Return (ReportResponse report), fs') ->
  forall k : string,
    r_totals report !! k
    = if bool_decide (k ∈ status_keys)
      then Some (Z.of_nat (count_status k (r_items report)))
      else None.
Proof.
  intros Hrun k.
  destruct (run_and_compare_inv q fs0 fs' report Hrun)
    as (final & Hpass & -> & -> & _).
  pose proof (pass_keys _ _ _ _ _ Hpass) as Hkeys.
  destruct (pass_counts lib _ _ _ _ _ Hpass) as (items & -> & Hcount).
  cbn [loop_init per_item totals app] in *. rewrite totals_init_keys in Hkeys.
  destruct (bool_decide (k ∈ status_keys)) eqn:Hk.
  - apply bool_decide_eq_true in Hk.
    destruct (status_keys_lookup k _ totals_init_keys Hk) as [n Hn].
    assert (n = 0) as ->.
    { unfold status_keys in Hk. unfold totals_init in Hn.
      repeat (apply elem_of_union in Hk as [Hk|Hk]);
        apply elem_of_singleton in Hk; subst k; vm_compute in Hn; congruence. }
    now rewrite (Hcount k 0 Hn).
  - apply bool_decide_eq_false in Hk.
    apply not_elem_of_dom. now rewrite Hkeys.
Qed.



(** X4: the report file.  A run that answers with a report has written,
    at [report-<stamp>.json] in the reports directory, the JSON text of the
    report as it was before [report_path] was added; the answer names that
    file, carries the details of the capture subprocess and the four
    directories of the run. *)
Theorem report_is_persisted (q : Query) (fs0 fs' : Fs.t) (report : Report) :
  run_and_compare lib host q fs0 = (Return (ReportResponse report), fs') ->
  Fs.files fs' !! report_file host (resolve_dirs q)
  = Some (json_dumps host (without_path report)) /\
  r_report_path report = Some (Fs.to_str (report_file host (resolve_dirs q))) /\
  r_report_path (without_path report) = None /\
  r_execution report = (after_capture host q fs0).1 /\
  r_urls_file report = Fs.to_str (file_or (urls_file q) URLS_DEFAULT) /\
  r_screenshots_dir report = shots_dir (resolve_dirs q) /\
  r_trainer_dir report = base_dir (resolve_dirs q) /\
  r_diff_dir report = diffs_dir (resolve_dirs q) /\
  r_ssim_threshold report = ssim_threshold q.
Proof.
  intros Hrun.
  destruct (run_and_compare_inv q fs0 fs' report Hrun)
    as (final & _ & _ & _ & Hexec & Hpath & _ & ->).
  cbn [Fs.files]. rewrite lookup_insert_eq. split_and!; try easy.
  all: revert Hrun; unfold run_and_compare;
    destruct (Fs.path_exists _ fs0); cbn [negb]; [|discriminate];
    destruct (after_capture host q fs0) as [details fs2];
    destruct (compare_urls _ _ _ _ _) as [[e|[]] st]; [discriminate|];
    destruct (write_report _ _ _ _) as [e|[p fs3]]; [discriminate|];
    now intros [= <- _].
Qed.

End ReportProofs.

(** The four statements above on the sample run. *)
Lemma totals_count_statuses_witness :
  exists (report : Controller.Report) (fs' : Fs.t),
    Controller.run_and_compare Demo.lib Demo.host Demo.query Demo.fs0
    = (Return (Controller.ReportResponse report), fs') /\
    Controller.r_totals report !! "fail"
    = Some (Z.of_nat (Controller.count_status "fail" (Controller.r_items report))) /\
    Controller.r_totals report !! "no_baseline" = None.
Proof.
  destruct demo_run_reports as (report & fs' & E).
  exists report, fs'. split; [exact E|]. split.
  - exact (totals_count_statuses Demo.lib Demo.host Demo.query Demo.fs0 fs' report E "fail").
  - exact (totals_count_statuses Demo.lib Demo.host Demo.query Demo.fs0 fs' report E
             "no_baseline").
Defined.



Lemma report_is_persisted_witness :
  exists (report : Controller.Report) (fs' : Fs.t),
    Controller.run_and_compare Demo.lib Demo.host Demo.query Demo.fs0
    = (Return (Controller.ReportResponse report), fs') /\
    Fs.files fs' !! ("/data/reports", "report-20240101-120000.json") = Some "{}" /\
    Controller.r_report_path report = Some "/data/reports/report-20240101-120000.json".
Proof.
  destruct demo_run_reports as (report & fs' & E).
  exists report, fs'. split; [exact E|].
  destruct (report_is_persisted Demo.lib Demo.host Demo.query Demo.fs0 fs' report E)
    as (Hfile & Hpath & _).
  split; [exact Hfile | exact Hpath].
Defined.

(** ** Capture keys are canonical *)

Lemma strip_prefix_Some (p s r : string) :
  Py.strip_prefix p s = Some r -> s = p +:+ r.
Proof.
  revert s. induction p as [|a p IH]; intros s; cbn [Py.strip_prefix].
  - now intros [= <-].
  - destruct s as [|b s]; [discriminate|].
    destruct (Ascii.eqb_spec a b) as [<-|]; [|discriminate].
    intros E. rewrite str_append_cons. f_equal. now apply IH.
Qed.

Lemma strip_prefix_append (p r : string) : Py.strip_prefix p (p +:+ r) = Some r.
Proof.
  induction p as [|a p IH]; [reflexivity|].
  rewrite str_append_cons. cbn [Py.strip_prefix]. now rewrite Ascii.eqb_refl.
Qed.

(** A string of safe characters holds no ["://"], so no scheme. *)
Lemma strip_scheme_safe (s : string) :
  Py.all_chars Helpers.is_safe s = true -> Helpers.strip_scheme s = s.
Proof.
  intros Hs. unfold Helpers.strip_scheme.
  destruct (Py.strip_prefix "https://" s) as [r|] eqn:E1.
  { apply strip_prefix_Some in E1. subst s.
    rewrite all_chars_append in Hs. discriminate. }
  destruct (Py.strip_prefix "http://" s) as [r|] eqn:E2; [|reflexivity].
  apply strip_prefix_Some in E2. subst s.
  rewrite all_chars_append in Hs. discriminate.
Qed.

(** Replacing the runs of a class changes nothing in a string without
    characters of the class. *)
Lemma sub_runs_none (cls : ascii -> bool) (repl : string) (in_run : bool) (s : string) :
  Py.all_chars (fun c => negb (cls c)) s = true ->
  Py.sub_runs cls repl in_run s = s.
Proof.
  revert in_run. induction s as [|c s IH]; intros in_run; [reflexivity|].
  cbn [Py.all_chars Py.sub_runs]. intros [Hc Hs]%andb_true_iff.
  apply negb_true_iff in Hc. rewrite Hc. now rewrite IH.
Qed.

(** Collapsing the runs of [c] to one [c] leaves no repeat; after a [c]
    the output does not start with [c]. *)
Lemma collapse_no_repeat (c : ascii) (in_run : bool) (s : string) :
  let out := Py.sub_runs (fun a => Ascii.eqb a c) (String c EmptyString) in_run s in
  Py.has_repeat c out = false /\
  (in_run = true -> Py.starts_with_char c out = false).
Proof.
  revert in_run. induction s as [|a s IH]; intros in_run; cbn zeta in *.
  - now split.
  - cbn [Py.sub_runs]. destruct (Ascii.eqb a c) eqn:Ha.
    + destruct in_run.
      * apply IH.
      * destruct (IH true) as [Hrep Hstart].
        rewrite str_append_cons, str_append_nil_l. cbn [Py.has_repeat].
        rewrite Hrep, (Hstart eq_refl), andb_false_r. now split.
    + destruct (IH false) as [Hrep _]. cbn [Py.has_repeat Py.starts_with_char].
      rewrite Ha, Hrep. now split.
Qed.

(** Collapsing changes nothing in a string without repeats. *)
Lemma collapse_fixed (c : ascii) (in_run : bool) (s : string) :
  Py.has_repeat c s = false ->
  (in_run = true -> Py.starts_with_char c s = false) ->
  Py.sub_runs (fun a => Ascii.eqb a c) (String c EmptyString) in_run s = s.
Proof.
  revert in_run. induction s as [|a s IH]; intros in_run; [reflexivity|].
  cbn [Py.has_repeat Py.starts_with_char Py.sub_runs].
  intros [Hpair Hrep]%orb_false_iff Hstart.
  destruct (Ascii.eqb a c) eqn:Ha.
  - destruct in_run; [now specialize (Hstart eq_refl)|].
    rewrite str_append_cons, str_append_nil_l.
    apply Ascii.eqb_eq in Ha. subst a. f_equal.
    apply IH; [exact Hrep | intros _; exact Hpair].
  - f_equal. apply IH; [exact Hrep | discriminate].
Qed.

Lemma has_repeat_lstrip (c d : ascii) (s : string) :
  Py.has_repeat c s = false -> Py.has_repeat c (Py.lstrip d s) = false.
Proof.
  induction s as [|a s IH]; [reflexivity|]. cbn [Py.lstrip].
  destruct (Ascii.eqb a d); [|trivial].
  cbn [Py.has_repeat]. intros [_ Hrep]%orb_false_iff. now apply IH.
Qed.

Lemma lstrip_start (c : ascii) (s : string) :
  Py.starts_with_char c (Py.lstrip c s) = false.
Proof.
  induction s as [|a s IH]; [reflexivity|]. cbn [Py.lstrip].
  destruct (Ascii.eqb a c) eqn:Ha; [exact IH|]. exact Ha.
Qed.

Lemma lstrip_fixed (c : ascii) (s : string) :
  Py.starts_with_char c s = false -> Py.lstrip c s = s.
Proof. destruct s as [|a s]; [reflexivity|]. cbn. now intros ->. Qed.

(** What [rstrip] returns on a string with a first character. *)
Lemma rstrip_cons (c a : ascii) (s : string) :
  Py.rstrip c (String a s)
  = if Py.is_empty (Py.rstrip c s)
    then (if Ascii.eqb a c then EmptyString else String a EmptyString)
    else String a (Py.rstrip c s).
Proof. cbn [Py.rstrip]. now destruct (Py.rstrip c s). Qed.

Lemma rstrip_start (c d : ascii) (s : string) :
  Py.starts_with_char c s = false ->
  Py.starts_with_char c (Py.rstrip d s) = false.
Proof.
  destruct s as [|a s]; [reflexivity|]. rewrite rstrip_cons.
  cbn [Py.starts_with_char]. intros Ha.
  destruct (Py.is_empty _); [destruct (Ascii.eqb a d)|]; cbn; trivial.
Qed.

Lemma rstrip_start_of (c d : ascii) (s : string) :
  Py.starts_with_char c (Py.rstrip d s) = true -> Py.starts_with_char c s = true.
Proof.
  destruct s as [|a s]; [discriminate|]. rewrite rstrip_cons.
  cbn [Py.starts_with_char].
  destruct (Py.is_empty _); [destruct (Ascii.eqb a d)|]; cbn; trivial. discriminate.
Qed.

Lemma has_repeat_rstrip (c d : ascii) (s : string) :
  Py.has_repeat c s = false -> Py.has_repeat c (Py.rstrip d s) = false.
Proof.
  induction s as [|a s IH]; [reflexivity|]. rewrite rstrip_cons.
  cbn [Py.has_repeat]. intros [Hpair Hrep]%orb_false_iff.
  destruct (Py.is_empty _).
  - destruct (Ascii.eqb a d); [reflexivity|].
    cbn [Py.has_repeat Py.starts_with_char]. now rewrite andb_false_r.
  - cbn [Py.has_repeat]. rewrite (IH Hrep), orb_false_r.
    destruct (Ascii.eqb a c); [|reflexivity]. cbn [andb] in *.
    destruct (Py.starts_with_char c (Py.rstrip d s)) eqn:E; [|reflexivity].
    apply rstrip_start_of in E. congruence.
Qed.

Lemma rstrip_idempotent (c : ascii) (s : string) :
  Py.rstrip c (Py.rstrip c s) = Py.rstrip c s.
Proof.
  induction s as [|a s IH]; [reflexivity|]. rewrite rstrip_cons.
  destruct (Py.is_empty (Py.rstrip c s)) eqn:E.
  - destruct (Ascii.eqb a c) eqn:Ha; [reflexivity|].
    cbn [Py.rstrip]. now rewrite Ha.
  - rewrite rstrip_cons, IH, E. reflexivity.
Qed.

(** The normalised name of a URL: safe characters only, no repeated
    underscore, no underscore at its start. *)
Lemma normalized_safe (u : string) :
  Py.all_chars Helpers.is_safe (Helpers.normalized u) = true.
Proof.
  unfold Helpers.normalized, Py.strip, Py.re_sub_class_plus.
  apply all_chars_rstrip, all_chars_lstrip.
  apply all_chars_sub_runs_keep; [reflexivity|].
  apply all_chars_sub_runs_class; [reflexivity|].
  intros c Hc. unfold Helpers.is_unsafe in Hc. now apply negb_false_iff in Hc.
Qed.

Lemma normalized_no_repeat (u : string) :
  Py.has_repeat "_" (Helpers.normalized u) = false.
Proof.
  unfold Helpers.normalized, Py.strip, Py.re_sub_class_plus.
  apply has_repeat_rstrip, has_repeat_lstrip.
  apply (collapse_no_repeat "_" false).
Qed.

Lemma normalized_start (u : string) :
  Py.starts_with_char "_" (Helpers.normalized u) = false.
Proof.
  unfold Helpers.normalized, Py.strip. apply rstrip_start, lstrip_start.
Qed.

Lemma normalized_fixed (u : string) :
  Helpers.normalized (Helpers.normalized u) = Helpers.normalized u.
Proof.
  set (n := Helpers.normalized u).
  unfold Helpers.normalized at 1. cbn zeta.
  rewrite (strip_scheme_safe n) by apply normalized_safe.
  unfold Py.re_sub_class_plus.
  rewrite (sub_runs_none Helpers.is_unsafe "_" false n).
  2:{ pose proof (normalized_safe u) as Hs. fold n in Hs.
      clear -Hs. induction n as [|c n IH]; [reflexivity|].
      cbn [Py.all_chars] in *. apply andb_true_iff in Hs as [Hc Hn].
      rewrite (IH Hn), andb_true_r. unfold Helpers.is_unsafe. now rewrite Hc. }
  change Helpers.is_underscore with (fun a => Ascii.eqb a "_").
  rewrite (collapse_fixed "_" false n (normalized_no_repeat u)) by discriminate.
  unfold Py.strip. rewrite (lstrip_fixed "_" n (normalized_start u)).
  subst n. unfold Helpers.normalized, Py.strip. apply rstrip_idempotent.
Qed.

Lemma take_start (c : ascii) (n : nat) (s : string) :
  Py.starts_with_char c s = false -> Py.starts_with_char c (Py.take n s) = false.
Proof. destruct n, s; cbn; trivial. Qed.

Lemma take_no_repeat (c : ascii) (n : nat) (s : string) :
  Py.has_repeat c s = false -> Py.has_repeat c (Py.take n s) = false.
Proof.
  revert s. induction n as [|n IH]; intros [|a s]; cbn [Py.take Py.has_repeat]; trivial.
  intros [Hpair Hrep]%orb_false_iff. rewrite (IH s Hrep), orb_false_r.
  destruct (Ascii.eqb a c); [|reflexivity]. cbn [andb] in *.
  now apply take_start.
Qed.

Lemma truncated_shape (u : string) (max_len : Z) :
  Py.has_repeat "_" (Helpers.truncated u max_len) = false /\
  Py.starts_with_char "_" (Helpers.truncated u max_len) = false.
Proof.
  unfold Helpers.truncated, Py.slice_to.
  destruct (_ >? max_len).
  - destruct (0 <=? max_len); split;
      (apply take_no_repeat, normalized_no_repeat || apply take_start, normalized_start).
  - split; [apply normalized_no_repeat | apply normalized_start].
Qed.

(** Appending a string that does not start with [c] adds no repeat. *)
Lemma has_repeat_append (c : ascii) (a b : string) :
  Py.has_repeat c a = false ->
  Py.has_repeat c b = false ->
  Py.starts_with_char c b = false ->
  Py.has_repeat c (a +:+ b) = false.
Proof.
  intros Ha Hb Hstart. induction a as [|x a IH]; [exact Hb|].
  rewrite str_append_cons. cbn [Py.has_repeat] in *.
  apply orb_false_iff in Ha as [Hpair Hrep]. rewrite (IH Hrep), orb_false_r.
  destruct (Ascii.eqb x c); [|reflexivity]. cbn [andb] in *.
  destruct a as [|y a]; [exact Hstart | exact Hpair].
Qed.

(** X5: the shape of a capture key.  Whatever the URL and the length
    bound, the key holds no two underscores in a row and does not start
    with an underscore: separators are collapsed and trimmed before the
    name is cut, and cutting keeps a prefix. *)
Theorem capture_key_separators (u : string) (max_len : Z) :
  Py.has_repeat "_" (Helpers.sanitize_filename u max_len) = false /\
  Py.starts_with_char "_" (Helpers.sanitize_filename u max_len) = false /\
  Py.has_repeat "_" (Helpers.normalized u) = false /\
  Py.starts_with_char "_" (Helpers.normalized u) = false /\
  Py.rstrip "_" (Helpers.normalized u) = Helpers.normalized u.
Proof.
  destruct (truncated_shape u max_len) as [Hrep Hstart].
  unfold Helpers.sanitize_filename.
  split_and!.
  - destruct (Helpers.truncated u max_len) as [|c s] eqn:E; cbn [Py.is_empty].
    + reflexivity.
    + now apply has_repeat_append.
  - destruct (Helpers.truncated u max_len) as [|c s] eqn:E; cbn [Py.is_empty].
    + reflexivity.
    + rewrite str_append_cons. exact Hstart.
  - apply normalized_no_repeat.
  - apply normalized_start.
  - unfold Helpers.normalized, Py.strip. apply rstrip_idempotent.
Qed.

(** X6: sanitising is idempotent on names.  The normalised name of a URL
    is its own normalised name, so a URL and its normalised name get the
    same capture key, for every length bound. *)
Theorem sanitize_filename_idempotent (u : string) (max_len : Z) :
  Helpers.normalized (Helpers.normalized u) = Helpers.normalized u /\
  Helpers.sanitize_filename (Helpers.normalized u) max_len
  = Helpers.sanitize_filename u max_len.
Proof.
  split; [apply normalized_fixed|].
  unfold Helpers.sanitize_filename, Helpers.truncated.
  now rewrite normalized_fixed.
Qed.

(** X7: the scheme does not reach the key.  The [http] and the [https]
    address of the same rest get one capture key, and so does the rest
    alone when it carries no lower-case scheme of its own: the screenshots
    of such URLs share one file. *)
Theorem scheme_variants_share_key (rest : string) (max_len : Z) :
  Helpers.sanitize_filename ("http://" +:+ rest) max_len
  = Helpers.sanitize_filename ("https://" +:+ rest) max_len /\
  (Helpers.strip_scheme rest = rest ->
   Helpers.sanitize_filename ("https://" +:+ rest) max_len
   = Helpers.sanitize_filename rest max_len) /\
  ScreenshotUrls.sanitize_filename ("http://" +:+ rest) max_len
  = ScreenshotUrls.sanitize_filename ("https://" +:+ rest) max_len.
Proof.
  assert (Hs : Helpers.strip_scheme ("https://" +:+ rest) = rest).
  { unfold Helpers.strip_scheme. now rewrite strip_prefix_append. }
  assert (Hp : Helpers.strip_scheme ("http://" +:+ rest) = rest).
  { unfold Helpers.strip_scheme.
    rewrite (strip_prefix_append "http://" rest).
    destruct (Py.strip_prefix "https://" ("http://" +:+ rest)) as [r|] eqn:E;
      [|reflexivity].
    apply strip_prefix_Some in E. discriminate. }
  unfold ScreenshotUrls.sanitize_filename, Helpers.sanitize_filename,
    Helpers.truncated, Helpers.normalized.
  rewrite Hs, Hp. split_and!; [reflexivity | | reflexivity].
  now intros ->.
Qed.

(** ** The cost of the scroll loop *)

Section ScrollBudget.
Import ScreenshotUrls.
Context {D : Type} `{WebDriver D}.

Lemma pauses_app (l1 l2 : list call) :
  pauses (l1 ++ l2) = (pauses l1 + pauses l2)%nat.
Proof. unfold pauses. now rewrite List.filter_app, List.length_app. Qed.

(** The calls of the loop from any state: at most four per step left and
    two for the final jump, with at most one pause per step left and one
    for the jump, each of the given length. *)
Lemma scroll_loop_budget (fuel : nat) (pause : float) (max_steps : Z) :
  forall (last steps : Z) (d : D) (log : list call),
    exists (r : outcome unit) (d' : D) (tr : list call),
      scroll_loop fuel pause max_steps last steps (d, log) = (r, (d', log ++ tr)) /\
      (List.length tr <= 4 * Z.to_nat (max_steps - steps) + 2)%nat /\
      (pauses tr <= Z.to_nat (max_steps - steps) + 1)%nat /\
      Forall (fun c => forall secs : float, c = Sleep secs -> secs = pause) tr.
Proof.
  assert (Hstep : forall last height y,
            Forall (fun c => forall secs : float, c = Sleep secs -> secs = pause)
              (step_calls pause last height y)).
  { intros. repeat constructor; intros secs [=]; congruence. }
  induction fuel as [|fuel IH]; intros last steps d log.
  - cbn [scroll_loop]. destruct (steps <? max_steps).
    + exists OutOfFuel, d, []. rewrite app_nil_r. cbn. split_and!; [reflexivity|lia|lia|constructor].
    + exists (Returned tt), d, []. rewrite app_nil_r. cbn.
      split_and!; [reflexivity|lia|lia|constructor].
  - cbn [scroll_loop]. destruct (Z.ltb_spec steps max_steps) as [Hlt|Hge].
    2:{ exists (Returned tt), d, []. rewrite app_nil_r. cbn.
        split_and!; [reflexivity|lia|lia|constructor]. }
    assert (Hn : Z.to_nat (max_steps - steps) = S (Z.to_nat (max_steps - (steps + 1)))) by lia.
    unfold bind, get_scroll_height, scroll_to, sleep, get_page_y_offset.
    destruct (script_scroll_height d) as [[e|height] d1].
    { exists (Raised e), d1, []. rewrite app_nil_r. cbn.
      split_and!; [reflexivity|lia|lia|constructor]. }
    destruct (script_scroll_to (Z.min (last + 800) height) d1) as [[e|[]] d2].
    { exists (Raised e), d2, [GetScrollHeight height]. cbn.
      split_and!; [reflexivity|lia|lia|]. repeat constructor. intros secs [=]. }
    destruct (script_page_y_offset (page_sleep pause d2)) as [[e|y] d3].
    { exists (Raised e), d3,
        [GetScrollHeight height; ScrollTo (Z.min (last + 800) height); Sleep pause].
      rewrite <- !app_assoc. cbn. split_and!; [reflexivity|lia|lia|].
      repeat constructor; intros secs [=]; congruence. }
    destruct (Z.eqb_spec y last) as [->|Hne].
    + destruct (script_scroll_to height d3) as [[e|[]] d4].
      { exists (Raised e), d4, (step_calls pause last height last).
        rewrite <- !app_assoc. cbn. split_and!; [reflexivity|lia|lia|apply Hstep]. }
      exists (Returned tt), (page_sleep pause d4),
        (step_calls pause last height last ++ final_jump pause height).
      rewrite <- !app_assoc. cbn. split_and!; [reflexivity|lia|lia|].
      repeat constructor; intros secs [=]; congruence.
    + destruct (IH y (steps + 1) d3
                  ((((log ++ [GetScrollHeight height])
                       ++ [ScrollTo (Z.min (last + 800) height)])
                      ++ [Sleep pause])
                     ++ [GetPageYOffset y]))
        as (r & d' & tr & Hrun & Hlen & Hpauses & Hall).
      exists r, d', (step_calls pause last height y ++ tr).
      rewrite Hrun, <- !app_assoc. split_and!.
      * reflexivity.
      * rewrite List.length_app. cbn [step_calls List.length]. lia.
      * rewrite pauses_app. cbn. lia.
      * apply Forall_app. split; [apply Hstep | exact Hall].
Qed.

(** X18: the cost of one scroll.  Whatever the page does and however the
    loop ends, [gentle_scroll] makes at most [4 * max_steps + 2] calls on
    the session, among them at most [max_steps + 1] pauses, each of
    [pause] seconds; with [max_steps] at or below zero it makes no call
    at all and returns. *)
Theorem gentle_scroll_call_budget (pause : float) (max_steps : Z) (d : D)
        (log : list call) :
  exists (r : outcome unit) (d' : D) (tr : list call),
    gentle_scroll pause max_steps (d, log) = (r, (d', log ++ tr)) /\
    (List.length tr <= 4 * Z.to_nat max_steps + 2)%nat /\
    (pauses tr <= Z.to_nat max_steps + 1)%nat /\
    Forall (fun c => forall secs : float, c = Sleep secs -> secs = pause) tr /\
    (max_steps <= 0 -> r = Returned tt /\ d' = d /\ tr = []).
Proof.
  unfold gentle_scroll.
  destruct (scroll_loop_budget (Z.to_nat max_steps) pause max_steps 0 0 d log)
    as (r & d' & tr & Hrun & Hlen & Hpauses & Hall).
  rewrite Z.sub_0_r in Hlen, Hpauses.
  exists r, d', tr. split_and!; try assumption.
  intros Hle. revert Hrun.
  replace (Z.to_nat max_steps) with 0%nat by lia. cbn [scroll_loop].
  destruct (Z.ltb_spec 0 max_steps) as [Hlt|_]; [lia|].
  unfold ret. intros [= <- <- Htr].
  split_and!; [reflexivity | reflexivity |].
  rewrite <- (app_nil_r log) in Htr at 1. now apply app_inv_head in Htr.
Qed.


End ScrollBudget.

(** ** The capture script: one page *)

Section PageProofs.
Import ScreenshotUrls.
Context {D : Type} `{Chrome D}.
Variable lib : Lib.

Lemma quiet_pure (ok : event -> bool) {A} (a : A) : quiet ok (pure (D := D) a).
Proof. intros p. split; [reflexivity|]. exists []. now rewrite app_nil_r. Qed.

Lemma quiet_print (ok : event -> bool) (line : string) :
  quiet ok (print (D := D) line).
Proof. intros p. split; [reflexivity|]. exists []. cbn. now rewrite app_nil_r. Qed.

Lemma quiet_on_session (ok : event -> bool) {A} (e : event) (f : D -> Res A * D) :
  ok e = true -> quiet ok (on_session e f).
Proof.
  intros He p. unfold on_session. destruct (f (session p)) as [r d'].
  split; [reflexivity|]. exists [e]. cbn. now rewrite He.
Qed.

Lemma quiet_time_sleep (ok : event -> bool) (secs : float) :
  ok (TimeSleep secs) = true -> quiet ok (time_sleep secs).
Proof.
  intros He p. split; [reflexivity|]. exists [TimeSleep secs]. cbn. now rewrite He.
Qed.

Lemma quiet_decode_base64 (ok : event -> bool) (data : string) :
  quiet ok (decode_base64 (D := D) lib data).
Proof.
  intros p. unfold decode_base64. destruct (b64decode lib data);
    (split; [reflexivity|]; exists []; now rewrite app_nil_r).
Qed.

Lemma quiet_call_gentle_scroll (ok : event -> bool) (pause : float) (max_steps : Z) :
  (forall c : call, ok (Script c) = true) ->
  quiet ok (call_gentle_scroll pause max_steps).
Proof.
  intros Hok p. unfold call_gentle_scroll.
  destruct (gentle_scroll pause max_steps (session p, [])) as [r [d' calls]].
  assert (Hall : forallb ok (List.map Script calls) = true).
  { induction calls as [|c calls IH]; [reflexivity|]. cbn. now rewrite Hok, IH. }
  destruct r; (split; [reflexivity|]; now exists (List.map Script calls)).
Qed.

Lemma quiet_and_then (ok : event -> bool) {A B} (c : run (D := D) A) (k : A -> run (D := D) B) :
  quiet ok c -> (forall a : A, quiet ok (k a)) -> quiet ok (and_then c k).
Proof.
  intros Hc Hk p. unfold and_then. destruct (Hc p) as (Hdisk & new & Hev & Hok).
  destruct (c p) as [[e|a] p1]; cbn [snd] in *.
  - split; [exact Hdisk|]. now exists new.
  - destruct (Hk a p1) as (Hdisk' & new' & Hev' & Hok'). split; [congruence|].
    exists (new ++ new'). rewrite Hev', Hev, <- app_assoc. split; [reflexivity|].
    rewrite forallb_app. now rewrite Hok, Hok'.
Qed.

Lemma quiet_try_except (ok : event -> bool) {A} (catches : exn_class -> bool)
      (body : run (D := D) A) (handler : string -> run (D := D) A) :
  quiet ok body -> (forall e : string, quiet ok (handler e)) ->
  quiet ok (try_except catches body handler).
Proof.
  intros Hc Hk p. unfold try_except. destruct (Hc p) as (Hdisk & new & Hev & Hok).
  destruct (body p) as [[[c e]|a] p1]; cbn [snd] in *.
  - destruct (catches c); cbn [snd].
    + destruct (Hk e p1) as (Hdisk' & new' & Hev' & Hok'). split; [congruence|].
      exists (new ++ new'). rewrite Hev', Hev, <- app_assoc. split; [reflexivity|].
      rewrite forallb_app. now rewrite Hok, Hok'.
    + split; [exact Hdisk|]. now exists new.
  - split; [exact Hdisk|]. now exists new.
Qed.

Lemma and_then_inr {A B} (c : run (D := D) A) (k : A -> run (D := D) B)
      (p : Process D) (a : A) (p1 : Process D) :
  c p = (inr a, p1) -> and_then c k p = k a p1.
Proof. intros E. unfold and_then. now rewrite E. Qed.

Lemma and_then_inl {A B} (c : run (D := D) A) (k : A -> run (D := D) B)
      (p : Process D) (e : exn_class * string) (p1 : Process D) :
  c p = (inl e, p1) -> and_then c k p = (inl e, p1).
Proof. intros E. unfold and_then. now rewrite E. Qed.

(** Loading a page: the file system is kept; the page is navigated to
    first, and no call of the capture is made. *)
Lemma load_page_spec (url : string) (timeout : Z) (extra_wait : float) (p : Process D) :
  disk (load_page url timeout extra_wait p).2 = disk p /\
  exists pre : list event,
    events (load_page url timeout extra_wait p).2 = events p ++ Get url :: pre /\
    forallb load_call pre = true.
Proof.
  assert (Hrest :
    quiet load_call
      (and_then
         (try_except is_timeout (wait_for_load timeout)
            (fun _ => print ("[WARN] Timed out waiting for readyState on: " +:+ url)))
         (fun _ =>
            and_then (if PrimFloat.ltb 0 extra_wait then time_sleep extra_wait else pure tt)
              (fun _ => call_gentle_scroll 0.15%float max_steps_default)))).
  { apply quiet_and_then.
    - apply quiet_try_except; [now apply quiet_on_session | intros; apply quiet_print].
    - intros _. apply quiet_and_then.
      + destruct (PrimFloat.ltb 0 extra_wait);
          [now apply quiet_time_sleep | apply quiet_pure].
      + intros _. now apply quiet_call_gentle_scroll. }
  unfold load_page.
  rewrite (and_then_inr (print ("[INFO] Loading: " +:+ url)) _ p tt _ eq_refl).
  destruct (driver_get url (session p)) as [[e|[]] d1] eqn:Eget.
  - erewrite and_then_inl by (unfold on_session; cbn [session]; now rewrite Eget).
    cbn. split; [reflexivity|]. now exists [].
  - erewrite and_then_inr by (unfold on_session; cbn [session]; now rewrite Eget).
    cbn [session disk printed events].
    match goal with
    | |- context [and_then _ _ ?q] => destruct (Hrest q) as (Hd & new & Hev & Hok)
    end.
    split; [exact Hd|]. exists new. split; [|exact Hok].
    rewrite Hev. cbn [events]. now rewrite <- app_assoc.
Qed.

(** Capturing a page: the calls made are those of the capture, with the
    override within its bounds.  The block returns with the file written
    and [OK] printed last, or with the file system kept and [ERROR]
    printed last; what it raises is no [WebDriverException] and keeps the
    file system. *)
Lemma capture_page_spec (url out_dir : string) (p : Process D) :
  exists post : list event,
    events (capture_page lib url out_dir p).2 = events p ++ post /\
    forallb page_call post = true /\
    match (capture_page lib url out_dir p).1 with
    | inl (c, _) =>
        disk (capture_page lib url out_dir p).2 = disk p /\
        is_webdriver_exception c = false
    | inr _ =>
        (exists png : string,
           Fs.write (out_dir, sanitize_filename url Helpers.max_len_default) png (disk p)
           = Return (disk (capture_page lib url out_dir p).2) /\
           last (printed (capture_page lib url out_dir p).2)
           = Some ("[OK] Saved: "
                   +:+ Fs.to_str (out_dir, sanitize_filename url Helpers.max_len_default)))
        \/
        (disk (capture_page lib url out_dir p).2 = disk p /\
         exists e : string,
           last (printed (capture_page lib url out_dir p).2)
           = Some ("[ERROR] Failed to capture " +:+ url +:+ ": " +:+ e))
    end.
Proof.
  destruct (capture_page lib url out_dir p) as [r p'] eqn:E. cbn [fst snd].
  revert E. unfold capture_page, try_except, and_then at 1.
  unfold capture_fullpage_png_chrome, and_then at 1, on_session at 1.
  destruct (cdp_get_layout_metrics (session p)) as [[[c e]|metrics] d1].
  { destruct c; cbn; intros [= <- <-]; cbn;
      exists [GetLayoutMetrics];
      (split; [reflexivity|]; split; [reflexivity|]);
      try (right; split; [reflexivity|]; eexists; apply last_snoc).
    now split. }
  cbn zeta.
  set (width := Z.min (Qround.Qceiling _) 10000).
  set (height := Z.min (Qround.Qceiling _) 200000).
  assert (Hbounds : (width <=? 10000) && (height <=? 200000) = true).
  { apply andb_true_iff. split; apply Z.leb_le, Z.le_min_r. }
  unfold and_then at 1, on_session at 1. cbn [session disk printed events].
  destruct (cdp_set_device_metrics_override width height d1) as [[[c e]|[]] d2].
  { destruct c; cbn; intros [= <- <-]; cbn;
      exists [GetLayoutMetrics; SetDeviceMetricsOverride width height];
      (split; [now rewrite <- app_assoc|]; split; [cbn; now rewrite Hbounds|]);
      try (right; split; [reflexivity|]; eexists; apply last_snoc).
    now split. }
  unfold and_then at 1, on_session at 1. cbn [session disk printed events].
  destruct (cdp_capture_screenshot d2) as [[[c e]|result] d3].
  { destruct c; cbn; intros [= <- <-]; cbn;
      exists [GetLayoutMetrics; SetDeviceMetricsOverride width height; CaptureScreenshot];
      (split; [now rewrite <- !app_assoc|]; split; [cbn; now rewrite Hbounds|]);
      try (right; split; [reflexivity|]; eexists; apply last_snoc).
    now split. }
  unfold decode_base64. cbn [session disk printed events].
  destruct (b64decode lib (default "" result)) as [e|png].
  { cbn. intros [= <- <-]. cbn.
    exists [GetLayoutMetrics; SetDeviceMetricsOverride width height; CaptureScreenshot].
    split; [now rewrite <- !app_assoc|]. split; [cbn; now rewrite Hbounds|]. now split. }
  unfold and_then, write_bytes, print. cbn [session disk printed events].
  destruct (Fs.write _ png (disk p)) as [e|fs'] eqn:Hwrite.
  { cbn. intros [= <- <-]. cbn.
    exists [GetLayoutMetrics; SetDeviceMetricsOverride width height; CaptureScreenshot].
    split; [now rewrite <- !app_assoc|]. split; [cbn; now rewrite Hbounds|]. now split. }
  cbn. intros [= <- <-]. cbn.
  exists [GetLayoutMetrics; SetDeviceMetricsOverride width height; CaptureScreenshot].
  split; [now rewrite <- !app_assoc|]. split; [cbn; now rewrite Hbounds|].
  left. exists png. split; [exact Hwrite | apply last_snoc].
Qed.

Lemma load_call_page_call (l : list event) :
  forallb load_call l = true ->
  forallb page_call l = true /\
  forallb (fun e => negb (is_capture_call e)) l = true.
Proof.
  induction l as [|e l IH]; [now split|]. cbn [forallb]. unfold load_call at 1.
  intros [[He Hc]%andb_true_iff Hl]%andb_true_iff.
  destruct (IH Hl) as [-> ->]. now rewrite He, Hc.
Qed.


(** *** What is printed *)














(** *** The lines that report a saved file *)







End PageProofs.

(** ** The capture script: the batch *)

Section BatchProofs.
Import ScreenshotUrls.
Context {D : Type} `{Chrome D}.
Variable lib : Lib.

Lemma visited_app (l1 l2 : list event) : visited (l1 ++ l2) = visited l1 ++ visited l2.
Proof. apply omap_app. Qed.

Lemma quits_app (l1 l2 : list event) : quits (l1 ++ l2) = (quits l1 + quits l2)%nat.
Proof. unfold quits. now rewrite List.filter_app, List.length_app. Qed.

(** Page calls navigate nowhere, quit nothing and stay within bounds. *)
Lemma page_calls_plain (l : list event) :
  forallb page_call l = true ->
  visited l = [] /\ quits l = 0%nat /\ forallb within_bounds l = true.
Proof.
  induction l as [|e l IH]; [intros _; now split_and!|]. cbn [forallb].
  intros [He Hl]%andb_true_iff. destruct (IH Hl) as (Hv & Hq & Hb).
  split_and!.
  - destruct e; try discriminate; exact Hv.
  - destruct e; try discriminate; exact Hq.
  - cbn [forallb]. rewrite Hb, andb_true_r.
    destruct e; try discriminate; try reflexivity. exact He.
Qed.

(** What a write that returns changes. *)
Lemma write_frame (path : Fs.path) (data : string) (fs0 fs' : Fs.t) :
  Fs.write path data fs0 = Return fs' ->
  Fs.read_only fs' = Fs.read_only fs0 /\
  (forall q : Fs.path, q <> path -> Fs.files fs' !! q = Fs.files fs0 !! q) /\
  (forall q : Fs.path, is_Some (Fs.files fs0 !! q) -> is_Some (Fs.files fs' !! q)).
Proof.
  unfold Fs.write. destruct (bool_decide _); [discriminate|]. intros [= <-].
  cbn [Fs.read_only Fs.files]. split_and!; [reflexivity | |].
  - intros q Hq. now rewrite lookup_insert_ne.
  - intros q Hq. destruct (decide (path = q)) as [<-|Hne].
    + rewrite lookup_insert_eq. now eexists.
    + now rewrite lookup_insert_ne.
Qed.

(** One URL: the calls it adds, and the one file it may write. *)
Lemma screenshot_url_step (url out_dir : string) (timeout : Z) (extra_wait : float)
      (p : Process D) :
  exists new : list event,
    events (screenshot_url lib url out_dir timeout extra_wait p).2
    = events p ++ Get url :: new /\
    forallb page_call new = true /\
    (disk (screenshot_url lib url out_dir timeout extra_wait p).2 = disk p \/
     exists png : string,
       Fs.write (out_dir, sanitize_filename url Helpers.max_len_default) png (disk p)
       = Return (disk (screenshot_url lib url out_dir timeout extra_wait p).2)).
Proof.
  unfold screenshot_url, and_then.
  destruct (load_page_spec url timeout extra_wait p) as (Hdisk & pre & Hev & Hpre).
  destruct (load_call_page_call pre Hpre) as [Hpage _].
  destruct (load_page url timeout extra_wait p) as [[[c e]|[]] p1]; cbn [fst snd] in *.
  - exists pre. split_and!; auto.
  - destruct (capture_page_spec lib url out_dir p1) as (post & Hev' & Hpost & Hend).
    exists (pre ++ post). split_and!.
    + rewrite Hev', Hev, <- app_assoc. reflexivity.
    + rewrite forallb_app. now rewrite Hpage, Hpost.
    + rewrite <- Hdisk.
      destruct (capture_page lib url out_dir p1) as [[[c e]|[]] p2]; cbn [fst snd] in *.
      * left. apply Hend.
      * destruct Hend as [(png & Hw & _) | [Hd _]]; [right; now exists png | now left].
Qed.

(** The key under which the batch saves the URL of a line. *)
Lemma screenshot_all_spec (urls : list string) (out_dir : string) (timeout : Z)
      (wait : float) :
  forall p : Process D,
    exists (new : list event) (n : nat),
      events (screenshot_all lib urls out_dir timeout wait p).2 = events p ++ new /\
      visited new = take n (List.map (ensure_scheme lib) urls) /\
      (forall u : unit,
         (screenshot_all lib urls out_dir timeout wait p).1 = inr u ->
         visited new = List.map (ensure_scheme lib) urls) /\
      quits new = 0%nat /\
      forallb within_bounds new = true /\
      Fs.read_only (disk (screenshot_all lib urls out_dir timeout wait p).2)
      = Fs.read_only (disk p) /\
      (forall q : Fs.path,
         (forall u : string, u ∈ urls ->
            q <> (out_dir,
                  sanitize_filename (ensure_scheme lib u) Helpers.max_len_default)) ->
         Fs.files (disk (screenshot_all lib urls out_dir timeout wait p).2) !! q
         = Fs.files (disk p) !! q) /\
      (forall q : Fs.path,
         is_Some (Fs.files (disk p) !! q) ->
         is_Some (Fs.files (disk (screenshot_all lib urls out_dir timeout wait p).2) !! q)).
Proof.
  induction urls as [|url urls IH]; intros p.
  - exists [], 0%nat. cbn. rewrite app_nil_r. split_and!; auto.
  - cbn [screenshot_all]. unfold and_then.
    destruct (screenshot_url_step (ensure_scheme lib url) out_dir timeout wait p)
      as (blk & Hev & Hblk & Hdisk).
    destruct (page_calls_plain blk Hblk) as (Hv & Hq & Hb).
    assert (Hframe :
      Fs.read_only (disk (screenshot_url lib (ensure_scheme lib url) out_dir timeout wait p).2)
      = Fs.read_only (disk p) /\
      (forall q : Fs.path,
         q <> (out_dir, sanitize_filename (ensure_scheme lib url) Helpers.max_len_default) ->
         Fs.files (disk (screenshot_url lib (ensure_scheme lib url) out_dir timeout wait p).2) !! q
         = Fs.files (disk p) !! q) /\
      (forall q : Fs.path,
         is_Some (Fs.files (disk p) !! q) ->
         is_Some (Fs.files (disk (screenshot_url lib (ensure_scheme lib url) out_dir timeout wait p).2) !! q))).
    { destruct Hdisk as [-> | (png & Hw)]; [now split_and!|].
      now apply write_frame in Hw. }
    destruct Hframe as (Hro & Hkeep & Hsome).
    destruct (screenshot_url lib (ensure_scheme lib url) out_dir timeout wait p)
      as [[[c e]|[]] p1]; cbn [fst snd] in *.
    + exists (Get (ensure_scheme lib url) :: blk), 1%nat. split_and!.
      * exact Hev.
      * change (Get (ensure_scheme lib url) :: blk)
          with ([Get (ensure_scheme lib url)] ++ blk).
        rewrite visited_app, Hv. reflexivity.
      * discriminate.
      * exact Hq.
      * exact Hb.
      * exact Hro.
      * intros q Hq'. apply Hkeep, Hq'. now left.
      * exact Hsome.
    + destruct (IH p1) as (new & n & Hev1 & Hvis & Hall & Hq1 & Hb1 & Hro1 & Hkeep1 & Hsome1).
      exists (Get (ensure_scheme lib url) :: blk ++ new), (S n). split_and!.
      * rewrite Hev1, Hev, <- app_assoc. reflexivity.
      * change (Get (ensure_scheme lib url) :: blk ++ new)
          with ([Get (ensure_scheme lib url)] ++ blk ++ new).
        rewrite !visited_app, Hv, Hvis. reflexivity.
      * intros u Hu.
        change (Get (ensure_scheme lib url) :: blk ++ new)
          with ([Get (ensure_scheme lib url)] ++ blk ++ new).
        rewrite !visited_app, Hv, (Hall u Hu). reflexivity.
      * change (Get (ensure_scheme lib url) :: blk ++ new)
          with ([Get (ensure_scheme lib url)] ++ blk ++ new).
        rewrite !quits_app, Hq, Hq1. reflexivity.
      * cbn [forallb within_bounds]. rewrite forallb_app. now rewrite Hb, Hb1.
      * now rewrite Hro1.
      * intros q Hq'. rewrite Hkeep1.
        -- apply Hkeep, Hq'. now left.
        -- intros u Hu. apply Hq'. now right.
      * intros q Hq'. now apply Hsome1, Hsome.
Qed.



(** The calls of [build_driver]: a start and at most the enabling of the
    page domain. *)
Lemma build_driver_log (window_width window_height : Z) (headless : bool) :
  let log := (build_driver window_width window_height headless).2 in
  visited log = [] /\ quits log = 0%nat /\ forallb within_bounds log = true.
Proof.
  unfold build_driver. destruct (chrome_start _) as [e|d]; [now split_and!|].
  destruct (cdp_page_enable d) as [[e|[]] d']; now split_and!.
Qed.

(** A file that exists can be read. *)
Lemma read_urls_returns (p : Fs.path) (fs0 : Fs.t) :
  Fs.path_exists p fs0 = true -> exists urls, read_urls lib p fs0 = Return urls.
Proof.
  intros [text E]%path_exists_lookup. unfold read_urls. rewrite E. now eexists.
Qed.

Lemma read_urls_exists (p : Fs.path) (fs0 : Fs.t) (urls : list string) :
  read_urls lib p fs0 = Return urls -> Fs.path_exists p fs0 = true.
Proof.
  unfold read_urls. destruct (Fs.files fs0 !! p) as [text|] eqn:E; [|discriminate].
  intros _. now apply (lookup_path_exists _ _ text).
Qed.

(** What [main] does once the URL list is read and holds a URL: the purge,
    the driver, the batch and the quit. *)
Lemma main_started (args : Args) (fs0 : Fs.t) (urls : list string) :
  read_urls lib (a_urls args) fs0 = Return urls ->
  urls <> [] ->
  main lib args fs0
  = let out_dir := a_out args in
    let fs1 := (clear_old_screenshots out_dir fs0).1 in
    let warnings := (clear_old_screenshots out_dir fs0).2 in
    match build_driver window_width_default window_height_default
            (negb (a_headful args)) with
    | (inl (_, msg), log) => traceback msg warnings fs1 log
    | (inr driver, log) =>
        let p0 := {| session := driver; disk := fs1;
                     printed := warnings; events := log |} in
        let done := screenshot_all lib urls out_dir (a_timeout args) (a_wait args) p0 in
        let quit := on_session Quit driver_quit done.2 in
        match quit.1, done.1 with
        | inl (_, msg), _ =>
            traceback msg (printed quit.2) (disk quit.2) (events quit.2)
        | inr _, inl (_, msg) =>
            traceback msg (printed quit.2) (disk quit.2) (events quit.2)
        | inr _, inr _ =>
            sys_exit 0 (printed quit.2) (disk quit.2) (events quit.2)
        end
    end.
Proof.
  intros Hread Hne. unfold main.
  rewrite (read_urls_exists _ _ _ Hread), Hread. cbn [negb].
  rewrite bool_decide_eq_false_2 by exact Hne. cbn zeta.
  destruct (clear_old_screenshots (a_out args) fs0) as [fs1 warnings]. cbn [fst snd].
  destruct (build_driver _ _ _) as [[[c msg]|driver] log]; [reflexivity|].
  destruct (screenshot_all _ _ _ _ _ _) as [body p1]. cbn [fst snd].
  now destruct (on_session Quit driver_quit p1) as [quit p2].
Qed.

(** What [main] does otherwise: it exits with status 1 before anything is
    deleted and before Chrome is started. *)
Lemma main_refused (args : Args) (fs0 : Fs.t) :
  Fs.path_exists (a_urls args) fs0 = false \/ read_urls lib (a_urls args) fs0 = Return [] ->
  exit_code (main lib args fs0) = 1 /\
  uncaught (main lib args fs0) = None /\
  disk_after (main lib args fs0) = fs0 /\
  session_calls (main lib args fs0) = [].
Proof.
  intros [Hmissing | Hempty]; unfold main.
  - rewrite Hmissing. now cbn.
  - rewrite (read_urls_exists _ _ _ Hempty), Hempty. now cbn.
Qed.

(** The two cases cover every run. *)
Lemma main_cases (args : Args) (fs0 : Fs.t) :
  (Fs.path_exists (a_urls args) fs0 = false \/
   read_urls lib (a_urls args) fs0 = Return []) \/
  exists urls : list string,
    read_urls lib (a_urls args) fs0 = Return urls /\ urls <> [].
Proof.
  destruct (Fs.path_exists (a_urls args) fs0) eqn:Hex; [|now left; left].
  destruct (read_urls_returns _ _ Hex) as [[|u urls] Hread].
  - left. now right.
  - right. now exists (u :: urls).
Qed.

(** A started run: either the driver could not be built, and the process
    ends after the purge; or the batch ran and the session was quit. *)
Lemma main_started_log (args : Args) (fs0 : Fs.t) (urls : list string) :
  read_urls lib (a_urls args) fs0 = Return urls ->
  urls <> [] ->
  let result := main lib args fs0 in
  let built :=
    build_driver window_width_default window_height_default (negb (a_headful args)) in
  let fs1 := Controller.clean_screenshots (a_out args) fs0 in
  (exists e : exn_class * string,
     built.1 = inl e /\
     session_calls result = built.2 /\
     exit_code result = 1 /\
     is_Some (uncaught result) /\
     disk_after result = fs1) \/
  (exists (driver : D) (new : list event) (n : nat),
     built.1 = inr driver /\
     session_calls result = built.2 ++ new ++ [Quit] /\
     visited new = take n (List.map (ensure_scheme lib) urls) /\
     (exit_code result = 0 ->
      visited new = List.map (ensure_scheme lib) urls /\ uncaught result = None) /\
     (exit_code result = 0 \/ exit_code result = 1 /\ is_Some (uncaught result)) /\
     quits new = 0%nat /\
     forallb within_bounds new = true /\
     Fs.read_only (disk_after result) = Fs.read_only fs1 /\
     (forall q : Fs.path,
        (forall u : string, u ∈ urls ->
           q <> (a_out args,
                 sanitize_filename (ensure_scheme lib u) Helpers.max_len_default)) ->
        Fs.files (disk_after result) !! q = Fs.files fs1 !! q)).
Proof.
  intros Hread Hne result built fs1. subst result.
  rewrite (main_started args fs0 urls Hread Hne). cbn zeta.
  rewrite clear_old_screenshots_fst. fold fs1. subst built.
  destruct (build_driver _ _ _) as [[[c msg]|driver] log]; cbn [fst snd].
  { left. exists (c, msg). now split_and!. }
  right.
  match goal with
  | |- context [screenshot_all lib urls ?o ?t ?w ?p0] =>
      destruct (screenshot_all_spec urls o t w p0)
        as (new & n & Hev & Hvis & Hall & Hq & Hb & Hro & Hkeep & _);
      destruct (screenshot_all lib urls o t w p0) as [body p1]
  end.
  cbn [fst snd session disk printed events] in *.
  unfold on_session. destruct (driver_quit (session p1)) as [quit d2].
  cbn [fst snd session disk printed events].
  exists driver, new, n. rewrite Hev, <- app_assoc.
  split; [reflexivity|].
  destruct quit as [[c msg]|[]]; [|destruct body as [[c msg]|[]]]; cbn;
    (split_and!;
     [ reflexivity | exact Hvis | try discriminate
     | first [ now left | right; split; [reflexivity | now eexists] ]
     | exact Hq | exact Hb
     | exact Hro | exact Hkeep ]).
  intros _. split; [now apply (Hall tt) | reflexivity].
Qed.

(** X9: the session is quit exactly when it was built.  When the URL file
    holds a URL and [build_driver] returns a session, [main] calls
    [driver.quit()] exactly once and as its last call on Chrome, whether
    the batch returned or raised; in every other run, the ones that end
    before Chrome is started and the ones where [build_driver] raises,
    [driver.quit()] is never called. *)
Theorem main_quits_session (args : Args) (fs0 : Fs.t) :
  let result := main lib args fs0 in
  let built :=
    build_driver window_width_default window_height_default (negb (a_headful args)) in
  (forall (urls : list string) (driver : D),
     read_urls lib (a_urls args) fs0 = Return urls ->
     urls <> [] ->
     built.1 = inr driver ->
     quits (session_calls result) = 1%nat /\
     last (session_calls result) = Some Quit) /\
  (Fs.path_exists (a_urls args) fs0 = false \/
   read_urls lib (a_urls args) fs0 = Return [] \/
   (exists e : exn_class * string, built.1 = inl e) ->
   quits (session_calls result) = 0%nat).
Proof.
  intros result built. subst result built.
  pose proof (build_driver_log window_width_default window_height_default
                (negb (a_headful args))) as (_ & Hlogq & _).
  split.
  - intros urls driver Hread Hne Hbuilt.
    destruct (main_started_log args fs0 urls Hread Hne)
      as [(e & Hb & _) | (d & new & n & _ & Hcalls & _ & _ & _ & Hq & _)].
    + congruence.
    + rewrite Hcalls. split.
      * rewrite !quits_app, Hlogq, Hq. reflexivity.
      * rewrite app_assoc. apply last_snoc.
  - intros Hcase.
    destruct (main_cases args fs0) as [Hrefused | (urls & Hread & Hne)].
    + destruct (main_refused args fs0 Hrefused) as (_ & _ & _ & Hcalls).
      now rewrite Hcalls.
    + destruct Hcase as [Hmissing | [Hempty | (e & Hfail)]].
      * rewrite (read_urls_exists _ _ _ Hread) in Hmissing. discriminate.
      * congruence.
      * destruct (main_started_log args fs0 urls Hread Hne)
          as [(e' & _ & Hcalls & _) | (d & new & n & Hb & _)].
        -- now rewrite Hcalls.
        -- congruence.
Qed.

(** X10: the batch visits the listed URLs in order.  With [urls] the lines
    [read_urls] keeps, the addresses [main] navigates to are a prefix of
    the listed URLs, each with its scheme ensured; the exit status is 0
    or 1; and when it is 0, no exception ended the process, the list held
    a URL and every listed URL was navigated to. *)
Theorem main_visits_listed_urls (args : Args) (fs0 : Fs.t) (urls : list string) :
  read_urls lib (a_urls args) fs0 = Return urls ->
  let result := main lib args fs0 in
  (exists n : nat,
     visited (session_calls result) = take n (List.map (ensure_scheme lib) urls)) /\
  (exit_code result = 0 \/ exit_code result = 1) /\
  (exit_code result = 0 ->
   urls <> [] /\
   uncaught result = None /\
   visited (session_calls result) = List.map (ensure_scheme lib) urls).
Proof.
  intros Hread result. subst result.
  pose proof (build_driver_log window_width_default window_height_default
                (negb (a_headful args))) as (Hlogv & _ & _).
  destruct urls as [|u urls].
  - destruct (main_refused args fs0 (or_intror Hread)) as (Hcode & _ & _ & Hcalls).
    rewrite Hcalls, Hcode. split_and!.
    + now exists 0%nat.
    + now right.
    + discriminate.
  - assert (Hne : u :: urls <> []) by discriminate.
    destruct (main_started_log args fs0 (u :: urls) Hread Hne)
      as [(e & _ & Hcalls & Hcode & _)
         | (d & new & n & _ & Hcalls & Hvis & Hzero & Hcode & _)];
      rewrite Hcalls.
    + rewrite Hlogv, Hcode. split_and!; [now exists 0%nat | now right | discriminate].
    + rewrite !visited_app, Hlogv. cbn [app].
      change (visited [Quit]) with (@nil string). rewrite app_nil_r. split_and!.
      * now exists n.
      * destruct Hcode as [-> | [-> _]]; [now left | now right].
      * intros Hz. destruct (Hzero Hz) as [Hall Hnone]. now split_and!.
Qed.



(** X12: the capture never asks for more than 10000 by 200000 pixels.
    Every [Emulation.setDeviceMetricsOverride] that [main] sends, for
    whatever content size Chrome reports, has a width of at most 10000 and
    a height of at most 200000. *)
Theorem main_overrides_bounded (args : Args) (fs0 : Fs.t) :
  forallb within_bounds (session_calls (main lib args fs0)) = true /\
  forall width height : Z,
    SetDeviceMetricsOverride width height ∈ session_calls (main lib args fs0) ->
    width <= 10000 /\ height <= 200000.
Proof.
  assert (Hall : forallb within_bounds (session_calls (main lib args fs0)) = true).
  { pose proof (build_driver_log window_width_default window_height_default
                  (negb (a_headful args))) as (_ & _ & Hlogb).
    destruct (main_cases args fs0) as [Hrefused | (urls & Hread & Hne)].
    - destruct (main_refused args fs0 Hrefused) as (_ & _ & _ & ->). reflexivity.
    - destruct (main_started_log args fs0 urls Hread Hne)
        as [(e & _ & -> & _) | (d & new & n & _ & -> & _ & _ & _ & _ & Hb & _)].
      + exact Hlogb.
      + rewrite !forallb_app, Hlogb, Hb. reflexivity. }
  split; [exact Hall|].
  intros width height Hin.
  rewrite forallb_forall in Hall. apply list_elem_of_In in Hin.
  specialize (Hall _ Hin). cbn in Hall.
  apply andb_true_iff in Hall as [Hw Hh]. split; now apply Z.leb_le.
Qed.

(** X22: a navigation error ends the batch.  When [driver.get] raises for
    a URL, whatever the class of the exception, the loop of [main] raises
    it at once: the loading line is the last one printed, nothing is
    written, no later call is made on the session, and the URLs after it
    are not visited. *)
Theorem navigation_failure_ends_batch (u : string) (rest : list string)
        (out_dir : string) (timeout : Z) (wait : float) (p : Process D)
        (e : exn_class * string) (d1 : D) :
  driver_get (ensure_scheme lib u) (session p) = (inl e, d1) ->
  screenshot_all lib (u :: rest) out_dir timeout wait p
  = (inl e,
     {| session := d1; disk := disk p;
        printed := printed p ++ ["[INFO] Loading: " +:+ ensure_scheme lib u];
        events := events p ++ [Get (ensure_scheme lib u)] |}).
Proof.
  intros Hget. cbn [screenshot_all]. apply and_then_inl.
  unfold screenshot_url. apply and_then_inl.
  unfold load_page.
  rewrite (and_then_inr (print ("[INFO] Loading: " +:+ ensure_scheme lib u)) _ p tt _
             eq_refl).
  apply and_then_inl. unfold on_session. cbn [session disk printed events].
  now rewrite Hget.
Qed.

(** *** The log of saved files *)










End BatchProofs.

(** ** The endpoints over the capture script *)

Section EndpointFrame.
Import Controller.
Variable lib : Imaging.
Variable host : Host.



End EndpointFrame.

Section PipelineProofs.
Import Controller.
Context {D : Type} `{ScreenshotUrls.Chrome D}.
Variable script : ScreenshotUrls.Lib.
Variable streams : Pipeline.Streams.
Variable stamp : string.
Variable dumps : Report -> string.
Variable lib : Imaging.

(** The controller reads the URL list the way the script does. *)
Lemma pipeline_list_urls (p : Fs.path) (fs0 : Fs.t) (urls : list string) :
  ScreenshotUrls.read_urls script p fs0 = Return urls ->
  list_urls (Pipeline.host script streams stamp dumps) p fs0
  = List.map (ScreenshotUrls.ensure_scheme script) urls.
Proof.
  unfold ScreenshotUrls.read_urls, list_urls.
  destruct (Fs.files fs0 !! p) as [text|]; [|discriminate].
  now intros [= <-].
Qed.

Lemma pipeline_list_urls_missing (p : Fs.path) (fs0 : Fs.t) :
  Fs.path_exists p fs0 = false ->
  list_urls (Pipeline.host script streams stamp dumps) p fs0 = [].
Proof.
  unfold list_urls. destruct (Fs.files fs0 !! p) as [text|] eqn:E; [|reflexivity].
  rewrite (lookup_path_exists _ _ _ E). discriminate.
Qed.









(** The lines both readers keep. *)
Lemma kept_line (ln : string) :
  negb (Py.is_empty ln) && negb (bool_decide (is_Some (Py.strip_prefix "#" ln))) = true ->
  ln <> EmptyString /\ Py.strip_prefix "#" ln = None.
Proof.
  intros [Hne Hcomment]%andb_true_iff.
  apply negb_true_iff in Hne. apply negb_true_iff, bool_decide_eq_false in Hcomment.
  split.
  - intros ->. discriminate.
  - destruct (Py.strip_prefix "#" ln) as [r|]; [|reflexivity].
    exfalso. apply Hcomment. now exists r.
Qed.

(** X17: the controller and the script read the URL file alike.  On a
    file that exists, [list_urls] of the controller returns the lines
    [read_urls] of the script keeps, each with its scheme ensured as [main]
    ensures it: one URL per kept line, in order; no kept line is empty or
    starts with ["#"], and no URL is empty.  On a missing file [list_urls]
    returns the empty list where [read_urls] raises. *)
Theorem url_list_readers_agree (p : Fs.path) (fs0 : Fs.t) :
  let host := Pipeline.host script streams stamp dumps in
  (Fs.path_exists p fs0 = false ->
   list_urls host p fs0 = [] /\
   exists e : string, ScreenshotUrls.read_urls script p fs0 = Raise e) /\
  (Fs.path_exists p fs0 = true ->
   exists lines : list string,
     ScreenshotUrls.read_urls script p fs0 = Return lines /\
     list_urls host p fs0 = List.map (ScreenshotUrls.ensure_scheme script) lines /\
     List.length (list_urls host p fs0) = List.length lines /\
     Forall (fun ln => ln <> EmptyString /\ Py.strip_prefix "#" ln = None) lines /\
     Forall (fun u => u <> EmptyString) (list_urls host p fs0)).
Proof.
  intros host. split.
  - intros Hmissing. split; [now apply pipeline_list_urls_missing|].
    unfold ScreenshotUrls.read_urls.
    destruct (Fs.files fs0 !! p) as [text|] eqn:E; [|now eexists].
    rewrite (lookup_path_exists _ _ _ E) in Hmissing. discriminate.
  - intros Hex. destruct (read_urls_returns script p fs0 Hex) as [lines Hread].
    pose proof (pipeline_list_urls p fs0 lines Hread) as Hlist. fold host in Hlist.
    assert (Hlines : Forall (fun ln => ln <> EmptyString /\ Py.strip_prefix "#" ln = None)
                       lines).
    { revert Hread. unfold ScreenshotUrls.read_urls.
      destruct (Fs.files fs0 !! p) as [text|]; [|discriminate]. intros [= <-].
      apply Forall_forall. intros ln Hin.
      apply list_elem_of_In, List.filter_In in Hin as [_ Hkeep].
      now apply kept_line. }
    exists lines. split_and!; try assumption.
    + rewrite Hlist. apply List.length_map.
    + rewrite Hlist. apply Forall_fmap. eapply Forall_impl; [exact Hlines|].
      intros ln [Hne _]. cbn. unfold ScreenshotUrls.ensure_scheme.
      destruct (ScreenshotUrls.match_scheme script ln); [exact Hne|].
      rewrite str_append_cons. discriminate.
Qed.



End PipelineProofs.

(** ** The sample batch *)

(** The sample batch over [Demo.Tab]: the five URLs are visited in order,
    the capture of d fails and is reported, the others are saved, the old
    screenshot is gone and the session is quit. *)
Example demo_batch :
  let result := ScreenshotUrls.main (D := Demo.Tab) Demo.script_lib Demo.script_args Demo.fs0 in
  ScreenshotUrls.exit_code result = 0 /\
  ScreenshotUrls.visited (ScreenshotUrls.session_calls result) = Demo.urls /\
  ScreenshotUrls.quits (ScreenshotUrls.session_calls result) = 1%nat /\
  ScreenshotUrls.stdout_lines result
  = ["[INFO] Loading: https://a.example";
     "[OK] Saved: /data/screenshots/a.example.png";
     "[INFO] Loading: https://b.example";
     "[OK] Saved: /data/screenshots/b.example.png";
     "[INFO] Loading: https://c.example";
     "[OK] Saved: /data/screenshots/c.example.png";
     "[INFO] Loading: https://d.example";
     "[ERROR] Failed to capture https://d.example: target closed";
     "[INFO] Loading: https://e.example";
     "[OK] Saved: /data/screenshots/e.example.png"] /\
  Fs.path_exists ("/data/screenshots", "d.example.png")
    (ScreenshotUrls.disk_after result) = false /\
  Fs.path_exists ("/data/screenshots", "old.example.png")
    (ScreenshotUrls.disk_after result) = false /\
  Fs.path_exists ("/data/screenshots", "notes.txt")
    (ScreenshotUrls.disk_after result) = true.
Proof. vm_compute. split_and!; reflexivity. Qed.

(** A batch whose second address does not resolve: the first page is
    captured although it never got ready, the third address is never
    visited, the process ends with status 1 and the session is quit. *)
Example demo_flaky_batch :
  let result :=
    ScreenshotUrls.main (D := Demo.Tab) Demo.script_lib Demo.script_args Demo.flaky_fs in
  ScreenshotUrls.exit_code result = 1 /\
  ScreenshotUrls.uncaught result = Some "net::ERR_NAME_NOT_RESOLVED" /\
  ScreenshotUrls.visited (ScreenshotUrls.session_calls result)
  = ["https://slow.example"; "https://down.example"] /\
  last (ScreenshotUrls.session_calls result) = Some ScreenshotUrls.Quit /\
  ScreenshotUrls.stdout_lines result
  = ["[INFO] Loading: https://slow.example";
     "[WARN] Timed out waiting for readyState on: https://slow.example";
     "[OK] Saved: /data/screenshots/slow.example.png";
     "[INFO] Loading: https://down.example"] /\
  Fs.path_exists ("/data/screenshots", "a.example.png")
    (ScreenshotUrls.disk_after result) = false.
Proof. vm_compute. split_and!; reflexivity. Qed.

Lemma demo_read_urls :
  ScreenshotUrls.read_urls Demo.script_lib
    (ScreenshotUrls.a_urls Demo.script_args) Demo.fs0
  = Return ["a.example"; "https://b.example"; "c.example"; "d.example";
            "https://e.example"].
Proof. vm_compute. reflexivity. Qed.

Lemma main_visits_listed_urls_witness :
  ScreenshotUrls.read_urls Demo.script_lib
    (ScreenshotUrls.a_urls Demo.script_args) Demo.fs0
  = Return ["a.example"; "https://b.example"; "c.example"; "d.example";
            "https://e.example"] /\
  exists n : nat,
    ScreenshotUrls.visited
      (ScreenshotUrls.session_calls
         (ScreenshotUrls.main (D := Demo.Tab) Demo.script_lib Demo.script_args Demo.fs0))
    = take n
        (List.map (ScreenshotUrls.ensure_scheme Demo.script_lib)
           ["a.example"; "https://b.example"; "c.example"; "d.example";
            "https://e.example"]).
Proof.
  split; [exact demo_read_urls|].
  exact (proj1 (main_visits_listed_urls (D := Demo.Tab) Demo.script_lib
                  Demo.script_args Demo.fs0 _ demo_read_urls)).
Defined.


Lemma navigation_failure_ends_batch_witness :
  (ScreenshotUrls.screenshot_all (D := Demo.Tab) Demo.script_lib
     ["down.example"; "a.example"] "/data/screenshots" 20 2.0%float Demo.started).1
  = inl (ScreenshotUrls.WebDriverException, "net::ERR_NAME_NOT_RESOLVED").
Proof.
  rewrite (@navigation_failure_ends_batch Demo.Tab Demo.tab_chrome Demo.script_lib
             "down.example" ["a.example"] "/data/screenshots" 20 2.0%float
             Demo.started
             (ScreenshotUrls.WebDriverException, "net::ERR_NAME_NOT_RESOLVED")
             (ScreenshotUrls.session Demo.started) eq_refl).
  reflexivity.
Defined.

(** ** The sample run over the script *)








